(** * Transcript viewer: the local server (serve.py) and the page builder
      (viewer/build.py)

    A shallow embedding of the two Python programs and the properties of
    their HTTP state API, of the deletion routine, of the markdown
    parser and of the viewer builder.

    Conventions of the embedding.
    - A Python [str] is a [string]; one [ascii] stands for one character,
      so the texts covered are those over the code points 0..255.  The
      request path is decoded as ISO-8859-1 by [http.server], hence
      [len(video_id)] is [String.length] exactly.
    - A value produced by [json.loads] is a [json]; a Python [dict] with
      string keys is a [gmap string json].
    - Code with effects runs in the monad [M]: it threads the [world]
      (the files under SKILL_DIR) and ends in a value or in a raised
      exception.  An exception that leaves a request handler means that
      no response is sent.
    - [state.json] is only ever read through [json.loads] and written
      through [json.dumps]; its text is represented by what [json.loads]
      makes of it (see [store]).  Writing a file is taken to succeed. *)

From Stdlib Require Import ZArith String Ascii List Bool Lia Sorted Permutation.
From Stdlib Require Import Floats.SpecFloat.
From stdpp Require Import gmap strings list pretty.

#[local] Set Warnings "-register-all".

(* ===================================================================== *)
(** * Part I: the programs                                                *)
(* ===================================================================== *)

(** ** Python strings *)

Module Str.

(** [s.startswith(p)] *)
Definition startswith (p s : string) : bool := String.prefix p s.

(** [s[n:]] *)
Fixpoint drop (n : nat) (s : string) : string :=
  match n, s with
  | S n', String _ s' => drop n' s'
  | _, _ => s
  end.

(** [s.split(sep)] with a one-character separator: never empty *)
Fixpoint split (sep : ascii) (s : string) : list string :=
  match s with
  | EmptyString => [EmptyString]
  | String c s' =>
      if Ascii.eqb c sep then EmptyString :: split sep s'
      else match split sep s' with
           | h :: t => String c h :: t
           | [] => [String c EmptyString]
           end
  end.

(** [l[-1]] on a list of strings known to be non-empty *)
Definition last (l : list string) : string := List.last l EmptyString.

(** [c in s] for a character *)
Fixpoint mem (c : ascii) (s : string) : bool :=
  match s with
  | EmptyString => false
  | String c' s' => Ascii.eqb c c' || mem c s'
  end.

(** [sub in s]: substring test *)
Fixpoint contains (sub s : string) : bool :=
  String.prefix sub s ||
  match s with
  | EmptyString => false
  | String _ s' => contains sub s'
  end.

(** The longest prefix of [s] whose characters satisfy [p], and what
    follows it. *)
Fixpoint take_while (p : ascii -> bool) (s : string) : string :=
  match s with
  | String c s' => if p c then String c (take_while p s') else EmptyString
  | EmptyString => EmptyString
  end.

Fixpoint drop_while (p : ascii -> bool) (s : string) : string :=
  match s with
  | String c s' => if p c then drop_while p s' else s
  | EmptyString => EmptyString
  end.

(** [Some rest] when [s = p + rest] *)
Fixpoint strip_prefix (p s : string) : option string :=
  match p, s with
  | EmptyString, _ => Some s
  | String a p', String b s' => if Ascii.eqb a b then strip_prefix p' s' else None
  | String _ _, EmptyString => None
  end.

Fixpoint rev_acc (s acc : string) : string :=
  match s with
  | EmptyString => acc
  | String c s' => rev_acc s' (String c acc)
  end.

Definition rev (s : string) : string := rev_acc s EmptyString.

(** Code points below 256 for which [str.isspace] holds; the same set
    is what [\s] matches in a [str] pattern. *)
Definition is_space (c : ascii) : bool :=
  let n := nat_of_ascii c in
  ((9 <=? n) && (n <=? 13)) || ((28 <=? n) && (n <=? 32))
  || (n =? 133) || (n =? 160).

(** [s.endswith(suffix)] *)
Definition endswith (suffix s : string) : bool :=
  String.prefix (rev suffix) (rev s).

(** [s.strip()] *)
Definition strip (s : string) : string :=
  rev (drop_while is_space (rev (drop_while is_space s))).

(** [bool(s)] *)
Definition nonempty (s : string) : bool :=
  match s with EmptyString => false | _ => true end.

End Str.

(** ** JSON values and the Python operators applied to them *)

(** What [json.loads] returns.  Numbers are [int] or [float]. *)
Inductive json : Type :=
| JNull
| JBool (b : bool)
| JInt (z : Z)
| JFloat (f : spec_float)
| JStr (s : string)
| JArr (l : list json)
| JObj (d : gmap string json).

Inductive exn : Type :=
| TypeError
| KeyError
| UnicodeDecodeError
| OSError (msg : string).

Inductive result (A : Type) : Type :=
| Ok (a : A)
| Raise (e : exn).
Arguments Ok {A} a.
Arguments Raise {A} e.

Module Py.

(** [bool(v)] *)
Definition truthy (v : json) : bool :=
  match v with
  | JNull => false
  | JBool b => b
  | JInt z => negb (Z.eqb z 0)
  | JFloat (S754_zero _) => false
  | JFloat _ => true
  | JStr s => Str.nonempty s
  | JArr l => match l with [] => false | _ => true end
  | JObj d => negb (bool_decide (d = ∅))
  end.

(** [k == v] for a [str] k *)
Definition str_eq (k : string) (v : json) : bool :=
  match v with
  | JStr s => String.eqb k s
  | _ => false
  end.

(** [k in v] for a [str] k: key of a dict, element of a list,
    substring of a str; the other values are not iterable. *)
Definition contains (k : string) (v : json) : result bool :=
  match v with
  | JObj d => Ok (bool_decide (is_Some (d !! k)))
  | JArr l => Ok (existsb (str_eq k) l)
  | JStr s => Ok (Str.contains k s)
  | _ => Raise TypeError
  end.

(** [v[k]] for a [str] k *)
Definition getitem (v : json) (k : string) : result json :=
  match v with
  | JObj d => match d !! k with Some x => Ok x | None => Raise KeyError end
  | _ => Raise TypeError
  end.

(** [v[k] = x] for a [str] k: the container after the assignment *)
Definition setitem (v : json) (k : string) (x : json) : result json :=
  match v with
  | JObj d => Ok (JObj (<[k := x]> d))
  | _ => Raise TypeError
  end.

(** [del v[k]] for a [str] k *)
Definition delitem (v : json) (k : string) : result json :=
  match v with
  | JObj d => match d !! k with
              | Some _ => Ok (JObj (delete k d))
              | None => Raise KeyError
              end
  | _ => Raise TypeError
  end.

End Py.

(** ** The files under SKILL_DIR *)

(** An entry of a content directory: [node_text] is what [read_text]
    returns ([None] when it raises), [node_unlink] is [None] when
    [unlink] succeeds and [Some e] when it raises an exception that
    prints as [e]. *)
Record node : Type := Node {
  node_text : option string;
  node_unlink : option string
}.

(** The entries of a directory in the order in which the directory is
    scanned. *)
Abbreviation directory := (list (string * node)).

(** [state.json]: absent, present with a text that cannot be read or on
    which [json.loads] raises, or present with a text that parses to a
    value.  [json.dumps v] is a text that parses back to [v]. *)
Inductive store : Type :=
| Missing
| Corrupt
| Holds (v : json).

Inductive event : Type :=
| EvLoadState
| EvSaveState
| EvUnlink (subdir name : string)
| EvRebuild.

Record world : Type := World {
  state_file : store;                      (* SKILL_DIR/state.json *)
  dirs : gmap string directory;            (* SKILL_DIR/<subdir>, when it exists *)
  template : option (result string);       (* viewer/template.html and what read_text does *)
  index_html : option string;              (* SKILL_DIR/index.html *)
  build_script : bool;                     (* viewer/build.py exists *)
  trace : list event                       (* what has been done so far *)
}.

Definition set_state_file (s : store) (w : world) : world :=
  World s (dirs w) (template w) (index_html w) (build_script w) (trace w).

Definition set_dirs (d : gmap string directory) (w : world) : world :=
  World (state_file w) d (template w) (index_html w) (build_script w) (trace w).

Definition set_index_html (t : string) (w : world) : world :=
  World (state_file w) (dirs w) (template w) (Some t) (build_script w) (trace w).

Definition log (e : event) (w : world) : world :=
  World (state_file w) (dirs w) (template w) (index_html w) (build_script w)
        (trace w ++ [e]).

(** ** The monad of effectful code *)

Definition M (A : Type) : Type := world -> result A * world.

Definition ret {A} (a : A) : M A := fun w => (Ok a, w).

Definition bind {A B} (m : M A) (k : A -> M B) : M B :=
  fun w => match m w with
           | (Ok a, w') => k a w'
           | (Raise e, w') => (Raise e, w')
           end.

Definition raise {A} (e : exn) : M A := fun w => (Raise e, w).

(** A pure computation that may raise *)
Definition lift {A} (r : result A) : M A := fun w => (r, w).

(** [try: m  except Exception as e: h e] *)
Definition try_except {A} (m : M A) (h : exn -> M A) : M A :=
  fun w => match m w with
           | (Ok a, w') => (Ok a, w')
           | (Raise e, w') => h e w'
           end.

Declare Scope py_scope.
Delimit Scope py_scope with py.
Notation "x <- m ;; k" := (bind m (fun x => k))
  (at level 100, m at next level, right associativity) : py_scope.
Notation "m ;;; k" := (bind m (fun _ => k))
  (at level 100, right associativity) : py_scope.
Open Scope py_scope.

(** What a loop body hands back: go on with the accumulator, or leave the
    enclosing function with a value ([return] inside a [for]). *)
Inductive flow (R A : Type) : Type :=
| Next (a : A)
| Return (r : R).
Arguments Next {R A} a.
Arguments Return {R A} r.

Fixpoint for_each {X R A} (xs : list X) (body : X -> A -> M (flow R A))
         (acc : A) : M (flow R A) :=
  match xs with
  | [] => ret (Next acc)
  | x :: xs' =>
      f <- body x acc ;;
      match f with
      | Next acc' => for_each xs' body acc'
      | Return r => ret (Return r)
      end
  end.

(** ** Matching a file name against a glob pattern

    [Path.glob] with a one-component pattern lists the directory and
    keeps the names that the pattern matches in full, case-sensitively;
    the pattern is translated as by [fnmatch.translate]: [*] matches any
    run of characters (consecutive [*] count as one, as in pathlib of
    Python 3.13), [?] any one character, [[...]] a character class, every
    other character itself.

    Before Python 3.13 [Path.glob] does not list anything for a pattern
    in which "**" is part of a longer component: it raises ValueError.
    The statements about what a DELETE removes and answers are therefore
    made for identifiers without "**", on which every version agrees;
    the statements about what is never removed hold with and without. *)

Module Glob.

Inductive token : Type :=
| TStar
| TAny
| TNever                          (* an empty class: (?!) *)
| TLit (c : ascii)
| TSet (negated : bool) (body : string).   (* the regex class [body] *)

Definition ascii_ltb (a b : ascii) : bool := (nat_of_ascii a <? nat_of_ascii b)%nat.
Definition ascii_leb (a b : ascii) : bool := (nat_of_ascii a <=? nat_of_ascii b)%nat.

(** The text up to the first "]" and the text after it *)
Fixpoint find_close (s : string) : option (string * string) :=
  match s with
  | EmptyString => None
  | String c s' =>
      if Ascii.eqb c "]" then Some (EmptyString, s')
      else match find_close s' with
           | Some (body, rest) => Some (String c body, rest)
           | None => None
           end
  end.

(** Given the pattern after a "[", the text [pat[i:j]] of the class and
    the pattern after the closing "]": a leading "!" and a "]" right
    after it do not close the class. *)
Definition split_class (r : string) : option (string * string) :=
  let '(neg, r1) := match r with
                    | String "!" t => ("!", t)
                    | _ => (EmptyString, r)
                    end in
  let '(br, r2) := match r1 with
                   | String "]" t => ("]", t)
                   | _ => (EmptyString, r1)
                   end in
  match find_close r2 with
  | Some (body, rest) => Some (neg +:+ br +:+ body, rest)
  | None => None
  end.

(** Cutting the class text at the hyphens that make ranges: a hyphen is
    not looked for in the first [skip] characters of a chunk. *)
Fixpoint chunks_from (skip : nat) (cur : string) (s : string) : list string :=
  match s with
  | EmptyString => [cur]
  | String c s' =>
      match skip with
      | S n => chunks_from n (cur +:+ String c EmptyString) s'
      | O => if Ascii.eqb c "-" then cur :: chunks_from 2 EmptyString s'
             else chunks_from 0 (cur +:+ String c EmptyString) s'
      end
  end.

(** [chunks[-1] += '-'] when the last chunk is empty *)
Fixpoint close_chunks (cs : list string) : list string :=
  match cs with
  | [c; EmptyString] => [c +:+ "-"]
  | c :: cs' => c :: close_chunks cs'
  | [] => []
  end.

Definition first_char (s : string) : option ascii :=
  match s with String c _ => Some c | EmptyString => None end.

Definition last_char (s : string) : option ascii := first_char (Str.rev s).

(** [s[:-1]] *)
Definition but_last (s : string) : string := Str.rev (Str.drop 1 (Str.rev s)).

(** Removing the empty ranges, from the last chunk to the first *)
Fixpoint merge_chunks (cs : list string) : list string :=
  match cs with
  | [] => []
  | c :: rest =>
      match merge_chunks rest with
      | [] => [c]
      | d :: ds =>
          match last_char c, first_char d with
          | Some hi, Some lo =>
              if ascii_ltb lo hi then (but_last c +:+ Str.drop 1 d) :: ds
              else c :: d :: ds
          | _, _ => c :: d :: ds
          end
      end
  end.

(** [s.replace(c, '\\' + c)] for the characters of [esc] *)
Fixpoint escape (esc : string) (s : string) : string :=
  match s with
  | EmptyString => EmptyString
  | String c s' =>
      if Str.mem c esc then String "\" (String c (escape esc s'))
      else String c (escape esc s')
  end.

Fixpoint join (sep : string) (l : list string) : string :=
  match l with
  | [] => EmptyString
  | [x] => x
  | x :: l' => x +:+ sep +:+ join sep l'
  end.

(** The variable [stuff] of [fnmatch.translate] for a class text *)
Definition class_stuff (inner : string) : string :=
  let stuff :=
    if negb (Str.mem "-" inner) then escape "\" inner
    else
      let skip := match inner with String "!" _ => 2 | _ => 1 end in
      let chunks := merge_chunks (close_chunks (chunks_from skip EmptyString inner)) in
      join "-" (map (escape "\-") chunks) in
  escape "&~|" stuff.

Definition class_token (inner : string) : token :=
  match class_stuff inner with
  | EmptyString => TNever
  | String "!" EmptyString => TAny
  | String "!" body => TSet true body
  | String "^" body => TSet false (String "\" (String "^" body))
  | String "[" body => TSet false (String "\" (String "[" body))
  | stuff => TSet false stuff
  end.

(** [fnmatch.translate] *)
Fixpoint translate_fuel (fuel : nat) (pat : string) : list token :=
  match fuel with
  | O => []
  | S fuel' =>
      match pat with
      | EmptyString => []
      | String c rest =>
          if Ascii.eqb c "*" then TStar :: translate_fuel fuel' rest
          else if Ascii.eqb c "?" then TAny :: translate_fuel fuel' rest
          else if Ascii.eqb c "[" then
            match split_class rest with
            | None => TLit "[" :: translate_fuel fuel' rest
            | Some (inner, rest') => class_token inner :: translate_fuel fuel' rest'
            end
          else TLit c :: translate_fuel fuel' rest
      end
  end.

(** One step consumes at least one character of the pattern. *)
Definition translate (pat : string) : list token :=
  translate_fuel (String.length pat) pat.

(** The members of a regex class: characters, a backslash making the
    next one literal, and ranges [a-b]. *)
Fixpoint atoms (s : string) : list (ascii * bool) :=
  match s with
  | EmptyString => []
  | String "\" (String c s') => (c, true) :: atoms s'
  | String c s' => (c, false) :: atoms s'
  end.

Fixpoint in_atoms (l : list (ascii * bool)) (x : ascii) : bool :=
  match l with
  | [] => false
  | (lo, _) :: ("-"%char, false) :: (hi, _) :: l' =>
      (ascii_leb lo x && ascii_leb x hi) || in_atoms l' x
  | (c, _) :: l' => Ascii.eqb c x || in_atoms l' x
  end.

Definition accepts (t : token) (x : ascii) : bool :=
  match t with
  | TStar => true
  | TAny => true
  | TNever => false
  | TLit c => Ascii.eqb c x
  | TSet negated body => xorb negated (in_atoms (atoms body) x)
  end.

(** Full match of a name by a translated pattern *)
Fixpoint matches (ts : list token) (name : string) : bool :=
  match ts with
  | [] => match name with EmptyString => true | _ => false end
  | TStar :: ts' =>
      (fix star (s : string) : bool :=
         matches ts' s ||
         match s with
         | EmptyString => false
         | String _ s' => star s'
         end) name
  | t :: ts' =>
      match name with
      | String x s' => accepts t x && matches ts' s'
      | EmptyString => false
      end
  end.

Definition fnmatch (pattern name : string) : bool :=
  matches (translate pattern) name.

(** [dir_path.glob(pattern)]: the names, in scanning order *)
Definition glob (d : directory) (pattern : string) : list string :=
  map fst (List.filter (fun e => fnmatch pattern (fst e)) d).

End Glob.

(** ** viewer/build.py *)

Module Build.

Definition is_digit (c : ascii) : bool :=
  let n := nat_of_ascii c in (48 <=? n) && (n <=? 57).

(** [[a-zA-Z0-9_-]] *)
Definition is_idchar (c : ascii) : bool :=
  let n := nat_of_ascii c in
  ((97 <=? n) && (n <=? 122)) || ((65 <=? n) && (n <=? 90))
  || is_digit c || Ascii.eqb c "_" || Ascii.eqb c "-".

Definition is_newline (c : ascii) : bool := Ascii.eqb c "010".

(** [re.search]: the match at the leftmost position where the anchored
    matcher [m] succeeds. *)
Fixpoint search {A} (m : string -> option A) (s : string) : option A :=
  match m s with
  | Some r => Some r
  | None => match s with
            | EmptyString => None
            | String _ s' => search m s'
            end
  end.

(** [re.search] of a pattern that starts with [^] under [re.MULTILINE]:
    only the starts of lines are tried. *)
Fixpoint search_lines {A} (m : string -> option A) (bol : bool) (s : string)
  : option A :=
  match (if bol then m s else None) with
  | Some r => Some r
  | None => match s with
            | EmptyString => None
            | String c s' => search_lines m (is_newline c) s'
            end
  end.

(** [n] characters of the class [p], and the rest: [([p]{n})] *)
Fixpoint take_class (p : ascii -> bool) (n : nat) (s : string)
  : option (string * string) :=
  match n with
  | O => Some (EmptyString, s)
  | S n' =>
      match s with
      | String c s' =>
          if p c then
            match take_class p n' s' with
            | Some (g, rest) => Some (String c g, rest)
            | None => None
            end
          else None
      | EmptyString => None
      end
  end.

(** [(.+)]: the characters up to the end of the line, at least one *)
Definition line_of (s : string) : option string :=
  match Str.take_while (fun c => negb (is_newline c)) s with
  | EmptyString => None
  | g => Some g
  end.

(** [\s*(.+)], and [\s*(.+)$] under [re.MULTILINE]: the white space is
    taken greedily and given back one character at a time while the
    group cannot start. *)
Fixpoint ws_then_line (s : string) : option string :=
  match s with
  | EmptyString => None
  | String c s' =>
      if Str.is_space c then
        match ws_then_line s' with
        | Some g => Some g
        | None => line_of s
        end
      else line_of s
  end.

(** [^#\s+(.+)$] at the start of a line *)
Definition title_at (s : string) : option string :=
  match s with
  | String "#" (String c s') => if Str.is_space c then ws_then_line s' else None
  | _ => None
  end.

(** [\*\*Channel:\*\*\s*(.+)] at a position *)
Definition channel_at (s : string) : option string :=
  match Str.strip_prefix "**Channel:**" s with
  | Some r => ws_then_line r
  | None => None
  end.

(** [\*\*URL:\*\*\s*(https?://[^\s]+)] at a position.  The group starts
    with a letter, so the white space before it is never given back;
    the optional "s" is followed by ":", so it is never given back
    either. *)
Definition url_at (s : string) : option string :=
  match Str.strip_prefix "**URL:**" s with
  | None => None
  | Some r =>
      match Str.strip_prefix "http" (Str.drop_while Str.is_space r) with
      | None => None
      | Some r1 =>
          let '(scheme, r2) := match r1 with
                               | String "s" t => ("https", t)
                               | _ => ("http", r1)
                               end in
          match Str.strip_prefix "://" r2 with
          | None => None
          | Some r3 =>
              match Str.take_while (fun c => negb (Str.is_space c)) r3 with
              | EmptyString => None
              | g => Some (scheme +:+ "://" +:+ g)
              end
          end
      end
  end.

(** [^(\d{4}-\d{2}-\d{2})] with [re.match] *)
Definition date_at (s : string) : option string :=
  match take_class is_digit 4 s with
  | Some (y, String "-" r1) =>
      match take_class is_digit 2 r1 with
      | Some (m, String "-" r2) =>
          match take_class is_digit 2 r2 with
          | Some (d, _) => Some (y +:+ "-" +:+ m +:+ "-" +:+ d)
          | None => None
          end
      | _ => None
      end
  | _ => None
  end.

(** [[?&]v=([a-zA-Z0-9_-]{11})] at a position *)
Definition v_param_at (s : string) : option string :=
  match s with
  | String c (String "v" (String "=" r)) =>
      if Ascii.eqb c "?" || Ascii.eqb c "&" then
        match take_class is_idchar 11 r with
        | Some (g, _) => Some g
        | None => None
        end
      else None
  | _ => None
  end.

(** [youtu\.be/([a-zA-Z0-9_-]{11})] at a position *)
Definition youtu_be_at (s : string) : option string :=
  match Str.strip_prefix "youtu.be/" s with
  | Some r => match take_class is_idchar 11 r with
              | Some (g, _) => Some g
              | None => None
              end
  | None => None
  end.

(** [$] without [re.MULTILINE]: the end of the text, or just before a
    newline that ends the text *)
Definition at_end (s : string) : bool :=
  match s with
  | EmptyString => true
  | String c EmptyString => is_newline c
  | _ => false
  end.

(** [-([a-zA-Z0-9_-]{11})\.md$] at a position *)
Definition md_suffix_at (s : string) : option string :=
  match s with
  | String "-" r =>
      match take_class is_idchar 11 r with
      | Some (g, r1) =>
          match Str.strip_prefix ".md" r1 with
          | Some r2 => if at_end r2 then Some g else None
          | None => None
          end
      | None => None
      end
  | _ => None
  end.

(** [if url:] holds for a url that is neither [None] nor empty *)
Definition url_given (url : option string) : option string :=
  match url with
  | Some u => if Str.nonempty u then Some u else None
  | None => None
  end.

Definition extract_video_id (filename : string) (url : option string)
  : option string :=
  let from_filename := search md_suffix_at filename in
  match url_given url with
  | Some u =>
      match search v_param_at u with
      | Some g => Some g
      | None =>
          match search youtu_be_at u with
          | Some g => Some g
          | None => from_filename
          end
      end
  | None => from_filename
  end.

(** [name.rfind(c)] *)
Fixpoint rfind (c : ascii) (s : string) : option nat :=
  match s with
  | EmptyString => None
  | String x s' =>
      match rfind c s' with
      | Some i => Some (S i)
      | None => if Ascii.eqb x c then Some 0 else None
      end
  end.

(** [s[:n]] *)
Fixpoint take (n : nat) (s : string) : string :=
  match n, s with
  | S n', String c s' => String c (take n' s')
  | _, _ => EmptyString
  end.

(** [filepath.stem] *)
Definition stem (name : string) : string :=
  match rfind "." name with
  | Some i => if (0 <? i) && (i <? String.length name - 1) then take i name
              else name
  | None => name
  end.

Record summary : Type := Summary {
  id : string;
  title : string;
  channel : string;
  url : string;
  date : string;
  thumbnail : string;
  content : string
}.

(** [parse_summary(filepath)] for the entry [name] of the summaries
    directory; the warnings it prints are left out. *)
Definition parse_summary (name : string) (nd : node) : option summary :=
  match node_text nd with
  | None => None
  | Some content =>
      let title := match search_lines title_at true content with
                   | Some g => Str.strip g
                   | None => stem name
                   end in
      let channel := match search channel_at content with
                     | Some g => Str.strip g
                     | None => "Unknown"
                     end in
      let url := match search url_at content with
                 | Some g => Some (Str.strip g)
                 | None => None
                 end in
      let date := match date_at (stem name) with
                  | Some g => g
                  | None => "2025-01-01"
                  end in
      match extract_video_id name url with
      | None => None
      | Some video_id =>
          if negb (Str.nonempty video_id) then None
          else
            let url := match url_given url with
                       | Some u => u
                       | None => "https://www.youtube.com/watch?v=" +:+ video_id
                       end in
            let thumbnail :=
              "https://i.ytimg.com/vi/" +:+ video_id +:+ "/maxresdefault.jpg" in
            Some (Summary video_id title channel url date thumbnail content)
      end
  end.

(** *** [json.dumps(summaries, ensure_ascii=False, indent=None)] *)

Definition hex_digit (n : nat) : ascii :=
  if n <? 10 then ascii_of_nat (48 + n) else ascii_of_nat (87 + n).

Definition dquote : ascii := "034".

(** The replacement of one character inside a JSON string *)
Definition escape_char (c : ascii) : string :=
  let n := nat_of_ascii c in
  if Ascii.eqb c dquote then String "\" (String dquote EmptyString)
  else if Ascii.eqb c "\" then "\\"
  else if n =? 10 then "\n"
  else if n =? 13 then "\r"
  else if n =? 9 then "\t"
  else if n =? 8 then "\b"
  else if n =? 12 then "\f"
  else if n <? 32 then
    "\u00" +:+ String (hex_digit (n / 16)) (String (hex_digit (n mod 16)) EmptyString)
  else String c EmptyString.

Fixpoint escape_string (s : string) : string :=
  match s with
  | EmptyString => EmptyString
  | String c s' => escape_char c +:+ escape_string s'
  end.

Definition dumps_str (s : string) : string :=
  String dquote (escape_string s) +:+ String dquote EmptyString.

Definition dumps_item (kv : string * string) : string :=
  dumps_str (fst kv) +:+ ": " +:+ dumps_str (snd kv).

Definition dumps_summary (s : summary) : string :=
  "{" +:+ Glob.join ", " (map dumps_item
    [("id", id s); ("title", title s); ("channel", channel s);
     ("url", url s); ("date", date s); ("thumbnail", thumbnail s);
     ("content", content s)]) +:+ "}".

Definition dumps (l : list summary) : string :=
  "[" +:+ Glob.join ", " (map dumps_summary l) +:+ "]".

(** *** [template.replace(old, new)]: every occurrence, left to right,
    without overlap.  [skip] counts the characters of an occurrence
    that are still to be passed over. *)
Fixpoint replace_from (skip : nat) (old new s : string) : string :=
  match s with
  | EmptyString => EmptyString
  | String c s' =>
      match skip with
      | S n => replace_from n old new s'
      | O => if String.prefix old s
             then new +:+ replace_from (String.length old - 1) old new s'
             else String c (replace_from 0 old new s')
      end
  end.

Definition replace (old new s : string) : string := replace_from 0 old new s.

(** *** [sorted(paths, reverse=True)] on the entries of one directory *)
Fixpoint insert_desc (x : string * node) (l : list (string * node))
  : list (string * node) :=
  match l with
  | [] => [x]
  | y :: l' => if String.ltb (fst x) (fst y) then y :: insert_desc x l'
               else x :: l
  end.

Definition sorted_reverse (l : list (string * node)) : list (string * node) :=
  fold_right insert_desc [] l.

Definition placeholder : string := "/*SUMMARIES_DATA*/[]".

(** [build_viewer()]; what it prints is left out. *)
Definition build_viewer : M bool := fun w =>
  match dirs w !! "summaries" with
  | None => (Ok false, w)
  | Some d =>
      match template w with
      | None => (Ok false, w)
      | Some read_template =>
          let md_files :=
            sorted_reverse (List.filter (fun e => Glob.fnmatch "*.md" (fst e)) d) in
          let summaries := omap (fun e => parse_summary (fst e) (snd e)) md_files in
          match read_template with
          | Raise e => (Raise e, w)
          | Ok text =>
              let html := replace placeholder (dumps summaries) text in
              (Ok true, set_index_html html w)
          end
      end
  end.

End Build.

(** ** serve.py *)

Module Serve.

(** [load_state()]: the bare [except] swallows whatever reading or
    parsing raises. *)
Definition load_state : M json := fun w =>
  let w' := log EvLoadState w in
  match state_file w with
  | Missing => (Ok (JObj ∅), w')
  | Corrupt => (Ok (JObj ∅), w')
  | Holds v => (Ok v, w')
  end.

(** [save_state(state)] *)
Definition save_state (state : json) : M unit := fun w =>
  (Ok tt, log EvSaveState (set_state_file (Holds state) w)).

(** [rebuild_viewer()]: build.py runs as a child process on the same
    files; neither its result nor its failure reaches the caller. *)
Definition rebuild_viewer : M unit := fun w =>
  let w1 := log EvRebuild w in
  if build_script w1 then (Ok tt, snd (Build.build_viewer w1))
  else (Ok tt, w1).

Definition patterns (video_id : string) : list (string * string) :=
  [ ("summaries", "*-" +:+ video_id +:+ ".md");
    ("metadata", "*-" +:+ video_id +:+ ".json");
    ("transcripts", "*-" +:+ video_id +:+ ".txt");
    ("transcripts", "*-" +:+ video_id +:+ ".srt");
    ("audio", "*-" +:+ video_id +:+ ".mp3") ].

(** The first entry called [name] *)
Fixpoint find_entry (name : string) (d : directory) : option node :=
  match d with
  | [] => None
  | (n, nd) :: d' => if String.eqb n name then Some nd else find_entry name d'
  end.

Fixpoint remove_entry (name : string) (d : directory) : directory :=
  match d with
  | [] => []
  | (n, nd) :: d' => if String.eqb n name then d' else (n, nd) :: remove_entry name d'
  end.

(** The text of the exception for a path that is not there (relative
    to SKILL_DIR); a name that was just listed is there. *)
Definition enoent (subdir name : string) : string :=
  "[Errno 2] No such file or directory: '" +:+ subdir +:+ "/" +:+ name +:+ "'".

(** [filepath.unlink()] for [SKILL_DIR/subdir/name] *)
Definition unlink (subdir name : string) : M unit := fun w =>
  match dirs w !! subdir with
  | None => (Raise (OSError (enoent subdir name)), w)
  | Some d =>
      match find_entry name d with
      | None => (Raise (OSError (enoent subdir name)), w)
      | Some nd =>
          match node_unlink nd with
          | Some e => (Raise (OSError e), w)
          | None =>
              (Ok tt, log (EvUnlink subdir name)
                          (set_dirs (<[subdir := remove_entry name d]> (dirs w)) w))
          end
      end
  end.

(** [str(e)] for what [unlink] raises *)
Definition exn_text (e : exn) : string :=
  match e with
  | OSError msg => msg
  | _ => EmptyString
  end.

(** The body of the inner loop: one listed file *)
Definition delete_file (subdir name : string) (deleted_files : list string)
  : M (flow (bool * string) (list string)) :=
  try_except
    (unlink subdir name ;;;
     ret (Next (deleted_files ++ [subdir +:+ "/" +:+ name])))
    (fun e => ret (Return (false, "Failed to delete " +:+ name +:+ ": " +:+ exn_text e))).

(** The body of the outer loop: one (directory, pattern) pair.  The
    directory is listed in full before the first file is removed. *)
Definition delete_matching (pair : string * string) (deleted_files : list string)
  : M (flow (bool * string) (list string)) := fun w =>
  match dirs w !! fst pair with
  | None => (Ok (Next deleted_files), w)
  | Some d => for_each (Glob.glob d (snd pair)) (delete_file (fst pair)) deleted_files w
  end.

Definition delete_transcript (video_id : string) : M (bool * string) :=
  f <- for_each (patterns video_id) delete_matching [] ;;
  match f with
  | Return r => ret r
  | Next deleted_files =>
      match deleted_files with
      | [] => ret (false, "No files found for video ID: " +:+ video_id)
      | _ =>
          state <- load_state ;;
          present <- lift (Py.contains video_id state) ;;
          (if present : bool then
             state' <- lift (Py.delitem state video_id) ;;
             save_state state'
           else ret tt) ;;;
          rebuild_viewer ;;;
          ret (true, "Deleted " +:+ pretty (length deleted_files) +:+ " files")
      end
  end.

(** *** The request handler *)

(** What a handler sends: a JSON response, or whatever the static file
    handler of [http.server] makes of the path. *)
Inductive reply : Type :=
| Json (status : nat) (data : json)
| Static (path : string).

(** The request body as [json.loads] sees it *)
Inductive payload : Type :=
| NoBody                    (* no bytes: [updates = {}] *)
| Undecodable               (* bytes that are no text: UnicodeDecodeError *)
| Malformed                 (* JSONDecodeError *)
| Parsed (v : json).

Definition send_json_response (status : nat) (data : json) : M reply :=
  ret (Json status data).

Definition error_body (msg : string) : json := JObj {[ "error" := JStr msg ]}.

(** [path.split('/')[-1]] *)
Definition last_segment (path : string) : string := Str.last (Str.split "/" path).

(** [not video_id or len(video_id) != 11] *)
Definition invalid_id (video_id : string) : bool :=
  negb (Str.nonempty video_id) || negb (String.length video_id =? 11).

(** [GET]; [path] is [urlparse(self.path).path]. *)
Definition do_GET (path : string) : M reply :=
  if String.eqb path "/api/state" then
    state <- load_state ;;
    send_json_response 200 state
  else ret (Static path).

Definition default_record : json :=
  JObj (<["read" := JBool false]> (<["starred" := JBool false]>
       (<["archived" := JBool false]> ∅))).

(** [if key in updates: state[video_id][key] = bool(updates[key])]; the
    record assigned to is the one held by [state]. *)
Definition apply_key (video_id : string) (updates : json) (key : string)
           (state : json) : M json :=
  present <- lift (Py.contains key updates) ;;
  if present : bool then
    value <- lift (Py.getitem updates key) ;;
    record <- lift (Py.getitem state video_id) ;;
    record' <- lift (Py.setitem record key (JBool (Py.truthy value))) ;;
    lift (Py.setitem state video_id record')
  else ret state.

Fixpoint fold_m {X A} (xs : list X) (body : X -> A -> M A) (acc : A) : M A :=
  match xs with
  | [] => ret acc
  | x :: xs' => acc' <- body x acc ;; fold_m xs' body acc'
  end.

(** The part of [do_PATCH] after the body is parsed *)
Definition update_state (video_id : string) (updates : json) : M reply :=
  state <- load_state ;;
  present <- lift (Py.contains video_id state) ;;
  state <- (if present : bool then ret state
            else lift (Py.setitem state video_id default_record)) ;;
  state <- fold_m ["read"; "starred"; "archived"] (apply_key video_id updates) state ;;
  save_state state ;;;
  record <- lift (Py.getitem state video_id) ;;
  send_json_response 200
    (JObj (<["success" := JBool true]> (<["state" := record]> ∅))).

(** [PATCH]; [body] is what [rfile.read(content_length)] returned. *)
Definition do_PATCH (path : string) (body : payload) : M reply :=
  if Str.startswith "/api/state/" path then
    let video_id := last_segment path in
    if invalid_id video_id then
      send_json_response 400 (error_body "Invalid video ID")
    else
      match body with
      | NoBody => update_state video_id (JObj ∅)
      | Parsed updates => update_state video_id updates
      | Malformed => send_json_response 400 (error_body "Invalid JSON")
      | Undecodable => raise UnicodeDecodeError
      end
  else send_json_response 404 (error_body "Not found").

(** [DELETE] *)
Definition do_DELETE (path : string) : M reply :=
  if Str.startswith "/api/delete/" path then
    let video_id := last_segment path in
    if invalid_id video_id then
      send_json_response 400 (error_body "Invalid video ID")
    else
      r <- delete_transcript video_id ;;
      if fst r then
        send_json_response 200
          (JObj (<["success" := JBool true]> (<["message" := JStr (snd r)]> ∅)))
      else send_json_response 404 (error_body (snd r))
  else send_json_response 404 (error_body "Not found").

End Serve.

(* ===================================================================== *)
(** * Part II: the vocabulary of the statements                           *)
(* ===================================================================== *)

Import Serve.

(** The mapping that the state file stands for *)
Definition stored (w : world) : json :=
  match state_file w with
  | Holds v => v
  | _ => JObj ∅
  end.

(** A state record *)
Definition record_of (read starred archived : bool) : json :=
  JObj (<["read" := JBool read]> (<["starred" := JBool starred]>
       (<["archived" := JBool archived]> ∅))).

(** The response of a successful PATCH *)
Definition patched (record : json) : reply :=
  Json 200 (JObj (<["success" := JBool true]> (<["state" := record]> ∅))).

(** Worlds used as concrete inputs *)

Definition plain (text : string) : node := Node (Some text) None.

Definition empty_world : world := World Missing ∅ None None false [].

Definition busy_world : world :=
  World (Holds (JObj {[ "abcdefgh123" := default_record ]}))
        {[ "summaries" := [("2025-01-01-abcdefgh123.md", plain "# T")] ]}
        None None false [].

(** *** The deletion routine *)

Definition is_unlink (e : event) : Prop :=
  match e with EvUnlink _ _ => True | _ => False end.

(** From [w] to [w'] files of the content directories were removed and
    nothing else happened: the state file was neither read nor written,
    and the viewer was not rebuilt. *)
Definition unlinks_only (w w' : world) : Prop :=
  state_file w' = state_file w /\
  template w' = template w /\
  index_html w' = index_html w /\
  build_script w' = build_script w /\
  exists evs, trace w' = trace w ++ evs /\ Forall is_unlink evs.

Definition unremovable (nd : node) : bool :=
  match node_unlink nd with Some _ => true | None => false end.

(** Some entry of [d] that [pattern] matches cannot be removed. *)
Definition blocked (d : directory) (pattern : string) : bool :=
  existsb (fun e => Glob.fnmatch pattern (fst e) && unremovable (snd e)) d.

(** Some file that one of the pairs matches cannot be removed. *)
Definition stuck (ps : list (string * string)) (ds : gmap string directory) : bool :=
  existsb (fun p => match ds !! fst p with
                    | Some d => blocked d (snd p)
                    | None => false
                    end) ps.

(** The entries of [d] that [pattern] does not match *)
Definition unmatched (pattern : string) (d : directory) : directory :=
  List.filter (fun e => negb (Glob.fnmatch pattern (fst e))) d.

(** The file [subdir/name] is matched by none of the pairs. *)
Definition kept (ps : list (string * string)) (subdir name : string) : bool :=
  forallb (fun p => negb (String.eqb (fst p) subdir && Glob.fnmatch (snd p) name)) ps.

(** The files that the pairs match, as paths relative to SKILL_DIR: pair
    after pair, a file being listed under the first pair that matches
    it. *)
Fixpoint targets (ps : list (string * string)) (ds : gmap string directory)
  : list string :=
  match ps with
  | [] => []
  | p :: ps' =>
      match ds !! fst p with
      | None => targets ps' ds
      | Some d =>
          map (fun name => fst p +:+ "/" +:+ name) (Glob.glob d (snd p))
          ++ targets ps' (<[fst p := unmatched (snd p) d]> ds)
      end
  end.

(** The four content directories *)
Definition content_dirs : list string :=
  ["summaries"; "metadata"; "transcripts"; "audio"].

(** The entries of [SKILL_DIR/subdir]; none when it does not exist *)
Definition listing (ds : gmap string directory) (subdir : string) : directory :=
  default [] (ds !! subdir).

(** The entries of [subdir] that a pair of [subdir] matches *)
Definition matched_in (ps : list (string * string)) (ds : gmap string directory)
           (subdir : string) : directory :=
  List.filter (fun e => negb (kept ps subdir (fst e))) (listing ds subdir).

(** The number of files that the five pairs of [video_id] match *)
Definition matching_count (video_id : string) (ds : gmap string directory) : nat :=
  list_sum (map (fun subdir => length (matched_in (patterns video_id) ds subdir))
                content_dirs).

(** The response of a successful DELETE *)
Definition deleted (n : nat) : reply :=
  Json 200 (JObj (<["success" := JBool true]>
                 (<["message" := JStr ("Deleted " +:+ pretty n +:+ " files")]> ∅))).

(** A state file that parses, but not to a mapping *)
Definition array_store_world : world :=
  World (Holds (JArr [])) ∅ None None false [].

(** What [do_DELETE] sends for the result of [delete_transcript] *)
Definition delete_reply (r : bool * string) : M reply :=
  if fst r then
    send_json_response 200
      (JObj (<["success" := JBool true]> (<["message" := JStr (snd r)]> ∅)))
  else send_json_response 404 (error_body (snd r)).

Definition locked (text error : string) : node := Node (Some text) (Some error).

Definition page_template : string :=
  "<script>const SUMMARIES = /*SUMMARIES_DATA*/[];</script>".

(** Two videos with their files, one of them read *)
Definition library_world : world :=
  World (Holds (JObj {[ "abcdefgh123" := record_of true false false;
                        "dQw4w9WgXcQ" := default_record ]}))
        {[ "summaries" := [("2025-01-01-abcdefgh123.md", plain "# One");
                           ("2025-02-02-dQw4w9WgXcQ.md", plain "# Two")];
           "transcripts" := [("2025-01-01-abcdefgh123.txt", plain "one");
                             ("2025-02-02-dQw4w9WgXcQ.txt", plain "two");
                             ("2025-01-01-abcdefgh123.srt", plain "1")];
           "audio" := [] ]}
        (Some (Ok page_template)) None true [].

(** The same video, with a subtitle file that cannot be removed *)
Definition jammed_world : world :=
  World (Holds (JObj {[ "abcdefgh123" := record_of true false false ]}))
        {[ "summaries" := [("2025-01-01-abcdefgh123.md", plain "# One")];
           "transcripts" := [("2025-01-01-abcdefgh123.txt", plain "one");
                             ("2025-01-01-abcdefgh123.srt",
                              locked "1" "[Errno 13] Permission denied")] ]}
        (Some (Ok page_template)) None true [].

(** *** The markdown parser *)

Definition newline : string := String "010" EmptyString.

Definition url_marker : string := "**URL:**".

Definition url_line : string := "**URL:** https://youtu.be/abcdefgh123".

(** [line] is one of the lines of [text]. *)
Definition has_line (line text : string) : bool :=
  existsb (String.eqb line) (Str.split "010" text).

(** [s] is empty or ends with a newline: what follows [s] starts a line. *)
Fixpoint ends_line (s : string) : bool :=
  match s with
  | EmptyString => true
  | String c EmptyString => Build.is_newline c
  | String _ s' => ends_line s'
  end.

(** [s] is empty or starts with white space: a URL before [s] ends there. *)
Definition ends_url (s : string) : bool :=
  match s with
  | EmptyString => true
  | String c _ => Str.is_space c
  end.

(** A summary whose header gives one video and whose text cites
    another one on a line of its own *)
Definition citing_summary : string :=
  "# Title" +:+ newline +:+
  "**Channel:** Someone" +:+ newline +:+
  "**URL:** https://www.youtube.com/watch?v=zzzzzzzzzzz" +:+ newline +:+
  "See also" +:+ newline +:+
  url_line +:+ newline.

(** *** The viewer builder *)

Definition empty_library : world :=
  World Missing {[ "summaries" := [] ]} (Some (Ok page_template)) None true [].

Definition no_template : world :=
  World Missing {[ "summaries" := [("2025-01-01-abcdefgh123.md", plain "# One")] ]}
        None (Some "old page") true [].

(** *** The parts of a text *)

(** The parts of a text, with [sep] between one part and the next *)
Fixpoint joined (sep : string) (parts : list string) : string :=
  match parts with
  | [] => EmptyString
  | [x] => x
  | x :: rest => x +:+ sep +:+ joined sep rest
  end.

(** No part holds the placeholder. *)
Definition placeholder_free (parts : list string) : bool :=
  forallb (fun s => negb (Str.contains Build.placeholder s)) parts.

(** *** Further vocabulary: the deletion routine *)

(** The entries of [subdir] that none of the pairs matches, in scanning
    order; [None] when the directory does not exist *)
Definition survivors (ps : list (string * string)) (ds : gmap string directory)
           (subdir : string) : option directory :=
  List.filter (fun e => kept ps subdir (fst e)) <$> ds !! subdir.

(** [m] removes no file that none of the pairs matches, and neither
    makes nor removes a directory, whatever it returns or raises. *)
Definition spares {A} (ps : list (string * string)) (m : M A) : Prop :=
  forall w subdir, survivors ps (dirs (snd (m w))) subdir = survivors ps (dirs w) subdir.

(** Every character of [s] satisfies [p]. *)
Fixpoint all_chars (p : ascii -> bool) (s : string) : bool :=
  match s with
  | EmptyString => true
  | String c s' => p c && all_chars p s'
  end.

(** The characters that are special in a glob pattern *)
Definition is_meta (c : ascii) : bool :=
  Ascii.eqb c "*" || Ascii.eqb c "?" || Ascii.eqb c "[".

(** The literal characters of a pattern *)
Fixpoint literals (s : string) : list Glob.token :=
  match s with
  | EmptyString => []
  | String c s' => Glob.TLit c :: literals s'
  end.

(** The directory of each kind of file *)
Definition extensions : list (string * string) :=
  [ ("summaries", ".md"); ("metadata", ".json"); ("transcripts", ".txt");
    ("transcripts", ".srt"); ("audio", ".mp3") ].

(** *** Further vocabulary: the viewer *)

(** The record of the file 2025-01-01-abcdefgh123.md that holds "# One" *)
Definition first_summary : Build.summary :=
  Build.Summary "abcdefgh123" "One" "Unknown"
                "https://www.youtube.com/watch?v=abcdefgh123" "2025-01-01"
                "https://i.ytimg.com/vi/abcdefgh123/maxresdefault.jpg" "# One".

(** The records of the markdown files of a directory, in the order of
    the page *)
Definition records (d : directory) : list Build.summary :=
  omap (fun e => Build.parse_summary (fst e) (snd e))
       (Build.sorted_reverse (List.filter (fun e => Glob.fnmatch "*.md" (fst e)) d)).

(** The name of every markdown file of the directory starts with a date. *)
Definition dated (d : directory) : bool :=
  forallb (fun e => negb (Glob.fnmatch "*.md" (fst e))
                    || bool_decide (is_Some (Build.date_at (Build.stem (fst e))))) d.

(** The date of [a] is not before the date of [b]. *)
Definition not_older (a b : Build.summary) : Prop :=
  String.ltb (Build.date a) (Build.date b) = false.

(** The name of [x] is not before the name of [y]. *)
Definition not_before (x y : string * node) : Prop :=
  String.ltb (fst x) (fst y) = false.

(** A library whose template has no placeholder *)
Definition bare_template_world : world :=
  World Missing {[ "summaries" := [("2025-01-01-abcdefgh123.md", plain "# One")] ]}
        (Some (Ok "<html></html>")) None true [].

(** The two usual forms of the address of a video *)
Definition watch_url (video_id : string) : string :=
  "https://www.youtube.com/watch?v=" +:+ video_id.

Definition short_url (video_id : string) : string :=
  "https://youtu.be/" +:+ video_id.

(** *** Further vocabulary: the state records *)

(** The keys that a PATCH may set *)
Definition flags : list string := ["read"; "starred"; "archived"].

(** The fields of the record that [do_PATCH] creates *)
Definition default_fields : gmap string json :=
  <["read" := JBool false]> (<["starred" := JBool false]>
  (<["archived" := JBool false]> ∅)).

(** The fields that the loop of [do_PATCH] works on, given what the state
    mapping holds for the identifier: those of a new record when it holds
    nothing, none when it holds a value that is not a JSON object. *)
Definition record_fields (prior : option json) : option (gmap string json) :=
  match prior with
  | None => Some default_fields
  | Some (JObj r) => Some r
  | Some _ => None
  end.

(** One round of the loop over the three keys, on the fields of the
    record *)
Definition merge_flag (u r : gmap string json) (key : string) : gmap string json :=
  match u !! key with
  | Some v => <[key := JBool (Py.truthy v)]> r
  | None => r
  end.

Definition merge_flags (u r : gmap string json) : gmap string json :=
  fold_left (merge_flag u) flags r.

(** Every record of the mapping has the three flags, as booleans, and
    nothing else. *)
Definition schema (d : gmap string json) : Prop :=
  forall k v, d !! k = Some v -> exists a b c, v = record_of a b c.

(** [m] leaves the content directories, the template and the page as
    they are, whatever it returns or raises. *)
Definition keeps_files {A} (m : M A) : Prop :=
  forall w, dirs (snd (m w)) = dirs w /\
            template (snd (m w)) = template w /\
            index_html (snd (m w)) = index_html w.

(** The state mapping [state] has an entry for [video_id]. *)
Definition has_record (video_id : string) (state : json) : Prop :=
  exists s x, state = JObj s /\ s !! video_id = Some x.

(** The value of a flag after a PATCH with the object [u] *)
Definition flag_after (u : gmap string json) (key : string) (before : bool) : bool :=
  match u !! key with
  | Some v => Py.truthy v
  | None => before
  end.

(** A body that sets two flags, one of them through a number, and has a
    key that is none of the three *)
Definition sample_updates : gmap string json :=
  {[ "read" := JInt 1; "starred" := JStr ""; "bogus" := JBool true ]}.

(** A state file with a record that carries a note besides its flags *)
Definition annotated_world : world :=
  World (Holds (JObj {[ "abcdefgh123" :=
                          JObj (<["note" := JStr "later"]> default_fields) ]}))
        {[ "summaries" := [("2025-01-01-abcdefgh123.md", plain "# One")] ]}
        None None false [].

(* ===================================================================== *)
(** * Part III: properties                                                *)
(* ===================================================================== *)

(** ** Paths and their last segment *)

Lemma split_nonempty (sep : ascii) (s : string) : Str.split sep s <> [].
Proof.
  destruct s as [|c s]; simpl; [discriminate|].
  destruct (Ascii.eqb c sep); [discriminate|].
  destruct (Str.split sep s); discriminate.
Qed.

Lemma split_no_sep (sep : ascii) (s : string) :
  Str.mem sep s = false -> Str.split sep s = [s].
Proof.
  induction s as [|c s IH]; simpl; [reflexivity|].
  intros H. apply orb_false_iff in H as [Hc Hs].
  rewrite Ascii.eqb_sym, Hc, (IH Hs). reflexivity.
Qed.

Lemma split_app_sep (sep : ascii) (p r : string) :
  exists h t, Str.split sep (p +:+ String sep r) = (h :: t) ++ Str.split sep r.
Proof.
  induction p as [|c p (h & t & IH)]; simpl.
  - rewrite Ascii.eqb_refl. exists EmptyString, []. reflexivity.
  - destruct (Ascii.eqb c sep).
    + exists EmptyString, (h :: t). rewrite IH. reflexivity.
    + rewrite IH. simpl. exists (String c h), t. reflexivity.
Qed.

Lemma last_app_nonempty (l1 l2 : list string) (d : string) :
  l2 <> [] -> List.last (l1 ++ l2) d = List.last l2 d.
Proof.
  intros H. induction l1 as [|x l1 IH]; simpl; [reflexivity|].
  destruct (l1 ++ l2) eqn:E; [|exact IH].
  apply app_eq_nil in E as [_ E]. contradiction.
Qed.

(** The last segment of [<prefix>/<id>] is [id] when [id] has no "/". *)
Lemma last_segment_app (p id : string) :
  Str.mem "/" id = false -> last_segment (p +:+ String "/" id) = id.
Proof.
  intros H. unfold last_segment, Str.last.
  destruct (split_app_sep "/" p id) as (h & t & E). rewrite E.
  rewrite last_app_nonempty by apply split_nonempty.
  rewrite (split_no_sep _ _ H). reflexivity.
Qed.

Lemma invalid_id_length (video_id : string) :
  String.length video_id <> 11 -> invalid_id video_id = true.
Proof.
  intros H. unfold invalid_id.
  apply Nat.eqb_neq in H. rewrite H. apply orb_true_r.
Qed.

Lemma valid_id_length (video_id : string) :
  String.length video_id = 11 -> invalid_id video_id = false.
Proof.
  intros H. unfold invalid_id. rewrite H.
  destruct video_id; [discriminate|reflexivity].
Qed.

Lemma state_path_segment (id : string) :
  Str.mem "/" id = false ->
  Str.startswith "/api/state/" ("/api/state/" +:+ id) = true /\
  last_segment ("/api/state/" +:+ id) = id.
Proof.
  intros H. split.
  - unfold Str.startswith. simpl. destruct id; reflexivity.
  - exact (last_segment_app "/api/state" id H).
Qed.

Lemma delete_path_segment (id : string) :
  Str.mem "/" id = false ->
  Str.startswith "/api/delete/" ("/api/delete/" +:+ id) = true /\
  last_segment ("/api/delete/" +:+ id) = id.
Proof.
  intros H. split.
  - unfold Str.startswith. simpl. destruct id; reflexivity.
  - exact (last_segment_app "/api/delete" id H).
Qed.

(** ** Rejection of identifiers of the wrong length *)

(** C3.  A PATCH under /api/state/ and a DELETE under /api/delete/ whose
    last path segment is not 11 characters long are answered with 400
    "Invalid video ID", and the world after the request is the world
    before it: the state file, the content directories and the page are
    untouched and nothing at all was read, written or removed. *)
Theorem wrong_length_rejected
        (patch_path delete_path : string) (body : payload) (w : world) :
  Str.startswith "/api/state/" patch_path = true ->
  String.length (last_segment patch_path) <> 11 ->
  Str.startswith "/api/delete/" delete_path = true ->
  String.length (last_segment delete_path) <> 11 ->
  do_PATCH patch_path body w = (Ok (Json 400 (error_body "Invalid video ID")), w) /\
  do_DELETE delete_path w = (Ok (Json 400 (error_body "Invalid video ID")), w).
Proof.
  intros Hp Hlp Hd Hld. unfold do_PATCH, do_DELETE.
  rewrite Hp, Hd, (invalid_id_length _ Hlp), (invalid_id_length _ Hld).
  split; reflexivity.
Qed.

Lemma wrong_length_rejected_witness :
  (Str.startswith "/api/state/" "/api/state/abcdefgh12" = true /\
   String.length (last_segment "/api/state/abcdefgh12") <> 11 /\
   Str.startswith "/api/delete/" "/api/delete/abcdefgh1234" = true /\
   String.length (last_segment "/api/delete/abcdefgh1234") <> 11) /\
  do_PATCH "/api/state/abcdefgh12" (Parsed (JObj {[ "starred" := JBool true ]})) busy_world
    = (Ok (Json 400 (error_body "Invalid video ID")), busy_world) /\
  do_DELETE "/api/delete/abcdefgh1234" busy_world
    = (Ok (Json 400 (error_body "Invalid video ID")), busy_world).
Proof.
  assert (H1 : Str.startswith "/api/state/" "/api/state/abcdefgh12" = true) by reflexivity.
  assert (H2 : String.length (last_segment "/api/state/abcdefgh12") <> 11)
    by (vm_compute; lia).
  assert (H3 : Str.startswith "/api/delete/" "/api/delete/abcdefgh1234" = true) by reflexivity.
  assert (H4 : String.length (last_segment "/api/delete/abcdefgh1234") <> 11)
    by (vm_compute; lia).
  split; [repeat split; assumption|].
  exact (wrong_length_rejected _ _ _ busy_world H1 H2 H3 H4).
Defined.

(** ** The state store *)

(** C6.  [load_state] never raises.  It returns the value persisted in
    the state file when the file exists and parses, and the empty
    mapping when the file is missing or cannot be read or parsed; it
    changes no file. *)
Theorem load_state_total (w : world) :
  exists v, load_state w = (Ok v, log EvLoadState w) /\
    match state_file w with
    | Holds persisted => v = persisted
    | Missing => v = JObj ∅
    | Corrupt => v = JObj ∅
    end.
Proof.
  unfold load_state. destruct (state_file w); eexists; split; reflexivity.
Qed.

Lemma load_state_stored (w : world) :
  load_state w = (Ok (stored w), log EvLoadState w).
Proof. unfold load_state, stored. destruct (state_file w); reflexivity. Qed.

(** ** PATCH *)

Lemma contains_key (d : gmap string json) (k : string) :
  Py.contains k (JObj d) = Ok (match d !! k with Some _ => true | None => false end).
Proof.
  unfold Py.contains. f_equal.
  destruct (d !! k) eqn:E.
  - apply bool_decide_eq_true_2. eauto.
  - apply bool_decide_eq_false_2. intros [x Hx]. discriminate.
Qed.

Lemma contains_element (l : list json) (k : string) :
  ~ In (JStr k) l -> Py.contains k (JArr l) = Ok false.
Proof.
  intros H. unfold Py.contains. f_equal.
  induction l as [|x l IH]; simpl; [reflexivity|].
  rewrite IH by (intros Hin; apply H; right; exact Hin).
  destruct x; simpl; try reflexivity.
  destruct (String.eqb_spec k s) as [->|]; [|reflexivity].
  exfalso. apply H. left. reflexivity.
Qed.

Lemma apply_key_absent (video_id : string) (updates : json) (key : string)
      (state : json) (w : world) :
  Py.contains key updates = Ok false ->
  apply_key video_id updates key state w = (Ok state, w).
Proof. intros H. unfold apply_key, bind, lift. rewrite H. reflexivity. Qed.

Lemma apply_key_present (video_id : string) (u : gmap string json) (key : string)
      (s r : gmap string json) (v : json) (w : world) :
  u !! key = Some v ->
  s !! video_id = Some (JObj r) ->
  apply_key video_id (JObj u) key (JObj s) w
  = (Ok (JObj (<[video_id := JObj (<[key := JBool (Py.truthy v)]> r)]> s)), w).
Proof.
  intros Hu Hs. unfold apply_key, bind, lift.
  rewrite contains_key, Hu. simpl. rewrite Hu, Hs. reflexivity.
Qed.

(** What [update_state] does when [updates] has none of the three keys:
    the record is created if absent, the mapping is saved, the record is
    sent back. *)
Lemma update_state_untouched (video_id : string) (updates : json) (w : world)
      (d : gmap string json) :
  stored w = JObj d ->
  Py.contains "read" updates = Ok false ->
  Py.contains "starred" updates = Ok false ->
  Py.contains "archived" updates = Ok false ->
  update_state video_id updates w
  = (Ok (patched (default default_record (d !! video_id))),
     log EvSaveState
       (set_state_file
          (Holds (JObj (<[video_id := default default_record (d !! video_id)]> d)))
          (log EvLoadState w))).
Proof.
  intros Hd Hr Hs Ha. unfold update_state, bind.
  rewrite load_state_stored, Hd. unfold lift at 1. rewrite contains_key.
  destruct (d !! video_id) as [r|] eqn:E; simpl.
  - unfold ret at 1. unfold bind.
    rewrite (apply_key_absent _ _ _ _ _ Hr), (apply_key_absent _ _ _ _ _ Hs),
      (apply_key_absent _ _ _ _ _ Ha).
    unfold Py.getitem. rewrite E.
    rewrite (insert_id d video_id r E). reflexivity.
  - unfold bind.
    rewrite (apply_key_absent _ _ _ _ _ Hr), (apply_key_absent _ _ _ _ _ Hs),
      (apply_key_absent _ _ _ _ _ Ha).
    simpl. unfold Py.getitem.
    rewrite lookup_insert_eq. reflexivity.
Qed.

Lemma do_PATCH_valid (path id : string) (updates : json) (w : world) :
  Str.startswith "/api/state/" path = true ->
  last_segment path = id ->
  String.length id = 11 ->
  do_PATCH path (Parsed updates) w = update_state id updates w.
Proof.
  intros Hpre Hseg Hlen. unfold do_PATCH.
  rewrite Hpre, Hseg, (valid_id_length _ Hlen). reflexivity.
Qed.

(** C2.  A PATCH under /api/state/ with the body [{"starred": true}],
    whose last path segment is an 11-character identifier that the state
    mapping does not hold, is answered with 200 and the new record; the
    GET of /api/state that follows is answered with 200 and a mapping in
    which the identifier has starred = true, read = false, archived =
    false, the other entries being as before. *)
Theorem patch_starred_then_get (path id : string) (w : world) (d : gmap string json) :
  Str.startswith "/api/state/" path = true ->
  last_segment path = id ->
  String.length id = 11 ->
  stored w = JObj d ->
  d !! id = None ->
  exists w1 w2 d',
    do_PATCH path (Parsed (JObj {[ "starred" := JBool true ]})) w
      = (Ok (patched (record_of false true false)), w1) /\
    do_GET "/api/state" w1 = (Ok (Json 200 (JObj d')), w2) /\
    d' !! id = Some (record_of false true false) /\
    d' = <[id := record_of false true false]> d.
Proof.
  intros Hpre Hseg Hlen Hd Hfresh.
  rewrite (do_PATCH_valid _ _ _ _ Hpre Hseg Hlen).
  unfold update_state, bind.
  rewrite load_state_stored, Hd. unfold lift at 1.
  rewrite contains_key, Hfresh. simpl.
  unfold bind.
  rewrite apply_key_absent by reflexivity.
  unfold default_record.
  erewrite apply_key_present; [|reflexivity|apply lookup_insert_eq].
  rewrite apply_key_absent by reflexivity.
  rewrite insert_insert_eq.
  simpl. unfold Py.getitem. rewrite lookup_insert_eq.
  unfold send_json_response, ret.
  replace (JObj (<["starred" := JBool (Py.truthy (JBool true))]>
                   (<["read" := JBool false]> (<["starred" := JBool false]>
                      (<["archived" := JBool false]> ∅)))))
    with (record_of false true false) by (vm_compute; reflexivity).
  eexists _, _, _. split; [reflexivity|].
  unfold do_GET. simpl. unfold bind. rewrite load_state_stored.
  unfold stored, send_json_response, ret. simpl.
  split; [reflexivity|]. split; [apply lookup_insert_eq|reflexivity].
Qed.

Lemma patch_starred_then_get_witness :
  (Str.startswith "/api/state/" "/api/state/dQw4w9WgXcQ" = true /\
   last_segment "/api/state/dQw4w9WgXcQ" = "dQw4w9WgXcQ" /\
   String.length "dQw4w9WgXcQ" = 11 /\
   stored busy_world = JObj {[ "abcdefgh123" := default_record ]} /\
   ({[ "abcdefgh123" := default_record ]} : gmap string json) !! "dQw4w9WgXcQ" = None) /\
  exists w1 w2 d',
    do_PATCH "/api/state/dQw4w9WgXcQ" (Parsed (JObj {[ "starred" := JBool true ]})) busy_world
      = (Ok (patched (record_of false true false)), w1) /\
    do_GET "/api/state" w1 = (Ok (Json 200 (JObj d')), w2) /\
    d' !! "dQw4w9WgXcQ" = Some (record_of false true false) /\
    d' = <["dQw4w9WgXcQ" := record_of false true false]>
           {[ "abcdefgh123" := default_record ]}.
Proof.
  assert (H0 : Str.startswith "/api/state/" "/api/state/dQw4w9WgXcQ" = true)
    by reflexivity.
  assert (H1 : last_segment "/api/state/dQw4w9WgXcQ" = "dQw4w9WgXcQ") by reflexivity.
  assert (H2 : String.length "dQw4w9WgXcQ" = 11) by reflexivity.
  assert (H3 : stored busy_world = JObj {[ "abcdefgh123" := default_record ]})
    by reflexivity.
  assert (H4 : ({[ "abcdefgh123" := default_record ]} : gmap string json)
                 !! "dQw4w9WgXcQ" = None) by (vm_compute; reflexivity).
  split; [repeat split; assumption|].
  exact (patch_starred_then_get _ "dQw4w9WgXcQ" busy_world _ H0 H1 H2 H3 H4).
Defined.

(** The statements about the state take the state file to stand for a
    mapping, as the data model has it.  A state file that parses to
    another kind of value is outside of them: with the array [[]] in the
    file, the assignment [state[video_id] = ...] raises TypeError. *)
Example patch_on_array_store :
  do_PATCH "/api/state/abcdefgh123" (Parsed (JObj ∅)) array_store_world
  = (Raise TypeError, log EvLoadState array_store_world).
Proof. vm_compute. reflexivity. Qed.

(** C5.  A PATCH under /api/state/ for an 11-character identifier whose
    body is a JSON object with none of the keys read, starred, archived
    is answered with 200 and the record of the identifier: the record it had before, unchanged (and then the whole
    mapping is saved as it was), or, if it had none, a new record with
    the three flags false.  The mapping with that record is what the
    state file holds afterwards; no other entry and no other file
    changes. *)
Theorem patch_without_flags (path id : string) (w : world) (d upd : gmap string json) :
  Str.startswith "/api/state/" path = true ->
  last_segment path = id ->
  String.length id = 11 ->
  stored w = JObj d ->
  upd !! "read" = None ->
  upd !! "starred" = None ->
  upd !! "archived" = None ->
  exists record w1,
    do_PATCH path (Parsed (JObj upd)) w = (Ok (patched record), w1) /\
    state_file w1 = Holds (JObj (<[id := record]> d)) /\
    (forall prior, d !! id = Some prior -> record = prior /\ <[id := record]> d = d) /\
    (d !! id = None -> record = record_of false false false) /\
    dirs w1 = dirs w /\ index_html w1 = index_html w.
Proof.
  intros Hpre Hseg Hlen Hd Hr Hs Ha.
  exists (default default_record (d !! id)). eexists.
  rewrite (do_PATCH_valid _ _ _ _ Hpre Hseg Hlen).
  rewrite (update_state_untouched id (JObj upd) w d Hd)
    by (rewrite contains_key; (rewrite Hr || rewrite Hs || rewrite Ha); reflexivity).
  split; [reflexivity|]. split; [reflexivity|].
  split; [|split; [|split; reflexivity]].
  - intros prior E. rewrite E. simpl. split; [reflexivity|]. apply insert_id, E.
  - intros E. rewrite E. reflexivity.
Qed.

Lemma patch_without_flags_witness :
  (Str.startswith "/api/state/" "/api/state/abcdefgh123" = true /\
   last_segment "/api/state/abcdefgh123" = "abcdefgh123" /\
   String.length "abcdefgh123" = 11 /\
   stored busy_world = JObj {[ "abcdefgh123" := default_record ]} /\
   ({[ "note" := JStr "x" ]} : gmap string json) !! "read" = None /\
   ({[ "note" := JStr "x" ]} : gmap string json) !! "starred" = None /\
   ({[ "note" := JStr "x" ]} : gmap string json) !! "archived" = None) /\
  exists record w1,
    do_PATCH "/api/state/abcdefgh123" (Parsed (JObj {[ "note" := JStr "x" ]})) busy_world
      = (Ok (patched record), w1) /\
    state_file w1 = Holds (JObj (<["abcdefgh123" := record]> {[ "abcdefgh123" := default_record ]})) /\
    (forall prior, ({[ "abcdefgh123" := default_record ]} : gmap string json) !! "abcdefgh123"
                   = Some prior ->
       record = prior /\
       <["abcdefgh123" := record]> {[ "abcdefgh123" := default_record ]}
       = ({[ "abcdefgh123" := default_record ]} : gmap string json)) /\
    (({[ "abcdefgh123" := default_record ]} : gmap string json) !! "abcdefgh123" = None ->
       record = record_of false false false) /\
    dirs w1 = dirs busy_world /\ index_html w1 = index_html busy_world.
Proof.
  assert (H0 : Str.startswith "/api/state/" "/api/state/abcdefgh123" = true)
    by reflexivity.
  assert (H1 : last_segment "/api/state/abcdefgh123" = "abcdefgh123") by reflexivity.
  assert (H2 : String.length "abcdefgh123" = 11) by reflexivity.
  assert (H3 : stored busy_world = JObj {[ "abcdefgh123" := default_record ]})
    by reflexivity.
  assert (H4 : ({[ "note" := JStr "x" ]} : gmap string json) !! "read" = None)
    by (vm_compute; reflexivity).
  assert (H5 : ({[ "note" := JStr "x" ]} : gmap string json) !! "starred" = None)
    by (vm_compute; reflexivity).
  assert (H6 : ({[ "note" := JStr "x" ]} : gmap string json) !! "archived" = None)
    by (vm_compute; reflexivity).
  split; [repeat split; assumption|].
  exact (patch_without_flags _ "abcdefgh123" busy_world _ _ H0 H1 H2 H3 H4 H5 H6).
Defined.

(** C10, as stated, fails: a JSON array that has the string "read" among
    its elements passes the test [key in updates], and the subscript
    [updates[key]] then raises TypeError.  No response is sent and the
    state file is still missing. *)
Lemma array_body_with_key_raises :
  do_PATCH "/api/state/abcdefgh123" (Parsed (JArr [JStr "read"])) empty_world
  = (Raise TypeError, log EvLoadState empty_world) /\
  state_file (snd (do_PATCH "/api/state/abcdefgh123" (Parsed (JArr [JStr "read"]))
                            empty_world)) = Missing /\
  ~ exists data w1,
      do_PATCH "/api/state/abcdefgh123" (Parsed (JArr [JStr "read"])) empty_world
      = (Ok (Json 200 data), w1).
Proof.
  assert (E : do_PATCH "/api/state/abcdefgh123" (Parsed (JArr [JStr "read"])) empty_world
              = (Raise TypeError, log EvLoadState empty_world))
    by (vm_compute; reflexivity).
  rewrite E. split; [reflexivity|]. split; [reflexivity|].
  intros (data & w1 & H). discriminate H.
Qed.

(** C10, amended.  A PATCH under /api/state/ for an 11-character
    identifier whose body is a JSON array is not rejected with 400.  When
    none of the elements of the array is the string
    read, starred or archived, the request goes as one without
    recognised keys: the record is created with the three flags false if
    the identifier had none, the mapping is saved, and the answer is 200
    with the record. *)
Theorem patch_array_body (path id : string) (w : world) (d : gmap string json)
        (l : list json) :
  Str.startswith "/api/state/" path = true ->
  last_segment path = id ->
  String.length id = 11 ->
  stored w = JObj d ->
  ~ In (JStr "read") l ->
  ~ In (JStr "starred") l ->
  ~ In (JStr "archived") l ->
  exists record w1,
    do_PATCH path (Parsed (JArr l)) w = (Ok (patched record), w1) /\
    state_file w1 = Holds (JObj (<[id := record]> d)) /\
    (forall prior, d !! id = Some prior -> record = prior /\ <[id := record]> d = d) /\
    (d !! id = None -> record = record_of false false false).
Proof.
  intros Hpre Hseg Hlen Hd Hr Hs Ha.
  exists (default default_record (d !! id)). eexists.
  rewrite (do_PATCH_valid _ _ _ _ Hpre Hseg Hlen).
  rewrite (update_state_untouched id (JArr l) w d Hd)
    by (apply contains_element; assumption).
  split; [reflexivity|]. split; [reflexivity|]. split.
  - intros prior E. rewrite E. simpl. split; [reflexivity|]. apply insert_id, E.
  - intros E. rewrite E. reflexivity.
Qed.

Lemma patch_array_body_witness :
  (Str.startswith "/api/state/" "/api/state/abcdefgh123" = true /\
   last_segment "/api/state/abcdefgh123" = "abcdefgh123" /\
   String.length "abcdefgh123" = 11 /\
   stored empty_world = JObj ∅ /\
   ~ In (JStr "read") [JInt 1; JStr "unread"] /\
   ~ In (JStr "starred") [JInt 1; JStr "unread"] /\
   ~ In (JStr "archived") [JInt 1; JStr "unread"]) /\
  exists record w1,
    do_PATCH "/api/state/abcdefgh123" (Parsed (JArr [JInt 1; JStr "unread"])) empty_world
      = (Ok (patched record), w1) /\
    state_file w1 = Holds (JObj (<["abcdefgh123" := record]> ∅)) /\
    (forall prior, (∅ : gmap string json) !! "abcdefgh123" = Some prior ->
       record = prior /\ <["abcdefgh123" := record]> ∅ = (∅ : gmap string json)) /\
    ((∅ : gmap string json) !! "abcdefgh123" = None ->
       record = record_of false false false).
Proof.
  assert (H0 : Str.startswith "/api/state/" "/api/state/abcdefgh123" = true)
    by reflexivity.
  assert (H1 : last_segment "/api/state/abcdefgh123" = "abcdefgh123") by reflexivity.
  assert (H2 : String.length "abcdefgh123" = 11) by reflexivity.
  assert (H3 : stored empty_world = JObj ∅) by reflexivity.
  assert (H4 : ~ In (JStr "read") [JInt 1; JStr "unread"])
    by (simpl; intros [H|[H|[]]]; discriminate H).
  assert (H5 : ~ In (JStr "starred") [JInt 1; JStr "unread"])
    by (simpl; intros [H|[H|[]]]; discriminate H).
  assert (H6 : ~ In (JStr "archived") [JInt 1; JStr "unread"])
    by (simpl; intros [H|[H|[]]]; discriminate H).
  split; [repeat split; assumption|].
  exact (patch_array_body _ "abcdefgh123" empty_world ∅ _ H0 H1 H2 H3 H4 H5 H6).
Defined.

(** ** The deletion loop *)

Lemma unlinks_only_refl (w : world) : unlinks_only w w.
Proof.
  repeat split. exists []. split; [symmetry; apply app_nil_r|constructor].
Qed.

Lemma unlinks_only_trans (w1 w2 w3 : world) :
  unlinks_only w1 w2 -> unlinks_only w2 w3 -> unlinks_only w1 w3.
Proof.
  intros (Hs & Ht & Hi & Hb & evs & He & Hf) (Hs' & Ht' & Hi' & Hb' & evs' & He' & Hf').
  repeat split; try congruence.
  exists (evs ++ evs'). split.
  - rewrite He', He, app_assoc. reflexivity.
  - apply Forall_app. split; assumption.
Qed.

Lemma unlinks_only_step (w : world) (ds : gmap string directory) (sd name : string) :
  unlinks_only w (log (EvUnlink sd name) (set_dirs ds w)).
Proof.
  repeat split. exists [EvUnlink sd name]. split; [reflexivity|].
  constructor; [exact I|constructor].
Qed.

Lemma find_entry_app (name : string) (pre l : directory) :
  (forall e, In e pre -> fst e <> name) ->
  find_entry name (pre ++ l) = find_entry name l.
Proof.
  induction pre as [|[n nd] pre IH]; intros H; simpl; [reflexivity|].
  destruct (String.eqb_spec n name) as [E|_].
  - exfalso. apply (H (n, nd)); [left; reflexivity|exact E].
  - apply IH. intros e He. apply H. right. exact He.
Qed.

Lemma remove_entry_app (name : string) (pre l : directory) :
  (forall e, In e pre -> fst e <> name) ->
  remove_entry name (pre ++ l) = pre ++ remove_entry name l.
Proof.
  induction pre as [|[n nd] pre IH]; intros H; simpl; [reflexivity|].
  destruct (String.eqb_spec n name) as [E|_].
  - exfalso. apply (H (n, nd)); [left; reflexivity|exact E].
  - f_equal. apply IH. intros e He. apply H. right. exact He.
Qed.

(** *** One pass: the directory [sd] scanned for [pattern] *)

Section Pass.

Variables sd pattern : string.

(** Removing the first listed file: it is the entry at the head of what
    is still to be scanned. *)
Lemma unlink_head (name : string) (nd : node) (pre rest : directory) (w : world) :
  dirs w !! sd = Some (pre ++ (name, nd) :: rest) ->
  (forall e, In e pre -> Glob.fnmatch pattern (fst e) = false) ->
  Glob.fnmatch pattern name = true ->
  unlink sd name w =
  match node_unlink nd with
  | Some e => (Raise (OSError e), w)
  | None => (Ok tt, log (EvUnlink sd name)
                        (set_dirs (<[sd := pre ++ rest]> (dirs w)) w))
  end.
Proof.
  intros Hd Hpre Hm. unfold unlink. rewrite Hd.
  assert (Hne : forall e, In e pre -> fst e <> name).
  { intros e He E. rewrite <- E, (Hpre e He) in Hm. discriminate. }
  rewrite (find_entry_app _ _ _ Hne), (remove_entry_app _ _ _ Hne). simpl.
  rewrite String.eqb_refl. reflexivity.
Qed.

Lemma for_each_cons {X R A} (x : X) (xs : list X) (body : X -> A -> M (flow R A))
      (acc : A) (w : world) :
  for_each (x :: xs) body acc w =
  match body x acc w with
  | (Ok (Next acc'), w') => for_each xs body acc' w'
  | (Ok (Return r), w') => (Ok (Return r), w')
  | (Raise e, w') => (Raise e, w')
  end.
Proof.
  simpl. unfold bind. destruct (body x acc w) as [[[a|r]|e] w']; reflexivity.
Qed.

Lemma delete_file_run (name : string) (acc : list string) (w : world) :
  delete_file sd name acc w =
  match unlink sd name w with
  | (Ok _, w') => (Ok (Next (acc ++ [sd +:+ "/" +:+ name])), w')
  | (Raise e, w') =>
      (Ok (Return (false, "Failed to delete " +:+ name +:+ ": " +:+ exn_text e)), w')
  end.
Proof.
  unfold delete_file, try_except, bind, ret.
  destruct (unlink sd name w) as [[[]|e] w']; reflexivity.
Qed.

Lemma glob_cons (name : string) (nd : node) (d : directory) :
  Glob.glob ((name, nd) :: d) pattern =
  if Glob.fnmatch pattern name then name :: Glob.glob d pattern
  else Glob.glob d pattern.
Proof.
  unfold Glob.glob. simpl. destruct (Glob.fnmatch pattern name); reflexivity.
Qed.

Lemma unmatched_cons (name : string) (nd : node) (d : directory) :
  unmatched pattern ((name, nd) :: d) =
  if Glob.fnmatch pattern name then unmatched pattern d
  else (name, nd) :: unmatched pattern d.
Proof.
  unfold unmatched. simpl. destruct (Glob.fnmatch pattern name); reflexivity.
Qed.

(** One pass over a directory in which every matched entry can be
    removed: the matched entries go, in scanning order. *)
Lemma pass_clear (rest : directory) :
  forall (pre : directory) (acc : list string) (w : world),
    dirs w !! sd = Some (pre ++ rest) ->
    (forall e, In e pre -> Glob.fnmatch pattern (fst e) = false) ->
    blocked rest pattern = false ->
    exists w',
      for_each (Glob.glob rest pattern) (delete_file sd) acc w
      = (Ok (Next (acc ++ map (fun name => sd +:+ "/" +:+ name) (Glob.glob rest pattern))), w') /\
      dirs w' = <[sd := pre ++ unmatched pattern rest]> (dirs w) /\
      unlinks_only w w'.
Proof.
  induction rest as [|[name nd] rest IH]; intros pre acc w Hd Hpre Hb.
  - exists w. simpl. rewrite app_nil_r. split; [reflexivity|]. split.
    + rewrite app_nil_r in Hd |- *. symmetry. apply insert_id, Hd.
    + apply unlinks_only_refl.
  - rewrite glob_cons, unmatched_cons.
    simpl in Hb. apply orb_false_iff in Hb as [Hhead Hb].
    destruct (Glob.fnmatch pattern name) eqn:Hm; simpl in Hhead.
    + rewrite for_each_cons, delete_file_run.
      rewrite (unlink_head name nd pre rest w Hd Hpre Hm).
      unfold unremovable in Hhead. destruct (node_unlink nd); [discriminate|].
      destruct (IH pre (acc ++ [sd +:+ "/" +:+ name])
                  (log (EvUnlink sd name) (set_dirs (<[sd := pre ++ rest]> (dirs w)) w)))
        as (w' & Hrun & Hdirs & Hu).
      * simpl. apply lookup_insert_eq.
      * exact Hpre.
      * exact Hb.
      * exists w'. rewrite Hrun. rewrite <- app_assoc. simpl.
        split; [reflexivity|]. split.
        -- rewrite Hdirs. simpl. apply insert_insert_eq.
        -- eapply unlinks_only_trans; [apply unlinks_only_step|exact Hu].
    + destruct (IH (pre ++ [(name, nd)]) acc w) as (w' & Hrun & Hdirs & Hu).
      * rewrite <- app_assoc. exact Hd.
      * intros e He. apply in_app_or in He as [He|[<-|[]]]; [apply Hpre, He|exact Hm].
      * exact Hb.
      * exists w'. split; [exact Hrun|]. split; [|exact Hu].
        rewrite Hdirs, <- app_assoc. reflexivity.
Qed.

(** One pass over a directory in which some matched entry cannot be
    removed: the pass returns the failure, after removals only. *)
Lemma pass_blocked (rest : directory) :
  forall (pre : directory) (acc : list string) (w : world),
    dirs w !! sd = Some (pre ++ rest) ->
    (forall e, In e pre -> Glob.fnmatch pattern (fst e) = false) ->
    blocked rest pattern = true ->
    exists name e w',
      for_each (Glob.glob rest pattern) (delete_file sd) acc w
      = (Ok (Return (false, "Failed to delete " +:+ name +:+ ": " +:+ e)), w') /\
      unlinks_only w w'.
Proof.
  induction rest as [|[name nd] rest IH]; intros pre acc w Hd Hpre Hb.
  - discriminate Hb.
  - rewrite glob_cons. simpl in Hb.
    destruct (Glob.fnmatch pattern name) eqn:Hm; simpl in Hb.
    + rewrite for_each_cons, delete_file_run.
      rewrite (unlink_head name nd pre rest w Hd Hpre Hm).
      unfold unremovable in Hb. destruct (node_unlink nd) as [e|]; simpl in Hb.
      * exists name, e, w. split; [reflexivity|apply unlinks_only_refl].
      * destruct (IH pre (acc ++ [sd +:+ "/" +:+ name])
                    (log (EvUnlink sd name) (set_dirs (<[sd := pre ++ rest]> (dirs w)) w)))
          as (name' & e' & w' & Hrun & Hu).
        -- simpl. apply lookup_insert_eq.
        -- exact Hpre.
        -- exact Hb.
        -- exists name', e', w'. rewrite Hrun.
           split; [reflexivity|].
           eapply unlinks_only_trans; [apply unlinks_only_step|exact Hu].
    + destruct (IH (pre ++ [(name, nd)]) acc w) as (name' & e' & w' & Hrun & Hu).
      * rewrite <- app_assoc. exact Hd.
      * intros x Hx. apply in_app_or in Hx as [Hx|[<-|[]]]; [apply Hpre, Hx|exact Hm].
      * exact Hb.
      * exists name', e', w'. split; [exact Hrun|exact Hu].
Qed.

End Pass.

Lemma filter_twice {A} (f g : A -> bool) (l : list A) :
  List.filter f (List.filter g l) = List.filter (fun x => g x && f x) l.
Proof.
  induction l as [|x l IH]; simpl; [reflexivity|].
  destruct (g x); simpl; [destruct (f x)|]; rewrite IH; reflexivity.
Qed.

Lemma blocked_exists (d : directory) (pattern : string) :
  blocked d pattern = true <->
  exists e, In e d /\ Glob.fnmatch pattern (fst e) = true /\ unremovable (snd e) = true.
Proof.
  unfold blocked. rewrite existsb_exists. split.
  - intros (e & He & H). apply andb_true_iff in H. exists e. tauto.
  - intros (e & He & H1 & H2). exists e. rewrite H1, H2. tauto.
Qed.

Lemma blocked_unmatched (d : directory) (p q : string) :
  blocked d q = true -> blocked d p = false -> blocked (unmatched p d) q = true.
Proof.
  intros Hq Hp. apply blocked_exists in Hq as (e & He & Hm & Hu).
  apply blocked_exists. exists e. split; [|tauto].
  apply filter_In. split; [exact He|].
  destruct (Glob.fnmatch p (fst e)) eqn:E; [|reflexivity].
  assert (blocked d p = true) by (apply blocked_exists; exists e; tauto).
  congruence.
Qed.

Lemma blocked_unmatched_false (d : directory) (p q : string) :
  blocked d q = false -> blocked (unmatched p d) q = false.
Proof.
  intros Hq. destruct (blocked (unmatched p d) q) eqn:E; [|reflexivity].
  apply blocked_exists in E as (e & He & H).
  apply filter_In in He as [He _].
  assert (blocked d q = true) by (apply blocked_exists; exists e; tauto).
  congruence.
Qed.

Lemma stuck_after_pass (ps : list (string * string)) (ds : gmap string directory)
      (sd p : string) (d : directory) (b : bool) :
  ds !! sd = Some d ->
  blocked d p = false ->
  stuck ps ds = b ->
  stuck ps (<[sd := unmatched p d]> ds) = b.
Proof.
  intros Hd Hp <-. unfold stuck.
  induction ps as [|[sd' q] ps IH]; simpl; [reflexivity|].
  rewrite IH. f_equal.
  destruct (decide (sd = sd')) as [<-|Hne].
  - rewrite lookup_insert_eq, Hd.
    destruct (blocked d q) eqn:E.
    + apply blocked_unmatched; assumption.
    + apply blocked_unmatched_false; assumption.
  - rewrite lookup_insert_ne by exact Hne. reflexivity.
Qed.

Lemma delete_matching_run (p : string * string) (acc : list string) (w : world) :
  delete_matching p acc w =
  match dirs w !! fst p with
  | None => (Ok (Next acc), w)
  | Some d => for_each (Glob.glob d (snd p)) (delete_file (fst p)) acc w
  end.
Proof. reflexivity. Qed.

Lemma kept_cons (p : string * string) (ps : list (string * string)) (sd name : string) :
  kept (p :: ps) sd name =
  negb (String.eqb (fst p) sd && Glob.fnmatch (snd p) name) && kept ps sd name.
Proof. reflexivity. Qed.

Lemma targets_cons (sd p : string) (ps : list (string * string))
      (ds : gmap string directory) :
  targets ((sd, p) :: ps) ds =
  match ds !! sd with
  | None => targets ps ds
  | Some d => map (fun name => sd +:+ "/" +:+ name) (Glob.glob d p)
              ++ targets ps (<[sd := unmatched p d]> ds)
  end.
Proof. reflexivity. Qed.

(** The loop over the pairs when every matched file can be removed *)
Lemma sweep_clear (ps : list (string * string)) :
  forall (acc : list string) (w : world),
    stuck ps (dirs w) = false ->
    exists w',
      for_each ps delete_matching acc w = (Ok (Next (acc ++ targets ps (dirs w))), w') /\
      (forall sd, dirs w' !! sd
                  = List.filter (fun e => kept ps sd (fst e)) <$> dirs w !! sd) /\
      unlinks_only w w'.
Proof.
  induction ps as [|[sd0 p0] ps IH]; intros acc w Hs.
  - exists w. simpl. rewrite app_nil_r. split; [reflexivity|].
    split; [|apply unlinks_only_refl].
    intros sd. destruct (dirs w !! sd) as [d|]; simpl; [|reflexivity].
    f_equal. symmetry. apply forallb_filter_id. apply forallb_forall. reflexivity.
  - rewrite for_each_cons, delete_matching_run, targets_cons. simpl in Hs.
    cbn [fst snd].
    apply orb_false_iff in Hs as [Hb Hs].
    destruct (dirs w !! sd0) as [d0|] eqn:Hd0.
    + destruct (pass_clear sd0 p0 d0 [] acc w Hd0) as (w1 & Hrun & Hdirs & Hu1);
        [intros e []|exact Hb|].
      simpl in Hdirs. rewrite Hrun.
      destruct (IH (acc ++ map (fun name => sd0 +:+ "/" +:+ name) (Glob.glob d0 p0)) w1)
        as (w' & Hrun' & Hdirs' & Hu').
      { rewrite Hdirs. apply stuck_after_pass; assumption. }
      exists w'. rewrite Hrun', Hdirs, <- app_assoc.
      split; [reflexivity|]. split; [|eapply unlinks_only_trans; eassumption].
      intros sd. rewrite Hdirs', Hdirs.
      destruct (decide (sd0 = sd)) as [<-|Hne].
      * rewrite lookup_insert_eq, Hd0. simpl. f_equal.
        unfold unmatched. rewrite filter_twice. apply filter_ext.
        intros [n nd]. try rewrite kept_cons. simpl. rewrite String.eqb_refl. reflexivity.
      * rewrite lookup_insert_ne by exact Hne.
        destruct (dirs w !! sd) as [d|]; simpl; [|reflexivity].
        f_equal. apply filter_ext. intros [n nd]. try rewrite kept_cons. simpl.
        destruct (String.eqb_spec sd0 sd); [contradiction|reflexivity].
    + destruct (IH acc w Hs) as (w' & Hrun' & Hdirs' & Hu').
      exists w'. split; [exact Hrun'|]. split; [|exact Hu'].
      intros sd. rewrite Hdirs'.
      destruct (dirs w !! sd) as [d|] eqn:Hd; simpl; [|reflexivity].
      f_equal. apply filter_ext. intros [n nd]. try rewrite kept_cons. simpl.
      destruct (String.eqb_spec sd0 sd) as [E|]; [congruence|reflexivity].
Qed.

(** The loop over the pairs when some matched file cannot be removed *)
Lemma sweep_blocked (ps : list (string * string)) :
  forall (acc : list string) (w : world),
    stuck ps (dirs w) = true ->
    exists name e w',
      for_each ps delete_matching acc w
      = (Ok (Return (false, "Failed to delete " +:+ name +:+ ": " +:+ e)), w') /\
      unlinks_only w w'.
Proof.
  induction ps as [|[sd0 p0] ps IH]; intros acc w Hs.
  - discriminate Hs.
  - rewrite for_each_cons, delete_matching_run. simpl in Hs. cbn [fst snd].
    destruct (dirs w !! sd0) as [d0|] eqn:Hd0.
    + destruct (blocked d0 p0) eqn:Hb.
      * destruct (pass_blocked sd0 p0 d0 [] acc w Hd0) as (name & e & w' & Hrun & Hu);
          [intros x []|exact Hb|].
        exists name, e, w'. rewrite Hrun. split; [reflexivity|exact Hu].
      * destruct (pass_clear sd0 p0 d0 [] acc w Hd0) as (w1 & Hrun & Hdirs & Hu1);
          [intros x []|exact Hb|].
        simpl in Hdirs, Hs. rewrite Hrun.
        destruct (IH (acc ++ map (fun name => sd0 +:+ "/" +:+ name) (Glob.glob d0 p0)) w1)
          as (name & e & w' & Hrun' & Hu').
        { rewrite Hdirs. apply stuck_after_pass; assumption. }
        exists name, e, w'. split; [exact Hrun'|].
        eapply unlinks_only_trans; eassumption.
    + simpl in Hs. apply (IH acc w Hs).
Qed.

(** The loop over the pairs when no file is matched *)
Lemma sweep_nothing (ps : list (string * string)) (acc : list string) (w : world) :
  (forall p d, In p ps -> dirs w !! fst p = Some d -> Glob.glob d (snd p) = []) ->
  for_each ps delete_matching acc w = (Ok (Next acc), w).
Proof.
  induction ps as [|p ps IH]; intros H; [reflexivity|].
  rewrite for_each_cons, delete_matching_run.
  destruct (dirs w !! fst p) as [d|] eqn:Hd.
  - rewrite (H p d (or_introl eq_refl) Hd). simpl.
    apply IH. intros q dq Hq. apply H. right. exact Hq.
  - apply IH. intros q dq Hq. apply H. right. exact Hq.
Qed.

(** ** DELETE *)

Lemma build_viewer_files (w : world) :
  dirs (snd (Build.build_viewer w)) = dirs w /\
  state_file (snd (Build.build_viewer w)) = state_file w.
Proof.
  unfold Build.build_viewer.
  destruct (dirs w !! "summaries"); [|split; reflexivity].
  destruct (template w) as [[text|e]|]; split; reflexivity.
Qed.

Lemma rebuild_viewer_files (w : world) :
  exists w', rebuild_viewer w = (Ok tt, w') /\
             dirs w' = dirs w /\ state_file w' = state_file w.
Proof.
  unfold rebuild_viewer. destruct (build_script (log EvRebuild w)).
  - eexists. split; [reflexivity|].
    destruct (build_viewer_files (log EvRebuild w)) as [-> ->]. split; reflexivity.
  - eexists. split; [reflexivity|]. split; reflexivity.
Qed.

Lemma do_DELETE_valid (path id : string) (w : world) :
  Str.startswith "/api/delete/" path = true ->
  last_segment path = id ->
  String.length id = 11 ->
  do_DELETE path w = (r <- delete_transcript id ;; delete_reply r) w.
Proof.
  intros Hpre Hseg Hlen. unfold do_DELETE.
  rewrite Hpre, Hseg, (valid_id_length _ Hlen). reflexivity.
Qed.

Lemma kept_excludes (ps : list (string * string)) (p : string * string) (name : string) :
  In p ps -> kept ps (fst p) name = true -> Glob.fnmatch (snd p) name = false.
Proof.
  intros Hin Hk. unfold kept in Hk.
  rewrite forallb_forall in Hk. specialize (Hk p Hin).
  rewrite String.eqb_refl in Hk. simpl in Hk.
  destruct (Glob.fnmatch (snd p) name); [discriminate|reflexivity].
Qed.

Lemma glob_kept (ps : list (string * string)) (p : string * string) (d : directory) :
  In p ps ->
  Glob.glob (List.filter (fun e => kept ps (fst p) (fst e)) d) (snd p) = [].
Proof.
  intros Hin. unfold Glob.glob. rewrite filter_twice.
  induction d as [|e d IH]; simpl; [reflexivity|].
  destruct (kept ps (fst p) (fst e)) eqn:Hk; simpl; [|exact IH].
  rewrite (kept_excludes ps p (fst e) Hin Hk). exact IH.
Qed.

(** [delete_transcript] when every matched file can be removed and there
    is at least one *)
Lemma delete_transcript_clear (id : string) (w : world) (d : gmap string json) :
  stored w = JObj d ->
  stuck (patterns id) (dirs w) = false ->
  targets (patterns id) (dirs w) <> [] ->
  exists w1,
    delete_transcript id w
    = (Ok (true, "Deleted " +:+ pretty (length (targets (patterns id) (dirs w)))
                 +:+ " files"), w1) /\
    (forall sd, dirs w1 !! sd
                = List.filter (fun e => kept (patterns id) sd (fst e)) <$> dirs w !! sd) /\
    state_file w1 = match d !! id with
                    | Some _ => Holds (JObj (delete id d))
                    | None => state_file w
                    end.
Proof.
  intros Hd Hs Hn. unfold delete_transcript. unfold bind at 1.
  destruct (sweep_clear (patterns id) [] w Hs) as (w' & Hrun & Hdirs & Hu).
  rewrite Hrun, app_nil_l.
  destruct (targets (patterns id) (dirs w)) as [|t ts] eqn:Ht; [contradiction|].
  destruct Hu as (Hsf & _).
  assert (Hst : stored w' = JObj d) by (unfold stored; rewrite Hsf; exact Hd).
  unfold bind at 1. rewrite load_state_stored, Hst.
  unfold bind at 1, lift at 1. rewrite contains_key.
  destruct (d !! id) as [r|] eqn:E.
  - unfold bind at 1, bind at 1, lift at 1, Py.delitem. rewrite E.
    unfold save_state.
    unfold bind at 1.
    destruct (rebuild_viewer_files
                (log EvSaveState (set_state_file (Holds (JObj (delete id d)))
                                                 (log EvLoadState w'))))
      as (w1 & Hrb & Hrd & Hrs).
    rewrite Hrb. exists w1. split; [reflexivity|]. split.
    + intros sd. rewrite Hrd. simpl. apply Hdirs.
    + rewrite Hrs. reflexivity.
  - unfold bind at 1, ret at 1. unfold bind at 1.
    destruct (rebuild_viewer_files (log EvLoadState w')) as (w1 & Hrb & Hrd & Hrs).
    rewrite Hrb. exists w1. split; [reflexivity|]. split.
    + intros sd. rewrite Hrd. simpl. apply Hdirs.
    + rewrite Hrs. simpl. exact Hsf.
Qed.

(** [delete_transcript] when no file is matched *)
Lemma delete_transcript_nothing (id : string) (w : world) :
  (forall p dir, In p (patterns id) -> dirs w !! fst p = Some dir ->
                 Glob.glob dir (snd p) = []) ->
  delete_transcript id w = (Ok (false, "No files found for video ID: " +:+ id), w).
Proof.
  intros H. unfold delete_transcript, bind.
  rewrite (sweep_nothing _ _ _ H). reflexivity.
Qed.

(** *** Counting the matched files *)

Lemma list_sum_ext (f g : string -> nat) (l : list string) :
  (forall x, In x l -> f x = g x) -> list_sum (map f l) = list_sum (map g l).
Proof.
  induction l as [|x l IH]; intros H; simpl; [reflexivity|].
  rewrite (H x (or_introl eq_refl)), IH; [reflexivity|].
  intros y Hy. apply H. right. exact Hy.
Qed.

(** Two sums that differ at one index *)
Lemma list_sum_one (f g : string -> nat) (x0 : string) (k : nat) (l : list string) :
  List.NoDup l -> In x0 l ->
  f x0 = k + g x0 ->
  (forall x, x <> x0 -> f x = g x) ->
  list_sum (map f l) = k + list_sum (map g l).
Proof.
  intros Hnd Hin H0 Hne. induction l as [|x l IH]; [destruct Hin|].
  apply List.NoDup_cons_iff in Hnd as [Hx Hnd]. simpl.
  destruct Hin as [->|Hin].
  - rewrite H0, (list_sum_ext f g l); [lia|].
    intros y Hy. apply Hne. intros ->. contradiction.
  - rewrite (IH Hnd Hin), (Hne x); [lia|]. intros ->. contradiction.
Qed.

Lemma filter_none {A} (f : A -> bool) (l : list A) :
  (forall x, In x l -> f x = false) -> List.filter f l = [].
Proof.
  induction l as [|x l IH]; intros H; [reflexivity|].
  simpl. rewrite (H x (or_introl eq_refl)). apply IH.
  intros y Hy. apply H. right. exact Hy.
Qed.

Lemma filter_split_length {A} (m k1 k2 : A -> bool) (l : list A) :
  (forall x, k1 x = negb (m x) && k2 x) ->
  length (List.filter (fun x => negb (k1 x)) l)
  = length (List.filter m l)
    + length (List.filter (fun x => negb (k2 x)) (List.filter (fun x => negb (m x)) l)).
Proof.
  intros H. induction l as [|x l IH]; [reflexivity|].
  simpl. rewrite (H x).
  destruct (m x); simpl; [rewrite IH; reflexivity|].
  destruct (k2 x); simpl; rewrite IH; lia.
Qed.

Lemma matched_split (sd p : string) (ps : list (string * string)) (d : directory) :
  length (List.filter (fun e => negb (kept ((sd, p) :: ps) sd (fst e))) d)
  = length (Glob.glob d p)
    + length (List.filter (fun e => negb (kept ps sd (fst e))) (unmatched p d)).
Proof.
  unfold Glob.glob, unmatched. rewrite length_map.
  apply (filter_split_length (fun e => Glob.fnmatch p (fst e))
           (fun e => kept ((sd, p) :: ps) sd (fst e)) (fun e => kept ps sd (fst e))).
  intros e. rewrite kept_cons. simpl. rewrite String.eqb_refl. reflexivity.
Qed.

Lemma kept_other (sd0 p0 : string) (ps : list (string * string)) (sd name : string) :
  sd <> sd0 -> kept ((sd0, p0) :: ps) sd name = kept ps sd name.
Proof.
  intros H. cbn [kept forallb fst snd].
  destruct (String.eqb_spec sd0 sd) as [E|]; [congruence|reflexivity].
Qed.

(** The loop lists as many files as the pairs match. *)
Lemma targets_length (ps : list (string * string)) (sds : list string) :
  List.NoDup sds ->
  (forall p, In p ps -> In (fst p) sds) ->
  forall ds : gmap string directory,
    length (targets ps ds)
    = list_sum (map (fun sd => length (matched_in ps ds sd)) sds).
Proof.
  intros Hnd. induction ps as [|[sd0 p0] ps IH]; intros Hin ds.
  - simpl. induction sds as [|sd sds IHs]; [reflexivity|].
    apply List.NoDup_cons_iff in Hnd as [_ Hnd]. simpl.
    rewrite <- (IHs Hnd) by (intros p []).
    unfold matched_in. simpl.
    rewrite filter_none; [reflexivity|]. reflexivity.
  - assert (Hin' : forall p, In p ps -> In (fst p) sds)
      by (intros p Hp; apply Hin; right; exact Hp).
    assert (H0 : In sd0 sds) by (apply (Hin (sd0, p0)); left; reflexivity).
    rewrite targets_cons. destruct (ds !! sd0) as [d0|] eqn:Hd0.
    + rewrite length_app, length_map, (IH Hin').
      symmetry. apply (list_sum_one _ _ sd0); [exact Hnd|exact H0| |].
      * unfold matched_in, listing. rewrite lookup_insert_eq, Hd0. simpl.
        apply matched_split.
      * intros sd Hne. unfold matched_in, listing.
        rewrite lookup_insert_ne by congruence.
        f_equal. apply filter_ext. intros e. rewrite (kept_other _ _ _ _ _ Hne).
        reflexivity.
    + rewrite (IH Hin'). apply list_sum_ext. intros sd _.
      unfold matched_in, listing.
      destruct (decide (sd = sd0)) as [->|Hne]; [rewrite Hd0; reflexivity|].
      f_equal. apply filter_ext. intros e. rewrite (kept_other _ _ _ _ _ Hne).
      reflexivity.
Qed.

Lemma targets_count (id : string) (ds : gmap string directory) :
  length (targets (patterns id) ds) = matching_count id ds.
Proof.
  apply targets_length.
  - repeat constructor; simpl; intuition discriminate.
  - intros p Hp. simpl in Hp. unfold content_dirs.
    destruct Hp as [<-|[<-|[<-|[<-|[<-|[]]]]]]; simpl; tauto.
Qed.

(** After the loop no file is matched any more. *)
Lemma matching_count_swept (id : string) (ds ds' : gmap string directory) :
  (forall sd, ds' !! sd
              = List.filter (fun e => kept (patterns id) sd (fst e)) <$> ds !! sd) ->
  matching_count id ds' = 0.
Proof.
  intros H. unfold matching_count.
  assert (E : forall sd, length (matched_in (patterns id) ds' sd) = 0).
  { intros sd. unfold matched_in, listing. rewrite H.
    destruct (ds !! sd) as [d|]; [|reflexivity]. simpl.
    rewrite filter_twice.
    rewrite filter_none; [reflexivity|].
    intros e _. apply andb_negb_r. }
  induction content_dirs as [|sd l IH]; [reflexivity|].
  simpl. rewrite E, IH. reflexivity.
Qed.

(** C1.  When the five pairs match N >= 1 files, each of them can be
    removed and the state file stands for a mapping, a DELETE under
    /api/delete/ whose last path segment is the 11-character identifier
    is answered with 200 and "Deleted N files".  The identifier holds no
    "**": with one, the five patterns are no patterns of [Path.glob]
    before Python 3.13, which raises ValueError for them.
    Afterwards each content directory holds exactly the entries that no
    pair of that directory matches, so that no file matches any more;
    the state mapping is the one before without the identifier (written
    to the state file if the identifier was in it); and the same DELETE
    is then answered with 404 and changes nothing. *)
Theorem delete_then_repeat (path id : string) (w : world) (d : gmap string json) :
  Str.startswith "/api/delete/" path = true ->
  last_segment path = id ->
  String.length id = 11 ->
  Str.contains "**" id = false ->
  stored w = JObj d ->
  stuck (patterns id) (dirs w) = false ->
  1 <= matching_count id (dirs w) ->
  exists w1,
    do_DELETE path w = (Ok (deleted (matching_count id (dirs w))), w1) /\
    (forall sd, dirs w1 !! sd
                = List.filter (fun e => kept (patterns id) sd (fst e)) <$> dirs w !! sd) /\
    matching_count id (dirs w1) = 0 /\
    stored w1 = JObj (delete id d) /\
    (forall r, d !! id = Some r -> state_file w1 = Holds (JObj (delete id d))) /\
    do_DELETE path w1
      = (Ok (Json 404 (error_body ("No files found for video ID: " +:+ id))), w1).
Proof.
  intros Hpre Hseg Hlen _ Hd Hs Hn. rewrite <- targets_count in Hn |- *.
  destruct (delete_transcript_clear id w d Hd Hs) as (w1 & Hrun & Hdirs & Hsf).
  { intros E. rewrite E in Hn. simpl in Hn. lia. }
  assert (Hgone : forall p dir, In p (patterns id) -> dirs w1 !! fst p = Some dir ->
                                Glob.glob dir (snd p) = []).
  { intros p dir Hin Hdir. rewrite Hdirs in Hdir.
    destruct (dirs w !! fst p) as [d0|]; [|discriminate].
    simpl in Hdir. injection Hdir as <-. exact (glob_kept (patterns id) p d0 Hin). }
  exists w1. rewrite !(do_DELETE_valid _ _ _ Hpre Hseg Hlen).
  unfold bind. rewrite Hrun, (delete_transcript_nothing id w1 Hgone).
  split; [reflexivity|]. split; [exact Hdirs|].
  split; [exact (matching_count_swept id (dirs w) (dirs w1) Hdirs)|].
  split; [|split; [|reflexivity]].
  - unfold stored. rewrite Hsf. destruct (d !! id) eqn:E; [reflexivity|].
    rewrite delete_id by exact E. exact Hd.
  - intros r E. rewrite Hsf, E. reflexivity.
Qed.

Lemma delete_then_repeat_witness :
  (Str.startswith "/api/delete/" "/api/delete/abcdefgh123" = true /\
   last_segment "/api/delete/abcdefgh123" = "abcdefgh123" /\
   String.length "abcdefgh123" = 11 /\
   Str.contains "**" "abcdefgh123" = false /\
   stored library_world
   = JObj {[ "abcdefgh123" := record_of true false false;
             "dQw4w9WgXcQ" := default_record ]} /\
   stuck (patterns "abcdefgh123") (dirs library_world) = false /\
   1 <= matching_count "abcdefgh123" (dirs library_world)) /\
  exists w1,
    do_DELETE "/api/delete/abcdefgh123" library_world
      = (Ok (deleted (matching_count "abcdefgh123" (dirs library_world))), w1) /\
    (forall sd, dirs w1 !! sd
                = List.filter (fun e => kept (patterns "abcdefgh123") sd (fst e))
                    <$> dirs library_world !! sd) /\
    matching_count "abcdefgh123" (dirs w1) = 0 /\
    stored w1 = JObj (delete "abcdefgh123"
                        {[ "abcdefgh123" := record_of true false false;
                           "dQw4w9WgXcQ" := default_record ]}) /\
    (forall r, ({[ "abcdefgh123" := record_of true false false;
                   "dQw4w9WgXcQ" := default_record ]} : gmap string json)
               !! "abcdefgh123" = Some r ->
       state_file w1 = Holds (JObj (delete "abcdefgh123"
                                      {[ "abcdefgh123" := record_of true false false;
                                         "dQw4w9WgXcQ" := default_record ]}))) /\
    do_DELETE "/api/delete/abcdefgh123" w1
      = (Ok (Json 404 (error_body "No files found for video ID: abcdefgh123")), w1).
Proof.
  assert (H0 : Str.startswith "/api/delete/" "/api/delete/abcdefgh123" = true)
    by reflexivity.
  assert (H1 : last_segment "/api/delete/abcdefgh123" = "abcdefgh123") by reflexivity.
  assert (H2 : String.length "abcdefgh123" = 11) by reflexivity.
  assert (H3 : stored library_world
               = JObj {[ "abcdefgh123" := record_of true false false;
                         "dQw4w9WgXcQ" := default_record ]}) by reflexivity.
  assert (H4 : stuck (patterns "abcdefgh123") (dirs library_world) = false)
    by (vm_compute; reflexivity).
  assert (H5 : 1 <= matching_count "abcdefgh123" (dirs library_world))
    by (vm_compute; lia).
  assert (H6 : Str.contains "**" "abcdefgh123" = false) by reflexivity.
  split; [repeat split; assumption|].
  exact (delete_then_repeat _ "abcdefgh123" library_world _ H0 H1 H2 H6 H3 H4 H5).
Defined.

(** The run of C1 on the library: three files go, the page is rebuilt
    without the summary, the other video keeps its files and its
    record. *)
Example delete_in_library :
  let r := do_DELETE "/api/delete/abcdefgh123" library_world in
  fst r = Ok (deleted 3) /\
  dirs (snd r) = {[ "summaries" := [("2025-02-02-dQw4w9WgXcQ.md", plain "# Two")];
                    "transcripts" := [("2025-02-02-dQw4w9WgXcQ.txt", plain "two")];
                    "audio" := [] ]} /\
  state_file (snd r) = Holds (JObj {[ "dQw4w9WgXcQ" := default_record ]}) /\
  trace (snd r) = [EvUnlink "summaries" "2025-01-01-abcdefgh123.md";
                   EvUnlink "transcripts" "2025-01-01-abcdefgh123.txt";
                   EvUnlink "transcripts" "2025-01-01-abcdefgh123.srt";
                   EvLoadState; EvSaveState; EvRebuild].
Proof. vm_compute. repeat split; reflexivity. Qed.



(** The run of C8 on the jammed library: two files are gone when the
    third one fails, and the record of the video is still in the state
    file. *)
Example delete_in_jammed_library :
  let r := do_DELETE "/api/delete/abcdefgh123" jammed_world in
  fst r = Ok (Json 404 (error_body
            "Failed to delete 2025-01-01-abcdefgh123.srt: [Errno 13] Permission denied")) /\
  dirs (snd r) = {[ "summaries" := [];
                    "transcripts" := [("2025-01-01-abcdefgh123.srt",
                                       locked "1" "[Errno 13] Permission denied")] ]} /\
  state_file (snd r) = state_file jammed_world /\
  index_html (snd r) = None /\
  trace (snd r) = [EvUnlink "summaries" "2025-01-01-abcdefgh123.md";
                   EvUnlink "transcripts" "2025-01-01-abcdefgh123.txt"].
Proof. vm_compute. repeat split; reflexivity. Qed.

(** C9.  Beyond its length nothing is asked of the identifier: for every
    11-character last segment, whatever its characters, PATCH goes on to
    update the state and DELETE goes on to [delete_transcript]; and every
    string without "/" is the last segment of the path made with it.
    With a "*" in the identifier the patterns match files of other
    videos: the DELETE for [abcdefgh12*] removes the summary of the video
    [abcdefgh123], whose name does not end in [-abcdefgh12*.md]. *)
Theorem only_the_length_is_checked :
  (forall (path id : string) (updates : json) (w : world),
     last_segment path = id ->
     String.length id = 11 ->
     (Str.startswith "/api/state/" path = true ->
      do_PATCH path (Parsed updates) w = update_state id updates w) /\
     (Str.startswith "/api/delete/" path = true ->
      do_DELETE path w = (r <- delete_transcript id ;; delete_reply r) w)) /\
  (forall id : string,
     Str.mem "/" id = false ->
     last_segment ("/api/state/" +:+ id) = id /\
     last_segment ("/api/delete/" +:+ id) = id) /\
  (exists (id name : string) (w w1 : world),
     String.length id = 11 /\
     Str.mem "*" id = true /\
     dirs w !! "summaries" = Some [(name, plain "# One")] /\
     Str.endswith ("-" +:+ id +:+ ".md") name = false /\
     Str.endswith "-abcdefgh123.md" name = true /\
     do_DELETE ("/api/delete/" +:+ id) w = (Ok (deleted 1), w1) /\
     dirs w1 !! "summaries" = Some []).
Proof.
  split; [|split].
  - intros path id updates w Hseg Hlen. split; intros Hpre.
    + apply do_PATCH_valid; assumption.
    + apply do_DELETE_valid; assumption.
  - intros id Hslash. split.
    + apply (state_path_segment id Hslash).
    + apply (delete_path_segment id Hslash).
  - exists "abcdefgh12*", "2025-01-01-abcdefgh123.md".
    exists (World Missing {[ "summaries" := [("2025-01-01-abcdefgh123.md", plain "# One")] ]}
                  None None false []).
    eexists. repeat split; try reflexivity.
    + vm_compute. reflexivity.
    + vm_compute. reflexivity.
Qed.

(** ** The viewer builder *)

Lemma replace_from_skip (old new : string) (o s : string) :
  Build.replace_from (String.length o) old new (o +:+ s) = Build.replace old new s.
Proof. induction o as [|c o IH]; simpl; [destruct s; reflexivity|exact IH]. Qed.

Lemma prefix_append (o s : string) : String.prefix o (o +:+ s) = true.
Proof.
  induction o as [|c o IH]; simpl; [destruct s; reflexivity|].
  destruct (ascii_dec c c); [exact IH|contradiction].
Qed.

(** An occurrence of [old] at the head is replaced by [new]. *)
Lemma replace_hit (c : ascii) (o new s : string) :
  Build.replace (String c o) new (String c o +:+ s)
  = new +:+ Build.replace (String c o) new s.
Proof.
  pose proof (prefix_append (String c o) s) as H.
  unfold Build.replace at 1.
  change (String c o +:+ s) with (String c (o +:+ s)) in *.
  cbn [Build.replace_from]. rewrite H. cbn [String.length].
  rewrite Nat.sub_1_r. cbn [Nat.pred]. rewrite replace_from_skip. reflexivity.
Qed.

(** A character that starts no occurrence of [old] is copied. *)
Lemma replace_miss (old new : string) (c : ascii) (s : string) :
  String.prefix old (String c s) = false ->
  Build.replace old new (String c s) = String c (Build.replace old new s).
Proof. intros H. unfold Build.replace. cbn [Build.replace_from]. rewrite H. reflexivity. Qed.

Example page_of_empty_library :
  Build.replace Build.placeholder "[]" page_template
  = "<script>const SUMMARIES = [];</script>".
Proof. reflexivity. Qed.

(** ** Replacing the placeholder *)

Lemma prefix_get (p : string) :
  forall s, String.prefix p s = true ->
            forall n c, String.get n p = Some c -> String.get n s = Some c.
Proof.
  induction p as [|a p IH]; intros s H n c Hn; [discriminate Hn|].
  destruct s as [|b s]; [discriminate H|]. cbn [String.prefix] in H.
  destruct (ascii_dec a b) as [->|]; [|discriminate H].
  destruct n as [|n]; [exact Hn|]. exact (IH s H n c Hn).
Qed.

Lemma get_app_right (b s : string) (n : nat) :
  String.get (String.length b + n) (b +:+ s) = String.get n s.
Proof. induction b as [|c b IH]; [reflexivity|exact IH]. Qed.

Lemma prefix_long (p : string) :
  forall b x, String.length p <= String.length b ->
              String.prefix p (b +:+ x) = String.prefix p b.
Proof.
  induction p as [|a p IH]; intros b x H.
  - destruct b; [destruct x|]; reflexivity.
  - destruct b as [|c b]; [simpl in H; lia|].
    change (String c b +:+ x) with (String c (b +:+ x)). cbn [String.prefix].
    destruct (ascii_dec a c); [|reflexivity].
    apply IH. simpl in H. lia.
Qed.

(** No occurrence of the placeholder overlaps another one. *)
Lemma placeholder_apart (b post : string) :
  b <> "" -> String.length b < 20 ->
  String.prefix Build.placeholder (b +:+ Build.placeholder +:+ post) = false.
Proof.
  intros Hb Hl.
  destruct (String.prefix Build.placeholder (b +:+ Build.placeholder +:+ post)) eqn:H;
    [exfalso|reflexivity].
  pose proof (prefix_get _ _ H) as Hg.
  pose proof (get_app_right b (Build.placeholder +:+ post) 0) as H0.
  pose proof (get_app_right b (Build.placeholder +:+ post) 1) as H1.
  change (String.get 0 (Build.placeholder +:+ post)) with (Some "/"%char) in H0.
  change (String.get 1 (Build.placeholder +:+ post)) with (Some "*"%char) in H1.
  remember (String.length b) as k eqn:Hk.
  destruct k as [|k]; [destruct b; [contradiction|discriminate Hk]|].
  do 19 (destruct k as [|k];
         [cbn [Nat.add] in H0, H1;
          match type of H0 with
          | String.get ?n _ = _ =>
              pose proof (Hg n _ eq_refl) as G0; rewrite H0 in G0;
              try discriminate G0
          end;
          match type of H1 with
          | String.get ?n _ = _ =>
              pose proof (Hg n _ eq_refl) as G1; rewrite H1 in G1;
              discriminate G1
          end|]).
  lia.
Qed.

(** The placeholder is replaced where it first occurs. *)
Lemma replace_first (new post : string) :
  forall pre,
    Str.contains Build.placeholder pre = false ->
    Build.replace Build.placeholder new (pre +:+ Build.placeholder +:+ post)
    = pre +:+ new +:+ Build.replace Build.placeholder new post.
Proof.
  induction pre as [|c pre IH]; intros H.
  - exact (replace_hit "/" _ new post).
  - cbn [Str.contains] in H. apply orb_false_iff in H as [Hp Hc].
    change (String c pre +:+ Build.placeholder +:+ post)
      with (String c (pre +:+ Build.placeholder +:+ post)).
    rewrite replace_miss.
    + rewrite (IH Hc). reflexivity.
    + change (String c (pre +:+ Build.placeholder +:+ post))
        with (String c pre +:+ Build.placeholder +:+ post).
      destruct (Nat.lt_ge_cases (String.length (String c pre)) 20) as [Hlt|Hge].
      * apply placeholder_apart; [discriminate|exact Hlt].
      * rewrite prefix_long by exact Hge. exact Hp.
Qed.

(** Where the text to replace does not occur, nothing is replaced. *)
Lemma replace_absent (old new : string) :
  forall s, Str.contains old s = false -> Build.replace old new s = s.
Proof.
  induction s as [|c s IH]; intros H; [reflexivity|].
  cbn [Str.contains] in H. apply orb_false_iff in H as [Hp Hc].
  rewrite (replace_miss old new c s Hp), (IH Hc). reflexivity.
Qed.

(** Between parts that do not hold it, the placeholder is replaced at
    every place. *)
Lemma replace_joined (new : string) (parts : list string) :
  placeholder_free parts = true ->
  Build.replace Build.placeholder new (joined Build.placeholder parts)
  = joined new parts.
Proof.
  unfold placeholder_free.
  induction parts as [|x parts IH]; intros H; [reflexivity|].
  cbn [forallb] in H. apply andb_true_iff in H as [Hx Hrest].
  apply negb_true_iff in Hx.
  destruct parts as [|y parts].
  - exact (replace_absent _ _ x Hx).
  - change (joined Build.placeholder (x :: y :: parts))
      with (x +:+ Build.placeholder +:+ joined Build.placeholder (y :: parts)).
    change (joined new (x :: y :: parts)) with (x +:+ new +:+ joined new (y :: parts)).
    rewrite (replace_first new _ x Hx), (IH Hrest). reflexivity.
Qed.

Lemma prefix_split (p : string) :
  forall s, String.prefix p s = true -> exists post, s = p +:+ post.
Proof.
  induction p as [|a p IH]; intros s H; [exists s; reflexivity|].
  destruct s as [|b s]; [discriminate H|]. cbn [String.prefix] in H.
  destruct (ascii_dec a b) as [->|]; [|discriminate H].
  destruct (IH s H) as [post ->]. exists post. reflexivity.
Qed.

Lemma prefix_app_l (p : string) :
  forall a b, String.prefix p a = true -> String.prefix p (a +:+ b) = true.
Proof.
  induction p as [|x p IH]; intros a b H; [destruct (a +:+ b); reflexivity|].
  destruct a as [|y a]; [discriminate H|].
  change (String y a +:+ b) with (String y (a +:+ b)). cbn [String.prefix] in *.
  destruct (ascii_dec x y); [exact (IH a b H)|discriminate H].
Qed.

(** Where a text holds [p], it holds it a first time. *)
Lemma first_occurrence (p : string) :
  p <> EmptyString ->
  forall s, Str.contains p s = true ->
            exists pre post, s = pre +:+ p +:+ post /\ Str.contains p pre = false.
Proof.
  intros Hne.
  assert (Hnil : Str.contains p EmptyString = false).
  { destruct p; [contradiction|reflexivity]. }
  induction s as [|c s IH]; intros H.
  - rewrite Hnil in H. discriminate H.
  - cbn [Str.contains] in H.
    destruct (String.prefix p (String c s)) eqn:Hp.
    + destruct (prefix_split p _ Hp) as [post E].
      exists EmptyString, post. split; [exact E|exact Hnil].
    + cbn [orb] in H. destruct (IH H) as (pre & post & -> & Hpre).
      exists (String c pre), post. split; [reflexivity|].
      cbn [Str.contains]. rewrite Hpre, orb_false_r.
      destruct (String.prefix p (String c pre)) eqn:E; [|reflexivity].
      rewrite <- Hp. symmetry.
      exact (prefix_app_l p (String c pre) (p +:+ post) E).
Qed.

Lemma length_append (a b : string) :
  String.length (a +:+ b) = String.length a + String.length b.
Proof.
  induction a as [|c a IH]; [reflexivity|].
  change (String c a +:+ b) with (String c (a +:+ b)). simpl. rewrite IH. reflexivity.
Qed.

(** Every text is made of parts that do not hold the placeholder, with
    the placeholder between them. *)
Lemma text_parts (n : nat) :
  forall text, String.length text <= n ->
               exists parts, placeholder_free parts = true /\ parts <> [] /\
                             text = joined Build.placeholder parts.
Proof.
  induction n as [|n IH]; intros text Hn.
  - destruct text; [|simpl in Hn; lia].
    exists [EmptyString]. repeat split. discriminate.
  - destruct (Str.contains Build.placeholder text) eqn:Hc.
    + destruct (first_occurrence Build.placeholder) with (s := text)
        as (pre & post & -> & Hpre); [discriminate|exact Hc|].
      destruct (IH post) as (parts & Hfree & Hne & ->).
      { rewrite !length_append in Hn. simpl in Hn. lia. }
      exists (pre :: parts). split; [|split; [discriminate|]].
      * unfold placeholder_free in *. cbn [forallb]. rewrite Hpre, Hfree. reflexivity.
      * destruct parts as [|y parts]; [contradiction|reflexivity].
    + exists [text]. split; [|split; [discriminate|reflexivity]].
      unfold placeholder_free. cbn [forallb]. rewrite Hc. reflexivity.
Qed.

Lemma every_text_has_parts (text : string) :
  exists parts, placeholder_free parts = true /\ text = joined Build.placeholder parts.
Proof.
  destruct (text_parts (String.length text) text (le_n _)) as (parts & Hfree & _ & E).
  exists parts. split; assumption.
Qed.

(** C7.  With a summaries directory that holds no markdown file (an
    empty one in particular) and a readable template, [build_viewer]
    returns True and writes as index.html the template with [[]] at
    every place of the placeholder: the template being parts without
    the placeholder with the placeholder between them, as every text is
    (lemma [every_text_has_parts]), index.html is the same parts with [[]] between
    them.  With no summaries directory or no template it returns False,
    raises nothing and leaves every file, index.html included, as it
    was. *)
Theorem build_viewer_edges (w w_missing : world) (d : directory) (parts : list string) :
  dirs w !! "summaries" = Some d ->
  Glob.glob d "*.md" = [] ->
  placeholder_free parts = true ->
  template w = Some (Ok (joined Build.placeholder parts)) ->
  dirs w_missing !! "summaries" = None \/ template w_missing = None ->
  Build.build_viewer w = (Ok true, set_index_html (joined "[]" parts) w) /\
  index_html (snd (Build.build_viewer w)) = Some (joined "[]" parts) /\
  Build.build_viewer w_missing = (Ok false, w_missing).
Proof.
  intros Hd Hg Hfree Ht Hm. unfold Build.build_viewer.
  rewrite Hd, Ht. unfold Glob.glob in Hg. apply map_eq_nil in Hg. rewrite Hg.
  change (Build.dumps (omap (fun e => Build.parse_summary (fst e) (snd e))
                            (Build.sorted_reverse [])))
    with "[]".
  rewrite (replace_joined "[]" parts Hfree).
  split; [reflexivity|]. split; [reflexivity|].
  destruct (dirs w_missing !! "summaries"); [|reflexivity].
  destruct Hm as [Hm|Hm]; [discriminate|]. rewrite Hm. reflexivity.
Qed.

Lemma build_viewer_edges_witness :
  (dirs empty_library !! "summaries" = Some [] /\
   Glob.glob [] "*.md" = [] /\
   placeholder_free ["<script>const SUMMARIES = "; ";</script>"] = true /\
   template empty_library
   = Some (Ok (joined Build.placeholder ["<script>const SUMMARIES = "; ";</script>"])) /\
   (dirs no_template !! "summaries" = None \/ template no_template = None)) /\
  Build.build_viewer empty_library
  = (Ok true, set_index_html "<script>const SUMMARIES = [];</script>" empty_library) /\
  index_html (snd (Build.build_viewer empty_library))
  = Some "<script>const SUMMARIES = [];</script>" /\
  Build.build_viewer no_template = (Ok false, no_template).
Proof.
  assert (H1 : dirs empty_library !! "summaries" = Some []) by (vm_compute; reflexivity).
  assert (H2 : Glob.glob [] "*.md" = []) by reflexivity.
  assert (H3 : placeholder_free ["<script>const SUMMARIES = "; ";</script>"] = true)
    by reflexivity.
  assert (H4 : template empty_library
               = Some (Ok (joined Build.placeholder
                             ["<script>const SUMMARIES = "; ";</script>"])))
    by reflexivity.
  assert (H5 : dirs no_template !! "summaries" = None \/ template no_template = None)
    by (right; reflexivity).
  split; [repeat split; assumption|].
  exact (build_viewer_edges empty_library no_template []
           ["<script>const SUMMARIES = "; ";</script>"] H1 H2 H3 H4 H5).
Defined.

(** ** The markdown parser *)

Lemma strip_prefix_prefix (p s r : string) :
  Str.strip_prefix p s = Some r -> String.prefix p s = true.
Proof.
  revert s. induction p as [|a p IH]; intros s H; [destruct s; reflexivity|].
  destruct s as [|b s]; [discriminate|]. simpl in *.
  destruct (Ascii.eqb_spec a b) as [->|]; [|discriminate].
  destruct (ascii_dec b b); [|contradiction]. exact (IH s H).
Qed.

Lemma url_at_marker (s g : string) :
  Build.url_at s = Some g -> String.prefix url_marker s = true.
Proof.
  unfold Build.url_at. intros H.
  destruct (Str.strip_prefix "**URL:**" s) as [r|] eqn:E; [|discriminate].
  exact (strip_prefix_prefix _ _ _ E).
Qed.

(** Where [m] occurs at the head of [s + rest], it occurs at the head of
    [s], or [s] is made of characters of [m]. *)
Lemma prefix_app_cases (m s rest : string) :
  String.prefix m (s +:+ rest) = true ->
  String.prefix m s = true \/ (forall c, Str.mem c s = true -> Str.mem c m = true).
Proof.
  revert s. induction m as [|a m IH]; intros s H; [left; destruct s; reflexivity|].
  destruct s as [|b s]; [right; intros c Hc; discriminate|].
  simpl in H. destruct (ascii_dec a b) as [->|]; [|discriminate].
  destruct (IH s H) as [Hp|Hc].
  - left. simpl. destruct (ascii_dec b b); [exact Hp|contradiction].
  - right. intros c Hm. simpl in *.
    apply orb_true_iff in Hm as [Hm|Hm]; [rewrite Hm; reflexivity|].
    rewrite (Hc c Hm). apply orb_true_r.
Qed.

Lemma ends_line_newline (c : ascii) (s : string) :
  ends_line (String c s) = true -> Str.mem "010" (String c s) = true.
Proof.
  revert c. induction s as [|b s IH]; intros c H.
  - cbv [ends_line Build.is_newline] in H. cbv [Str.mem].
    rewrite Ascii.eqb_sym, H. reflexivity.
  - change (ends_line (String b s) = true) in H.
    change (Ascii.eqb "010" c || Str.mem "010" (String b s) = true).
    rewrite (IH b H). apply orb_true_r.
Qed.

Lemma ends_line_tail (c : ascii) (s : string) :
  ends_line (String c s) = true -> ends_line s = true.
Proof. destruct s; intros H; [reflexivity|exact H]. Qed.

(** No match of the URL pattern starts on the lines before the first
    line that has the marker. *)
Lemma search_url_after (pre rest : string) :
  ends_line pre = true ->
  Str.contains url_marker pre = false ->
  Build.search Build.url_at (pre +:+ rest) = Build.search Build.url_at rest.
Proof.
  induction pre as [|c pre IH]; intros He Hc; [reflexivity|].
  change (String c pre +:+ rest) with (String c (pre +:+ rest)).
  cbn [Build.search].
  simpl in Hc. apply orb_false_iff in Hc as [Hp Hc].
  destruct (Build.url_at (String c (pre +:+ rest))) as [g|] eqn:E.
  - exfalso. apply url_at_marker in E.
    destruct (prefix_app_cases url_marker (String c pre) rest E) as [H|H].
    + unfold url_marker in H. simpl in H. rewrite H in Hp. discriminate.
    + specialize (H "010"%char (ends_line_newline c pre He)). discriminate H.
  - apply IH; [exact (ends_line_tail c pre He)|exact Hc].
Qed.

Lemma url_at_line (post : string) :
  ends_url post = true ->
  Build.url_at (url_line +:+ post) = Some "https://youtu.be/abcdefgh123".
Proof.
  intros H. destruct post as [|c post]; [reflexivity|].
  simpl in H. unfold Build.url_at. simpl. rewrite H. reflexivity.
Qed.

Lemma search_no_marker (content : string) :
  Str.contains url_marker content = false ->
  Build.search Build.url_at content = None.
Proof.
  induction content as [|c s IH]; intros H; [reflexivity|].
  simpl in H. apply orb_false_iff in H as [Hp Hc].
  cbn [Build.search].
  destruct (Build.url_at (String c s)) as [g|] eqn:E; [|exact (IH Hc)].
  apply url_at_marker in E. unfold url_marker in E. simpl in E.
  rewrite E in Hp. discriminate.
Qed.

Lemma search_head {A} (m : string -> option A) (s : string) (r : A) :
  m s = Some r -> Build.search m s = Some r.
Proof. intros H. destruct s; simpl; rewrite H; reflexivity. Qed.

(** C4, as stated, fails: in a file that has the line
    [**URL:** https://youtu.be/abcdefgh123] after another URL line, the
    first URL line gives the video. *)
Lemma first_url_line_wins :
  has_line url_line citing_summary = true /\
  Build.id <$> Build.parse_summary "2025-03-03-notes.md" (plain citing_summary)
  = Some "zzzzzzzzzzz" /\
  Build.id <$> Build.parse_summary "2025-03-03-notes.md" (plain citing_summary)
  <> Some "abcdefgh123".
Proof.
  assert (E : Build.id <$> Build.parse_summary "2025-03-03-notes.md" (plain citing_summary)
              = Some "zzzzzzzzzzz") by (vm_compute; reflexivity).
  rewrite E. split; [vm_compute; reflexivity|]. split; [reflexivity|discriminate].
Qed.

(** C4, amended.  When the first line of a markdown file on which the
    marker [**URL:**] occurs is [**URL:** https://youtu.be/abcdefgh123],
    parsing gives the video [abcdefgh123] and that URL, whatever the
    name of the file.  When the marker occurs nowhere in a file named
    [2025-01-01-abcdefgh123.md], parsing gives the same video, taken from
    the name, and the URL [https://www.youtube.com/watch?v=abcdefgh123]. *)
Theorem parse_summary_video_id
        (name pre post content : string) (unlink_error : option string) :
  ends_line pre = true ->
  Str.contains url_marker pre = false ->
  ends_url post = true ->
  Str.contains url_marker content = false ->
  (exists s, Build.parse_summary name
               (Node (Some (pre +:+ url_line +:+ post)) unlink_error) = Some s /\
             Build.id s = "abcdefgh123" /\
             Build.url s = "https://youtu.be/abcdefgh123") /\
  (exists s, Build.parse_summary "2025-01-01-abcdefgh123.md"
               (Node (Some content) unlink_error) = Some s /\
             Build.id s = "abcdefgh123" /\
             Build.url s = "https://www.youtube.com/watch?v=abcdefgh123" /\
             Build.date s = "2025-01-01").
Proof.
  intros Hpre Hquiet Hpost Hnone. split.
  - unfold Build.parse_summary. cbn [node_text].
    rewrite (search_url_after _ _ Hpre Hquiet).
    rewrite (search_head _ _ _ (url_at_line post Hpost)).
    eexists. split; [reflexivity|]. split; reflexivity.
  - unfold Build.parse_summary. cbn [node_text].
    rewrite (search_no_marker _ Hnone).
    eexists. split; [reflexivity|]. repeat split.
Qed.

Lemma parse_summary_video_id_witness :
  (ends_line ("# Title" +:+ newline) = true /\
   Str.contains url_marker ("# Title" +:+ newline) = false /\
   ends_url (newline +:+ "Text") = true /\
   Str.contains url_marker "# Title" = false) /\
  (exists s, Build.parse_summary "notes.md"
               (Node (Some (("# Title" +:+ newline) +:+ url_line +:+ newline +:+ "Text")) None)
             = Some s /\
             Build.id s = "abcdefgh123" /\
             Build.url s = "https://youtu.be/abcdefgh123") /\
  (exists s, Build.parse_summary "2025-01-01-abcdefgh123.md" (Node (Some "# Title") None)
             = Some s /\
             Build.id s = "abcdefgh123" /\
             Build.url s = "https://www.youtube.com/watch?v=abcdefgh123" /\
             Build.date s = "2025-01-01").
Proof.
  assert (H1 : ends_line ("# Title" +:+ newline) = true) by reflexivity.
  assert (H2 : Str.contains url_marker ("# Title" +:+ newline) = false) by reflexivity.
  assert (H3 : ends_url (newline +:+ "Text") = true) by reflexivity.
  assert (H4 : Str.contains url_marker "# Title" = false) by reflexivity.
  split; [repeat split; assumption|].
  exact (parse_summary_video_id "notes.md" ("# Title" +:+ newline) (newline +:+ "Text")
                                "# Title" None H1 H2 H3 H4).
Defined.

(* ===================================================================== *)
(** * Part IV: further properties of the two programs                     *)
(* ===================================================================== *)

(** ** PATCH in general *)

Lemma fold_keys (video_id : string) (u : gmap string json) (keys : list string) :
  forall (s r : gmap string json) (w : world),
    s !! video_id = Some (JObj r) ->
    fold_m keys (apply_key video_id (JObj u)) (JObj s) w
    = (Ok (JObj (<[video_id := JObj (fold_left (merge_flag u) keys r)]> s)), w).
Proof.
  induction keys as [|key keys IH]; intros s r w Hs.
  - simpl. rewrite (insert_id s video_id (JObj r) Hs). reflexivity.
  - cbn [fold_m fold_left]. unfold bind. unfold merge_flag at 2.
    destruct (u !! key) as [v|] eqn:E.
    + rewrite (apply_key_present video_id u key s r v w E Hs).
      rewrite (IH _ (<[key := JBool (Py.truthy v)]> r) w (lookup_insert_eq _ _ _)).
      rewrite insert_insert_eq. reflexivity.
    + rewrite apply_key_absent by (rewrite contains_key, E; reflexivity).
      apply IH, Hs.
Qed.

(** What [update_state] does with a JSON object as [updates] *)
Lemma update_state_object (video_id : string) (u d r : gmap string json) (w : world) :
  stored w = JObj d ->
  record_fields (d !! video_id) = Some r ->
  update_state video_id (JObj u) w
  = (Ok (patched (JObj (merge_flags u r))),
     log EvSaveState
       (set_state_file (Holds (JObj (<[video_id := JObj (merge_flags u r)]> d)))
                       (log EvLoadState w))).
Proof.
  intros Hd Hr. unfold update_state. unfold bind at 1.
  rewrite load_state_stored, Hd. unfold bind at 1, lift at 1.
  rewrite contains_key. unfold bind at 1.
  destruct (d !! video_id) as [prior|] eqn:E.
  - destruct prior; try discriminate Hr. injection Hr as ->.
    unfold ret at 1. unfold bind at 1.
    rewrite (fold_keys video_id u flags d r _ E).
    unfold bind, save_state, lift, Py.getitem. rewrite lookup_insert_eq. reflexivity.
  - injection Hr as <-. unfold lift at 1, Py.setitem. unfold bind at 1.
    rewrite (fold_keys video_id u flags _ default_fields _ (lookup_insert_eq _ _ _)).
    rewrite insert_insert_eq.
    unfold bind, save_state, lift, Py.getitem. rewrite lookup_insert_eq. reflexivity.
Qed.

Lemma fold_merge_lookup (u : gmap string json) (keys : list string) :
  forall (r : gmap string json) (k : string),
    fold_left (merge_flag u) keys r !! k
    = if bool_decide (k ∈ keys)
      then match u !! k with
           | Some v => Some (JBool (Py.truthy v))
           | None => r !! k
           end
      else r !! k.
Proof.
  induction keys as [|key keys IH]; intros r k; [reflexivity|].
  cbn [fold_left]. rewrite IH.
  destruct (decide (key = k)) as [->|Hne].
  - rewrite (bool_decide_eq_true_2 (k ∈ k :: keys)) by (left; reflexivity).
    unfold merge_flag. destruct (u !! k) as [v|] eqn:E.
    + rewrite lookup_insert_eq. destruct (bool_decide (k ∈ keys)); reflexivity.
    + destruct (bool_decide (k ∈ keys)); reflexivity.
  - assert (Hk : merge_flag u r key !! k = r !! k).
    { unfold merge_flag. destruct (u !! key); [|reflexivity].
      apply lookup_insert_ne. exact Hne. }
    rewrite Hk.
    destruct (bool_decide (k ∈ keys)) eqn:B.
    + apply bool_decide_eq_true_1 in B.
      rewrite (bool_decide_eq_true_2 (k ∈ key :: keys)) by (right; exact B).
      reflexivity.
    + apply bool_decide_eq_false_1 in B.
      rewrite (bool_decide_eq_false_2 (k ∈ key :: keys)); [reflexivity|].
      intros H. apply elem_of_cons in H as [H|H]; [congruence|tauto].
Qed.

Lemma merge_flags_flag (u r : gmap string json) (key : string) :
  In key flags ->
  merge_flags u r !! key = match u !! key with
                           | Some v => Some (JBool (Py.truthy v))
                           | None => r !! key
                           end.
Proof.
  intros H. unfold merge_flags. rewrite fold_merge_lookup.
  rewrite bool_decide_eq_true_2 by (apply list_elem_of_In; exact H). reflexivity.
Qed.

Lemma merge_flags_other (u r : gmap string json) (k : string) :
  ~ In k flags -> merge_flags u r !! k = r !! k.
Proof.
  intros H. unfold merge_flags. rewrite fold_merge_lookup.
  rewrite bool_decide_eq_false_2 by (rewrite list_elem_of_In; exact H). reflexivity.
Qed.

Lemma in_flags_dec (k : string) : In k flags \/ ~ In k flags.
Proof.
  destruct (decide (k ∈ flags)) as [H|H]; rewrite list_elem_of_In in H; tauto.
Qed.

Lemma merge_flags_twice (u r : gmap string json) :
  merge_flags u (merge_flags u r) = merge_flags u r.
Proof.
  apply map_eq. intros k. destruct (in_flags_dec k) as [H|H].
  - rewrite !(merge_flags_flag _ _ _ H). destruct (u !! k); reflexivity.
  - rewrite !(merge_flags_other _ _ _ H). reflexivity.
Qed.

(** X1.  A PATCH under /api/state/ for an 11-character identifier, with
    a JSON object as body, when the state file stands for a mapping whose
    entry for the identifier is absent or a JSON object: the answer is
    200 with the record after the update, which is also what the state
    file then holds for the identifier.  In that record each of read,
    starred, archived that the body has is the truth value of what the
    body gives for it, each one that the body lacks is as before; every
    other field of the record is as before, whatever other keys the body
    has; and every other entry of the mapping is as before. *)
Theorem patch_sets_flags (path id : string) (w : world) (d u r : gmap string json) :
  Str.startswith "/api/state/" path = true ->
  last_segment path = id ->
  String.length id = 11 ->
  stored w = JObj d ->
  record_fields (d !! id) = Some r ->
  exists r' w1,
    do_PATCH path (Parsed (JObj u)) w = (Ok (patched (JObj r')), w1) /\
    stored w1 = JObj (<[id := JObj r']> d) /\
    (forall key, In key flags ->
       r' !! key = match u !! key with
                   | Some v => Some (JBool (Py.truthy v))
                   | None => r !! key
                   end) /\
    (forall k, ~ In k flags -> r' !! k = r !! k) /\
    (forall other, other <> id -> (<[id := JObj r']> d) !! other = d !! other).
Proof.
  intros Hpre Hseg Hlen Hd Hr. exists (merge_flags u r). eexists.
  rewrite (do_PATCH_valid _ _ _ _ Hpre Hseg Hlen).
  rewrite (update_state_object id u d r w Hd Hr).
  split; [reflexivity|]. split; [reflexivity|].
  split; [intros key; apply merge_flags_flag|].
  split; [intros k; apply merge_flags_other|].
  intros other Hne. apply lookup_insert_ne. congruence.
Qed.

Lemma patch_sets_flags_witness :
  (Str.startswith "/api/state/" "/api/state/abcdefgh123" = true /\
   last_segment "/api/state/abcdefgh123" = "abcdefgh123" /\
   String.length "abcdefgh123" = 11 /\
   stored annotated_world
   = JObj {[ "abcdefgh123" := JObj (<["note" := JStr "later"]> default_fields) ]} /\
   record_fields (({[ "abcdefgh123" := JObj (<["note" := JStr "later"]> default_fields) ]}
                   : gmap string json) !! "abcdefgh123")
   = Some (<["note" := JStr "later"]> default_fields)) /\
  exists r' w1,
    do_PATCH "/api/state/abcdefgh123" (Parsed (JObj sample_updates)) annotated_world
    = (Ok (patched (JObj r')), w1) /\
    stored w1 = JObj (<["abcdefgh123" := JObj r']>
                        {[ "abcdefgh123" := JObj (<["note" := JStr "later"]> default_fields) ]}) /\
    (forall key, In key flags ->
       r' !! key = match sample_updates !! key with
                   | Some v => Some (JBool (Py.truthy v))
                   | None => (<["note" := JStr "later"]> default_fields) !! key
                   end) /\
    (forall k, ~ In k flags -> r' !! k = (<["note" := JStr "later"]> default_fields) !! k) /\
    (forall other, other <> "abcdefgh123" ->
       (<["abcdefgh123" := JObj r']>
          ({[ "abcdefgh123" := JObj (<["note" := JStr "later"]> default_fields) ]}
           : gmap string json)) !! other
       = ({[ "abcdefgh123" := JObj (<["note" := JStr "later"]> default_fields) ]}
          : gmap string json) !! other).
Proof.
  assert (H0 : Str.startswith "/api/state/" "/api/state/abcdefgh123" = true)
    by reflexivity.
  assert (H1 : last_segment "/api/state/abcdefgh123" = "abcdefgh123") by reflexivity.
  assert (H2 : String.length "abcdefgh123" = 11) by reflexivity.
  assert (H3 : stored annotated_world
               = JObj {[ "abcdefgh123" := JObj (<["note" := JStr "later"]> default_fields) ]})
    by reflexivity.
  assert (H4 : record_fields
                 (({[ "abcdefgh123" := JObj (<["note" := JStr "later"]> default_fields) ]}
                   : gmap string json) !! "abcdefgh123")
               = Some (<["note" := JStr "later"]> default_fields))
    by (vm_compute; reflexivity).
  split; [repeat split; assumption|].
  exact (patch_sets_flags _ "abcdefgh123" annotated_world _ sample_updates _
                          H0 H1 H2 H3 H4).
Defined.

(** The run of X1 on the annotated record: 1 counts as true, the empty
    string as false, "bogus" is dropped and the note stays. *)
Example patch_in_annotated_world :
  fst (do_PATCH "/api/state/abcdefgh123" (Parsed (JObj sample_updates)) annotated_world)
  = Ok (patched (JObj (<["note" := JStr "later"]>
                       (<["read" := JBool true]> default_fields)))).
Proof. vm_compute. reflexivity. Qed.

(** X2.  The same PATCH sent twice: the second one gets the answer of
    the first one and leaves the state file as the first one left it. *)
Theorem patch_twice (path id : string) (w : world) (d u r : gmap string json) :
  Str.startswith "/api/state/" path = true ->
  last_segment path = id ->
  String.length id = 11 ->
  stored w = JObj d ->
  record_fields (d !! id) = Some r ->
  exists answer w1 w2,
    do_PATCH path (Parsed (JObj u)) w = (Ok answer, w1) /\
    do_PATCH path (Parsed (JObj u)) w1 = (Ok answer, w2) /\
    state_file w2 = state_file w1.
Proof.
  intros Hpre Hseg Hlen Hd Hr.
  rewrite !(do_PATCH_valid _ _ _ _ Hpre Hseg Hlen).
  rewrite (update_state_object id u d r w Hd Hr).
  eexists _, _, _. split; [reflexivity|].
  rewrite (do_PATCH_valid _ _ _ _ Hpre Hseg Hlen).
  erewrite (update_state_object id u (<[id := JObj (merge_flags u r)]> d)
                                (merge_flags u r));
    [|reflexivity|rewrite lookup_insert_eq; reflexivity].
  rewrite merge_flags_twice, insert_insert_eq. split; reflexivity.
Qed.

Lemma patch_twice_witness :
  (Str.startswith "/api/state/" "/api/state/dQw4w9WgXcQ" = true /\
   last_segment "/api/state/dQw4w9WgXcQ" = "dQw4w9WgXcQ" /\
   String.length "dQw4w9WgXcQ" = 11 /\
   stored busy_world = JObj {[ "abcdefgh123" := default_record ]} /\
   record_fields (({[ "abcdefgh123" := default_record ]} : gmap string json)
                  !! "dQw4w9WgXcQ") = Some default_fields) /\
  exists answer w1 w2,
    do_PATCH "/api/state/dQw4w9WgXcQ" (Parsed (JObj sample_updates)) busy_world
    = (Ok answer, w1) /\
    do_PATCH "/api/state/dQw4w9WgXcQ" (Parsed (JObj sample_updates)) w1
    = (Ok answer, w2) /\
    state_file w2 = state_file w1.
Proof.
  assert (H0 : Str.startswith "/api/state/" "/api/state/dQw4w9WgXcQ" = true)
    by reflexivity.
  assert (H1 : last_segment "/api/state/dQw4w9WgXcQ" = "dQw4w9WgXcQ") by reflexivity.
  assert (H2 : String.length "dQw4w9WgXcQ" = 11) by reflexivity.
  assert (H3 : stored busy_world = JObj {[ "abcdefgh123" := default_record ]})
    by reflexivity.
  assert (H4 : record_fields (({[ "abcdefgh123" := default_record ]} : gmap string json)
                              !! "dQw4w9WgXcQ") = Some default_fields)
    by (vm_compute; reflexivity).
  split; [repeat split; assumption|].
  exact (patch_twice _ "dQw4w9WgXcQ" busy_world _ sample_updates _ H0 H1 H2 H3 H4).
Defined.

(** ** The schema of the state file *)

Lemma record_lookup (a b c : bool) (k : string) :
  (<["read" := JBool a]> (<["starred" := JBool b]>
     (<["archived" := JBool c]> (∅ : gmap string json)))) !! k
  = if decide (k = "read") then Some (JBool a)
    else if decide (k = "starred") then Some (JBool b)
    else if decide (k = "archived") then Some (JBool c)
    else None.
Proof.
  repeat case_decide; subst;
    repeat (rewrite lookup_insert_eq || rewrite lookup_insert_ne by congruence);
    try reflexivity; apply lookup_empty.
Qed.

Lemma merge_record (u : gmap string json) (a b c : bool) :
  JObj (merge_flags u (<["read" := JBool a]> (<["starred" := JBool b]>
                         (<["archived" := JBool c]> ∅))))
  = record_of (flag_after u "read" a) (flag_after u "starred" b)
              (flag_after u "archived" c).
Proof.
  unfold record_of. f_equal. apply map_eq. intros k.
  rewrite record_lookup. destruct (in_flags_dec k) as [H|H].
  - rewrite (merge_flags_flag _ _ _ H), record_lookup. unfold flag_after.
    simpl in H. destruct H as [<-|[<-|[<-|[]]]]; simpl; destruct (u !! _); reflexivity.
  - rewrite (merge_flags_other _ _ _ H), record_lookup.
    repeat case_decide; subst; try reflexivity; exfalso; apply H; simpl; tauto.
Qed.

Lemma schema_insert (d : gmap string json) (id : string) (a b c : bool) :
  schema d -> schema (<[id := record_of a b c]> d).
Proof.
  intros Hd k v H. destruct (decide (id = k)) as [->|Hne].
  - rewrite lookup_insert_eq in H. injection H as <-. eauto.
  - rewrite lookup_insert_ne in H by exact Hne. eauto.
Qed.

(** X3.  The schema of the state file is kept by PATCH: when every
    record of the mapping consists of the three flags as booleans, a
    PATCH under /api/state/ for an 11-character identifier with any JSON
    object as body is answered and leaves a mapping of which the same
    holds, whatever values the body gives. *)
Theorem patch_keeps_schema (path id : string) (w : world) (d u : gmap string json) :
  Str.startswith "/api/state/" path = true ->
  last_segment path = id ->
  String.length id = 11 ->
  stored w = JObj d ->
  schema d ->
  exists a b c w1 d1,
    do_PATCH path (Parsed (JObj u)) w = (Ok (patched (record_of a b c)), w1) /\
    stored w1 = JObj d1 /\
    d1 !! id = Some (record_of a b c) /\
    schema d1.
Proof.
  intros Hpre Hseg Hlen Hd Hsch.
  rewrite (do_PATCH_valid _ _ _ _ Hpre Hseg Hlen).
  destruct (d !! id) as [v|] eqn:E.
  - destruct (Hsch id v E) as (a & b & c & ->).
    rewrite (update_state_object id u d _ w Hd) by (rewrite E; reflexivity).
    rewrite merge_record. eexists _, _, _, _, _.
    split; [reflexivity|]. split; [reflexivity|].
    split; [apply lookup_insert_eq|apply schema_insert, Hsch].
  - rewrite (update_state_object id u d default_fields w Hd) by (rewrite E; reflexivity).
    unfold default_fields. rewrite merge_record. eexists _, _, _, _, _.
    split; [reflexivity|]. split; [reflexivity|].
    split; [apply lookup_insert_eq|apply schema_insert, Hsch].
Qed.

Lemma patch_keeps_schema_witness :
  (Str.startswith "/api/state/" "/api/state/abcdefgh123" = true /\
   last_segment "/api/state/abcdefgh123" = "abcdefgh123" /\
   String.length "abcdefgh123" = 11 /\
   stored busy_world = JObj {[ "abcdefgh123" := default_record ]} /\
   schema {[ "abcdefgh123" := default_record ]}) /\
  exists a b c w1 d1,
    do_PATCH "/api/state/abcdefgh123" (Parsed (JObj sample_updates)) busy_world
    = (Ok (patched (record_of a b c)), w1) /\
    stored w1 = JObj d1 /\
    d1 !! "abcdefgh123" = Some (record_of a b c) /\
    schema d1.
Proof.
  assert (H0 : Str.startswith "/api/state/" "/api/state/abcdefgh123" = true)
    by reflexivity.
  assert (H1 : last_segment "/api/state/abcdefgh123" = "abcdefgh123") by reflexivity.
  assert (H2 : String.length "abcdefgh123" = 11) by reflexivity.
  assert (H3 : stored busy_world = JObj {[ "abcdefgh123" := default_record ]})
    by reflexivity.
  assert (H4 : schema {[ "abcdefgh123" := default_record ]}).
  { intros k v H. apply lookup_singleton_Some in H as [_ <-].
    exists false, false, false. reflexivity. }
  split; [repeat split; assumption|].
  exact (patch_keeps_schema _ "abcdefgh123" busy_world _ sample_updates H0 H1 H2 H3 H4).
Defined.

(** ** What GET and PATCH never touch *)

Create HintDb frame.

Lemma keeps_ret {A} (a : A) : keeps_files (ret a).
Proof. intros w. repeat split. Qed.

Lemma keeps_raise {A} (e : exn) : keeps_files (@raise A e).
Proof. intros w. repeat split. Qed.

Lemma keeps_lift {A} (r : result A) : keeps_files (lift r).
Proof. intros w. repeat split. Qed.

Lemma keeps_bind {A B} (m : M A) (k : A -> M B) :
  keeps_files m -> (forall a, keeps_files (k a)) -> keeps_files (bind m k).
Proof.
  intros Hm Hk w. unfold bind. specialize (Hm w).
  destruct (m w) as [[a|e] w1]; simpl in Hm.
  - destruct (Hk a w1) as (H1 & H2 & H3). destruct Hm as (G1 & G2 & G3).
    repeat split; congruence.
  - exact Hm.
Qed.

Lemma keeps_load_state : keeps_files load_state.
Proof. intros w. unfold load_state. destruct (state_file w); repeat split. Qed.

Lemma keeps_save_state (state : json) : keeps_files (save_state state).
Proof. intros w. repeat split. Qed.

Lemma keeps_send (status : nat) (data : json) :
  keeps_files (send_json_response status data).
Proof. apply keeps_ret. Qed.

#[local] Hint Resolve keeps_ret keeps_raise keeps_lift keeps_load_state
  keeps_save_state keeps_send : frame.

Lemma keeps_apply_key (video_id : string) (updates : json) (key : string) (state : json) :
  keeps_files (apply_key video_id updates key state).
Proof.
  unfold apply_key. apply keeps_bind; [auto with frame|].
  intros [|]; [|auto with frame].
  repeat (apply keeps_bind; [auto with frame|intros ?]). auto with frame.
Qed.

Lemma keeps_fold_keys (video_id : string) (updates : json) (keys : list string) :
  forall state, keeps_files (fold_m keys (apply_key video_id updates) state).
Proof.
  induction keys as [|key keys IH]; intros state; simpl; [auto with frame|].
  apply keeps_bind; [apply keeps_apply_key|exact IH].
Qed.

Lemma keeps_update_state (video_id : string) (updates : json) :
  keeps_files (update_state video_id updates).
Proof.
  unfold update_state.
  apply keeps_bind; [auto with frame|intros state].
  apply keeps_bind; [auto with frame|intros present].
  apply keeps_bind; [destruct present; auto with frame|intros state'].
  apply keeps_bind; [apply keeps_fold_keys|intros state''].
  apply keeps_bind; [auto with frame|intros _].
  apply keeps_bind; auto with frame.
Qed.

(** X4.  Whatever the path, the body and the files, and whether it
    answers or raises, a PATCH leaves the content directories, the
    template and index.html as they are; a GET moreover leaves the state
    file as it is. *)
Theorem get_and_patch_keep_files (path : string) (body : payload) (w : world) :
  (dirs (snd (do_PATCH path body w)) = dirs w /\
   template (snd (do_PATCH path body w)) = template w /\
   index_html (snd (do_PATCH path body w)) = index_html w) /\
  (dirs (snd (do_GET path w)) = dirs w /\
   template (snd (do_GET path w)) = template w /\
   index_html (snd (do_GET path w)) = index_html w /\
   state_file (snd (do_GET path w)) = state_file w).
Proof.
  split.
  - revert w. change (keeps_files (do_PATCH path body)). unfold do_PATCH.
    destruct (Str.startswith "/api/state/" path); [|auto with frame].
    destruct (invalid_id (last_segment path)); [auto with frame|].
    destruct body; auto using keeps_update_state with frame.
  - unfold do_GET. destruct (String.eqb path "/api/state"); [|repeat split].
    unfold bind. rewrite load_state_stored. repeat split.
Qed.

(** ** PATCH saves what it answers *)

Lemma stored_not_object (w : world) (v : json) :
  stored w = v -> (forall s, v <> JObj s) -> state_file w = Holds v.
Proof.
  unfold stored. intros H Hv. destruct (state_file w); subst; try reflexivity;
    exfalso; exact (Hv ∅ eq_refl).
Qed.

(** One round of the loop raises, or keeps the state, or gives a mapping
    that has the record; it does nothing to the files. *)
Lemma apply_key_outcome (video_id : string) (updates : json) (key : string)
      (state : json) (w : world) :
  exists r, apply_key video_id updates key state w = (r, w) /\
            ((exists e, r = Raise e) \/ r = Ok state \/
             (exists state', r = Ok state' /\ has_record video_id state')).
Proof.
  unfold apply_key, bind, lift, ret.
  destruct (Py.contains key updates) as [[|]|e]; [|eauto|eauto].
  destruct (Py.getitem updates key) as [value|e]; [|eauto].
  destruct (Py.getitem state video_id) as [record|e]; [|eauto].
  destruct (Py.setitem record key (JBool (Py.truthy value))) as [record'|e]; [|eauto].
  destruct state; simpl; eauto.
  eexists. split; [reflexivity|]. right. right. eexists. split; [reflexivity|].
  eexists _, _. split; [reflexivity|apply lookup_insert_eq].
Qed.

Lemma fold_keys_outcome (video_id : string) (updates : json) (keys : list string)
      (w : world) :
  forall state,
    exists r, fold_m keys (apply_key video_id updates) state w = (r, w) /\
              ((exists e, r = Raise e) \/ r = Ok state \/
               (exists state', r = Ok state' /\ has_record video_id state')).
Proof.
  induction keys as [|key keys IH]; intros state.
  - eexists. split; [reflexivity|]. right. left. reflexivity.
  - cbn [fold_m]. unfold bind.
    destruct (apply_key_outcome video_id updates key state w)
      as (r & -> & [[e ->]|[->|(state' & -> & H')]]).
    + eauto.
    + apply IH.
    + destruct (IH state') as (r & -> & [Hr|[->|Hr]]); [eauto|eauto 8|eauto].
Qed.

(** After the loop: the state is saved, then the record is looked up. *)
Lemma save_and_answer (video_id : string) (state : json) (w0 w : world) :
  state_file w = state_file w0 ->
  has_record video_id state \/ (state_file w0 = Holds state /\ forall s, state <> JObj s) ->
  let out := (save_state state ;;;
              record <- lift (Py.getitem state video_id) ;;
              send_json_response 200
                (JObj (<["success" := JBool true]> (<["state" := record]> ∅)))) w in
  (exists record d', fst out = Ok (patched record) /\
                     state_file (snd out) = Holds (JObj d') /\
                     d' !! video_id = Some record) \/
  (state_file (snd out) = state_file w0 /\ forall record, fst out <> Ok (patched record)).
Proof.
  intros Hw [(s & x & -> & Hx)|[Hsf Hno]]; unfold bind, save_state, lift, Py.getitem.
  - rewrite Hx. left. exists x, s. repeat split. exact Hx.
  - right. destruct state; try (split; [simpl; congruence|intros record; discriminate]).
    exfalso. exact (Hno d eq_refl).
Qed.

Lemma bind_ok {A B} (m : M A) (k : A -> M B) (w w1 : world) (a : A) :
  m w = (Ok a, w1) -> bind m k w = k a w1.
Proof. intros H. unfold bind. rewrite H. reflexivity. Qed.

Lemma bind_raise {A B} (m : M A) (k : A -> M B) (w w1 : world) (e : exn) :
  m w = (Raise e, w1) -> bind m k w = (Raise e, w1).
Proof. intros H. unfold bind. rewrite H. reflexivity. Qed.

Lemma bind_lift {A B} (r : result A) (k : A -> M B) (w : world) :
  bind (lift r) k w = match r with
                      | Ok a => k a w
                      | Raise e => (Raise e, w)
                      end.
Proof. destruct r; reflexivity. Qed.

(** An identifier found in the stored value: the value is a mapping that
    has the record, or it is no mapping and is what the file holds. *)
Lemma found_in_store (video_id : string) (w : world) :
  Py.contains video_id (stored w) = Ok true ->
  has_record video_id (stored w) \/
  (state_file w = Holds (stored w) /\ forall s, stored w <> JObj s).
Proof.
  intros H. destruct (stored w) as [| | | | s0 | l | d] eqn:E; try discriminate H.
  - right. split; [apply stored_not_object; [exact E|discriminate]|discriminate].
  - right. split; [apply stored_not_object; [exact E|discriminate]|discriminate].
  - left. rewrite contains_key in H. destruct (d !! video_id) as [x|] eqn:Ex;
      [|discriminate H]. exists d, x. split; [reflexivity|exact Ex].
Qed.

Lemma update_state_outcome (video_id : string) (updates : json) (w : world) :
  let out := update_state video_id updates w in
  (exists record d', fst out = Ok (patched record) /\
                     state_file (snd out) = Holds (JObj d') /\
                     d' !! video_id = Some record) \/
  (state_file (snd out) = state_file w /\ forall record, fst out <> Ok (patched record)).
Proof.
  cbv zeta. unfold update_state.
  rewrite (bind_ok _ _ _ _ _ (load_state_stored w)), bind_lift.
  assert (Hend : forall state0,
             has_record video_id state0 \/
             (state_file w = Holds state0 /\ forall s, state0 <> JObj s) ->
             let out := (state <- fold_m ["read"; "starred"; "archived"]
                                        (apply_key video_id updates) state0 ;;
                         save_state state ;;;
                         record <- lift (Py.getitem state video_id) ;;
                         send_json_response 200
                           (JObj (<["success" := JBool true]> (<["state" := record]> ∅))))
                          (log EvLoadState w) in
             (exists record d', fst out = Ok (patched record) /\
                                state_file (snd out) = Holds (JObj d') /\
                                d' !! video_id = Some record) \/
             (state_file (snd out) = state_file w /\
              forall record, fst out <> Ok (patched record))).
  { intros state0 H0. cbv zeta.
    destruct (fold_keys_outcome video_id updates ["read"; "starred"; "archived"]
                                (log EvLoadState w) state0)
      as (r & Hfold & [[e ->]|[->|(state' & -> & H')]]).
    - rewrite (bind_raise _ _ _ _ _ Hfold). right.
      split; [reflexivity|intros record; discriminate].
    - rewrite (bind_ok _ _ _ _ _ Hfold).
      apply (save_and_answer video_id state0 w (log EvLoadState w) eq_refl H0).
    - rewrite (bind_ok _ _ _ _ _ Hfold).
      apply (save_and_answer video_id state' w (log EvLoadState w) eq_refl (or_introl H')). }
  destruct (Py.contains video_id (stored w)) as [[|]|e] eqn:Ec.
  - rewrite (bind_ok _ _ _ _ (stored w) eq_refl).
    apply Hend, found_in_store, Ec.
  - rewrite bind_lift.
    destruct (stored w) as [| | | | s0 | l | d];
      try (right; split; [reflexivity|intros record; discriminate]).
    apply Hend. left. eexists _, _. split; [reflexivity|apply lookup_insert_eq].
  - right. split; [reflexivity|intros record; discriminate].
Qed.

(** X5.  Whatever the request and the files, a PATCH either answers 200
    with a record, and then the state file holds a mapping in which the
    identifier has that very record, or it gives another answer or
    raises, and then the state file is as it was. *)
Theorem patch_saves_what_it_answers (path : string) (body : payload) (w : world) :
  let out := do_PATCH path body w in
  (exists record d', fst out = Ok (patched record) /\
                     state_file (snd out) = Holds (JObj d') /\
                     d' !! last_segment path = Some record) \/
  (state_file (snd out) = state_file w /\ forall record, fst out <> Ok (patched record)).
Proof.
  unfold do_PATCH.
  destruct (Str.startswith "/api/state/" path);
    [|right; split; [reflexivity|intros record; discriminate]].
  destruct (invalid_id (last_segment path));
    [right; split; [reflexivity|intros record; discriminate]|].
  destruct body; try (right; split; [reflexivity|intros record; discriminate]);
    apply update_state_outcome.
Qed.

(** ** DELETE without a matching file *)

Lemma list_sum_zero (f : string -> nat) (l : list string) (x : string) :
  list_sum (map f l) = 0 -> In x l -> f x = 0.
Proof.
  induction l as [|y l IH]; intros H Hin; [destruct Hin|].
  simpl in H. destruct Hin as [->|Hin]; [lia|apply IH; [lia|exact Hin]].
Qed.

Lemma pattern_dirs (id : string) (p : string * string) :
  In p (patterns id) -> In (fst p) content_dirs.
Proof.
  intros Hp. simpl in Hp. unfold content_dirs.
  destruct Hp as [<-|[<-|[<-|[<-|[<-|[]]]]]]; simpl; tauto.
Qed.

Lemma no_match_globs (id : string) (ds : gmap string directory) :
  matching_count id ds = 0 ->
  forall p dir, In p (patterns id) -> ds !! fst p = Some dir ->
                Glob.glob dir (snd p) = [].
Proof.
  intros H p dir Hp Hdir. unfold matching_count in H.
  pose proof (list_sum_zero _ _ (fst p) H (pattern_dirs id p Hp)) as H0.
  cbv beta in H0. unfold matched_in, listing in H0. rewrite Hdir in H0.
  change (default [] (Some dir)) with dir in H0.
  apply length_zero_iff_nil in H0.
  unfold Glob.glob. rewrite filter_none; [reflexivity|].
  intros e He. apply (kept_excludes (patterns id) p (fst e) Hp).
  destruct (kept (patterns id) (fst p) (fst e)) eqn:Hk; [reflexivity|].
  assert (Hin : In e (List.filter (fun e => negb (kept (patterns id) (fst p) (fst e))) dir))
    by (apply filter_In; split; [exact He|rewrite Hk; reflexivity]).
  rewrite H0 in Hin. destruct Hin.
Qed.

(** X6.  A DELETE under /api/delete/ for an 11-character identifier
    without "**" that no file matches is answered with 404 "No files
    found for video ID: ..." and changes nothing: no file is removed,
    the state file is neither read nor written, even when it has a
    record for the identifier, and the viewer is not rebuilt.  (With
    "**" in the identifier [Path.glob] raises ValueError before Python
    3.13.) *)
Theorem delete_without_files (path id : string) (w : world) :
  Str.startswith "/api/delete/" path = true ->
  last_segment path = id ->
  String.length id = 11 ->
  Str.contains "**" id = false ->
  matching_count id (dirs w) = 0 ->
  do_DELETE path w
  = (Ok (Json 404 (error_body ("No files found for video ID: " +:+ id))), w).
Proof.
  intros Hpre Hseg Hlen _ Hnone.
  rewrite (do_DELETE_valid _ _ _ Hpre Hseg Hlen).
  unfold bind.
  rewrite (delete_transcript_nothing id w (no_match_globs id (dirs w) Hnone)).
  reflexivity.
Qed.

Lemma delete_without_files_witness :
  (Str.startswith "/api/delete/" "/api/delete/dQw4w9WgXc0" = true /\
   last_segment "/api/delete/dQw4w9WgXc0" = "dQw4w9WgXc0" /\
   String.length "dQw4w9WgXc0" = 11 /\
   Str.contains "**" "dQw4w9WgXc0" = false /\
   matching_count "dQw4w9WgXc0" (dirs library_world) = 0) /\
  do_DELETE "/api/delete/dQw4w9WgXc0" library_world
  = (Ok (Json 404 (error_body "No files found for video ID: dQw4w9WgXc0")), library_world).
Proof.
  assert (H0 : Str.startswith "/api/delete/" "/api/delete/dQw4w9WgXc0" = true)
    by reflexivity.
  assert (H1 : last_segment "/api/delete/dQw4w9WgXc0" = "dQw4w9WgXc0") by reflexivity.
  assert (H2 : String.length "dQw4w9WgXc0" = 11) by reflexivity.
  assert (H3 : matching_count "dQw4w9WgXc0" (dirs library_world) = 0)
    by (vm_compute; reflexivity).
  assert (H4 : Str.contains "**" "dQw4w9WgXc0" = false) by reflexivity.
  split; [repeat split; assumption|].
  exact (delete_without_files _ "dQw4w9WgXc0" library_world H0 H1 H2 H4 H3).
Defined.

(** ** What the deletion routine never removes *)

Lemma filter_remove_entry (f : string -> bool) (name : string) (d : directory) :
  f name = false ->
  List.filter (fun e => f (fst e)) (remove_entry name d)
  = List.filter (fun e => f (fst e)) d.
Proof.
  intros H. induction d as [|[n nd] d IH]; [reflexivity|].
  cbn [remove_entry]. destruct (String.eqb_spec n name) as [->|Hne].
  - cbn [List.filter fst]. rewrite H. reflexivity.
  - cbn [List.filter fst]. rewrite IH. reflexivity.
Qed.

Lemma spares_ret {A} (ps : list (string * string)) (a : A) : spares ps (ret a).
Proof. intros w sd. reflexivity. Qed.

Lemma spares_bind {A B} (ps : list (string * string)) (m : M A) (k : A -> M B) :
  spares ps m -> (forall a, spares ps (k a)) -> spares ps (bind m k).
Proof.
  intros Hm Hk w sd. unfold bind. specialize (Hm w sd).
  destruct (m w) as [[a|e] w1]; simpl in Hm; [|exact Hm].
  rewrite <- Hm. apply Hk.
Qed.

(** What keeps the directories as they are spares every file. *)
Lemma spares_same_dirs {A} (ps : list (string * string)) (m : M A) :
  (forall w, dirs (snd (m w)) = dirs w) -> spares ps m.
Proof. intros H w sd. rewrite H. reflexivity. Qed.

Lemma spares_unlink (ps : list (string * string)) (sd name : string) :
  kept ps sd name = false -> spares ps (unlink sd name).
Proof.
  intros Hk w sd'. unfold unlink.
  destruct (dirs w !! sd) as [d|] eqn:Hd; [|reflexivity].
  destruct (find_entry name d) as [nd|]; [|reflexivity].
  destruct (node_unlink nd); [reflexivity|].
  unfold survivors. simpl.
  destruct (decide (sd = sd')) as [<-|Hne].
  - rewrite lookup_insert_eq, Hd. simpl. f_equal.
    apply (filter_remove_entry (kept ps sd) name d Hk).
  - rewrite lookup_insert_ne by exact Hne. reflexivity.
Qed.

Lemma spares_delete_file (ps : list (string * string)) (sd name : string)
      (acc : list string) :
  kept ps sd name = false -> spares ps (delete_file sd name acc).
Proof.
  intros Hk w sd'. rewrite delete_file_run.
  pose proof (spares_unlink ps sd name Hk w sd') as H.
  destruct (unlink sd name w) as [[[]|e] w1]; exact H.
Qed.

Lemma spares_for_each {X R A} (ps : list (string * string)) (xs : list X)
      (body : X -> A -> M (flow R A)) :
  (forall x acc, In x xs -> spares ps (body x acc)) ->
  forall acc, spares ps (for_each xs body acc).
Proof.
  induction xs as [|x xs IH]; intros H acc; [apply spares_ret|].
  cbn [for_each]. apply spares_bind; [apply H; left; reflexivity|].
  intros [acc'|r]; [|apply spares_ret].
  apply IH. intros y acc0 Hy. apply H. right. exact Hy.
Qed.

Lemma matched_not_kept (ps : list (string * string)) (p : string * string)
      (name : string) :
  In p ps -> Glob.fnmatch (snd p) name = true -> kept ps (fst p) name = false.
Proof.
  intros Hin Hm. destruct (kept ps (fst p) name) eqn:Hk; [|reflexivity].
  rewrite (kept_excludes ps p name Hin Hk) in Hm. discriminate.
Qed.

Lemma glob_matches (d : directory) (pattern name : string) :
  In name (Glob.glob d pattern) -> Glob.fnmatch pattern name = true.
Proof.
  unfold Glob.glob. intros H. apply in_map_iff in H as (e & <- & He).
  apply filter_In in He as [_ He]. exact He.
Qed.

Lemma spares_delete_matching (ps : list (string * string)) (p : string * string)
      (acc : list string) :
  In p ps -> spares ps (delete_matching p acc).
Proof.
  intros Hin w sd. rewrite delete_matching_run.
  destruct (dirs w !! fst p) as [d|]; [|reflexivity].
  apply spares_for_each. intros name acc0 Hname.
  apply spares_delete_file, matched_not_kept; [exact Hin|].
  exact (glob_matches d (snd p) name Hname).
Qed.

Lemma spares_delete_transcript (id : string) :
  spares (patterns id) (delete_transcript id).
Proof.
  unfold delete_transcript. apply spares_bind.
  - apply spares_for_each. intros p acc Hp. apply spares_delete_matching, Hp.
  - intros [deleted_files|r]; [|apply spares_ret].
    destruct deleted_files as [|f fs]; [apply spares_ret|].
    apply spares_bind; [apply spares_same_dirs, keeps_load_state|intros state].
    apply spares_bind; [apply spares_same_dirs, keeps_lift|intros present].
    apply spares_bind.
    + destruct present; [|apply spares_ret].
      apply spares_bind; [apply spares_same_dirs, keeps_lift|intros state'].
      apply spares_same_dirs, keeps_save_state.
    + intros _. apply spares_bind; [|intros _; apply spares_ret].
      apply spares_same_dirs. intros w.
      destruct (rebuild_viewer_files w) as (w' & -> & Hd & _). exact Hd.
Qed.

Lemma spares_do_DELETE (path : string) :
  spares (patterns (last_segment path)) (do_DELETE path).
Proof.
  unfold do_DELETE.
  destruct (Str.startswith "/api/delete/" path); [|apply spares_ret].
  destruct (invalid_id (last_segment path)); [apply spares_ret|].
  apply spares_bind; [apply spares_delete_transcript|].
  intros r. destruct (fst r); apply spares_ret.
Qed.

(** X7.  Whatever the identifier and the files, and however it ends (a
    success, "not found", a failed removal, an exception), the deletion
    routine and DELETE remove no file that none of the five pairs of the
    identifier matches: in every content directory the unmatched entries
    are afterwards what they were, in the same order, and no directory
    has appeared or gone. *)
Theorem unmatched_files_survive (path id : string) (w : world) (subdir : string) :
  survivors (patterns id) (dirs (snd (delete_transcript id w))) subdir
  = survivors (patterns id) (dirs w) subdir /\
  survivors (patterns (last_segment path)) (dirs (snd (do_DELETE path w))) subdir
  = survivors (patterns (last_segment path)) (dirs w) subdir.
Proof.
  split; [apply spares_delete_transcript|apply spares_do_DELETE].
Qed.

(** ** The names that the patterns of a plain identifier match *)

Lemma all_chars_app (p : ascii -> bool) (a b : string) :
  all_chars p (a +:+ b) = all_chars p a && all_chars p b.
Proof.
  induction a as [|c a IH]; [reflexivity|].
  change (String c a +:+ b) with (String c (a +:+ b)).
  cbn [all_chars]. rewrite IH, andb_assoc. reflexivity.
Qed.

Lemma all_chars_impl (p q : ascii -> bool) (s : string) :
  (forall c, p c = true -> q c = true) ->
  all_chars p s = true -> all_chars q s = true.
Proof.
  intros Hpq. induction s as [|c s IH]; [reflexivity|].
  cbn [all_chars]. intros H. apply andb_true_iff in H as [Hc Hs].
  rewrite (Hpq c Hc), (IH Hs). reflexivity.
Qed.

Lemma idchar_not_meta (c : ascii) :
  Build.is_idchar c = true -> negb (is_meta c) = true.
Proof.
  destruct c as [[] [] [] [] [] [] [] []]; vm_compute; intros H;
    first [reflexivity | discriminate H].
Qed.

Lemma translate_literals (s : string) :
  all_chars (fun c => negb (is_meta c)) s = true ->
  forall fuel, String.length s <= fuel -> Glob.translate_fuel fuel s = literals s.
Proof.
  induction s as [|c s IH]; intros H fuel Hf.
  - destruct fuel; reflexivity.
  - destruct fuel as [|fuel]; [simpl in Hf; lia|].
    cbn [all_chars] in H. apply andb_true_iff in H as [Hc Hs].
    unfold is_meta in Hc. apply negb_true_iff in Hc.
    apply orb_false_iff in Hc as [Hc H3]. apply orb_false_iff in Hc as [H1 H2].
    cbn [Glob.translate_fuel literals]. rewrite H1, H2, H3.
    rewrite (IH Hs fuel) by (simpl in Hf; lia). reflexivity.
Qed.

Lemma matches_literals (l s : string) :
  Glob.matches (literals l) s = true <-> s = l.
Proof.
  revert s. induction l as [|c l IH]; intros s.
  - destruct s; simpl; split; congruence.
  - destruct s as [|x s]; cbn [literals Glob.matches Glob.accepts].
    + split; discriminate.
    + rewrite andb_true_iff, IH. split.
      * intros [Hc ->]. apply Ascii.eqb_eq in Hc as ->. reflexivity.
      * intros [= -> ->]. split; [apply Ascii.eqb_refl|reflexivity].
Qed.

Lemma matches_star_nil (ts : list Glob.token) :
  Glob.matches (Glob.TStar :: ts) "" = Glob.matches ts "".
Proof. cbn [Glob.matches]. apply orb_false_r. Qed.

Lemma matches_star_cons (ts : list Glob.token) (c : ascii) (s : string) :
  Glob.matches (Glob.TStar :: ts) (String c s)
  = Glob.matches ts (String c s) || Glob.matches (Glob.TStar :: ts) s.
Proof. reflexivity. Qed.

(** A star takes any beginning of the name. *)
Lemma matches_star (ts : list Glob.token) (s : string) :
  Glob.matches (Glob.TStar :: ts) s = true <->
  exists pre suf, s = pre +:+ suf /\ Glob.matches ts suf = true.
Proof.
  induction s as [|c s IH].
  - rewrite matches_star_nil. split.
    + intros H. exists "", "". split; [reflexivity|exact H].
    + intros (pre & suf & E & H). destruct pre; [|discriminate E].
      change ("" +:+ suf) with suf in E. subst suf. exact H.
  - rewrite matches_star_cons, orb_true_iff, IH. split.
    + intros [H|(pre & suf & -> & H)].
      * exists "", (String c s). split; [reflexivity|exact H].
      * exists (String c pre), suf. split; [reflexivity|exact H].
    + intros (pre & suf & E & H). destruct pre as [|x pre].
      * change ("" +:+ suf) with suf in E. subst suf. left. exact H.
      * change (String x pre +:+ suf) with (String x (pre +:+ suf)) in E.
        injection E as -> ->. right. exists pre, suf. split; [reflexivity|exact H].
Qed.

(** A star followed by plain text matches the names that end in the text. *)
Lemma fnmatch_star_literal (l name : string) :
  all_chars (fun c => negb (is_meta c)) l = true ->
  Glob.fnmatch (String "*" l) name = true <-> exists pre, name = pre +:+ l.
Proof.
  intros Hl. unfold Glob.fnmatch, Glob.translate.
  cbn [String.length Glob.translate_fuel]. cbn [Ascii.eqb Bool.eqb].
  rewrite (translate_literals l Hl) by lia.
  rewrite matches_star. split.
  - intros (pre & suf & -> & H). apply matches_literals in H as ->. exists pre. reflexivity.
  - intros (pre & ->). exists pre, l. split; [reflexivity|]. apply matches_literals. reflexivity.
Qed.

Lemma kept_false (ps : list (string * string)) (subdir name : string) :
  kept ps subdir name = false <->
  exists p, In p ps /\ fst p = subdir /\ Glob.fnmatch (snd p) name = true.
Proof.
  unfold kept. induction ps as [|p ps IH]; cbn [forallb].
  - split; [discriminate|]. intros (p & [] & _).
  - rewrite andb_false_iff, IH, negb_false_iff, andb_true_iff, String.eqb_eq. split.
    + intros [[H1 H2]|(q & Hq & H)].
      * exists p. split; [left; reflexivity|]. split; assumption.
      * exists q. split; [right; exact Hq|exact H].
    + intros (q & [<-|Hq] & H1 & H2).
      * left. split; assumption.
      * right. exists q. split; [exact Hq|]. split; assumption.
Qed.

Lemma patterns_extensions (id : string) :
  patterns id = map (fun e => (fst e, "*-" +:+ id +:+ snd e)) extensions.
Proof. reflexivity. Qed.

Lemma extension_plain (subdir ext id : string) :
  In (subdir, ext) extensions ->
  all_chars Build.is_idchar id = true ->
  all_chars (fun c => negb (is_meta c)) ("-" +:+ id +:+ ext) = true.
Proof.
  intros Hin Hid. rewrite !all_chars_app.
  rewrite (all_chars_impl _ _ id idchar_not_meta Hid).
  cbn [In extensions] in Hin.
  repeat (destruct Hin as [[= <- <-]|Hin]; [reflexivity|]). destruct Hin.
Qed.

Lemma matched_suffix (id subdir name : string) :
  all_chars Build.is_idchar id = true ->
  kept (patterns id) subdir name = false <->
  exists pre ext, In (subdir, ext) extensions /\ name = pre +:+ "-" +:+ id +:+ ext.
Proof.
  intros Hid. rewrite kept_false, patterns_extensions. split.
  - intros (p & Hp & <- & Hm). apply in_map_iff in Hp as ([sd ext] & <- & He).
    cbn [fst snd] in *.
    change ("*-" +:+ id +:+ ext) with (String "*" ("-" +:+ id +:+ ext)) in Hm.
    apply (fnmatch_star_literal _ name (extension_plain sd ext id He Hid)) in Hm
      as (pre & ->).
    exists pre, ext. split; [exact He|reflexivity].
  - intros (pre & ext & He & ->).
    exists (subdir, "*-" +:+ id +:+ ext). split; [|split; [reflexivity|]].
    + apply in_map_iff. exists (subdir, ext). split; [reflexivity|exact He].
    + cbn [snd].
      change ("*-" +:+ id +:+ ext) with (String "*" ("-" +:+ id +:+ ext)).
      apply (fnmatch_star_literal _ _ (extension_plain subdir ext id He Hid)).
      exists pre. reflexivity.
Qed.

(** X8.  For an identifier made of letters, digits, "-" and "_", the files
    of a directory that the patterns of the deletion routine match are
    exactly those whose name ends in "-<id><ext>", for an extension that
    belongs to that directory (.md in summaries, .json in metadata, .txt
    and .srt in transcripts, .mp3 in audio). *)
Theorem plain_id_matches (id subdir name : string) :
  all_chars Build.is_idchar id = true ->
  kept (patterns id) subdir name = false <->
  exists pre ext, In (subdir, ext) extensions /\ name = pre +:+ "-" +:+ id +:+ ext.
Proof. exact (matched_suffix id subdir name). Qed.

Lemma plain_id_matches_witness :
  kept (patterns "abcdefgh123") "transcripts" "2025-01-01-abcdefgh123.srt" = false <->
  exists pre ext, In ("transcripts", ext) extensions /\
                  "2025-01-01-abcdefgh123.srt" = pre +:+ "-" +:+ "abcdefgh123" +:+ ext.
Proof. apply (plain_id_matches "abcdefgh123"). reflexivity. Defined.

(** ** The files of the other videos *)

Lemma length_app (a b : string) :
  String.length (a +:+ b) = String.length a + String.length b.
Proof.
  induction a as [|c a IH]; [reflexivity|].
  change (String c a +:+ b) with (String c (a +:+ b)). simpl. rewrite IH. reflexivity.
Qed.

Lemma app_inj_prefix (a b s t : string) :
  String.length a = String.length b -> a +:+ s = b +:+ t -> a = b /\ s = t.
Proof.
  revert b. induction a as [|c a IH]; intros [|x b] Hl E; try discriminate Hl.
  - split; [reflexivity|exact E].
  - change (String c (a +:+ s) = String x (b +:+ t)) in E.
    injection E as -> E. injection Hl as Hl.
    destruct (IH b Hl E) as [-> ->]. split; reflexivity.
Qed.

Lemma app_inj_suffix (a b s t : string) :
  String.length s = String.length t -> a +:+ s = b +:+ t -> a = b /\ s = t.
Proof.
  intros Hl E. apply app_inj_prefix; [|exact E].
  apply (f_equal String.length) in E. rewrite !length_app in E. lia.
Qed.

Lemma extensions_length (subdir e1 e2 : string) :
  In (subdir, e1) extensions -> In (subdir, e2) extensions ->
  String.length e1 = String.length e2.
Proof.
  cbn [In extensions]. intros H1 H2.
  repeat (destruct H1 as [[= <- <-]|H1]);
    repeat (destruct H2 as [[= <-]|H2]); try reflexivity;
    try discriminate; try contradiction.
Qed.

(** A file of one plain identifier is not a file of another one of the
    same length. *)
Lemma plain_ids_apart (id id' subdir name : string) :
  all_chars Build.is_idchar id = true ->
  all_chars Build.is_idchar id' = true ->
  String.length id = String.length id' ->
  id <> id' ->
  kept (patterns id') subdir name = false ->
  kept (patterns id) subdir name = true.
Proof.
  intros Hid Hid' Hl Hne Hk'.
  destruct (kept (patterns id) subdir name) eqn:Hk; [reflexivity|].
  apply (matched_suffix id subdir name Hid) in Hk as (a & e1 & He1 & E1).
  apply (matched_suffix id' subdir name Hid') in Hk' as (b & e2 & He2 & E2).
  rewrite E1 in E2.
  pose proof (extensions_length subdir e1 e2 He1 He2) as Hext.
  apply app_inj_suffix in E2 as [_ E2].
  - change (String "-" (id +:+ e1) = String "-" (id' +:+ e2)) in E2.
    injection E2 as E2. apply app_inj_prefix in E2 as [E2 _]; [|exact Hl].
    contradiction.
  - change (String.length (String "-" (id +:+ e1))
            = String.length (String "-" (id' +:+ e2))).
    simpl. rewrite !length_app. lia.
Qed.

Lemma invalid_id_false (video_id : string) :
  invalid_id video_id = false -> String.length video_id = 11.
Proof.
  unfold invalid_id. intros H. apply orb_false_iff in H as [_ H].
  apply negb_false_iff, Nat.eqb_eq in H. exact H.
Qed.

(** X9.  DELETE for a video made of identifier characters leaves every
    file of every other such video in place: a file that the patterns of
    another 11-character identifier match is still in its directory
    afterwards, whatever DELETE answered. *)
Theorem other_videos_survive (path other subdir name : string) (nd : node)
        (d : directory) (w : world) :
  all_chars Build.is_idchar (last_segment path) = true ->
  all_chars Build.is_idchar other = true ->
  String.length other = 11 ->
  String.eqb other (last_segment path) = false ->
  kept (patterns other) subdir name = false ->
  dirs w !! subdir = Some d ->
  In (name, nd) d ->
  exists d', dirs (snd (do_DELETE path w)) !! subdir = Some d' /\ In (name, nd) d'.
Proof.
  intros Hid Hother Hlen Hne Hk Hd Hin.
  destruct (invalid_id (last_segment path)) eqn:Hinv.
  - exists d. split; [|exact Hin]. unfold do_DELETE. rewrite Hinv.
    destruct (Str.startswith "/api/delete/" path); exact Hd.
  - apply invalid_id_false in Hinv. apply String.eqb_neq in Hne.
    assert (Hkept : kept (patterns (last_segment path)) subdir name = true).
    { apply (plain_ids_apart _ other); auto. congruence. }
    pose proof (spares_do_DELETE path w subdir) as Hs. unfold survivors in Hs.
    rewrite Hd in Hs.
    destruct (dirs (snd (do_DELETE path w)) !! subdir) as [d'|]; [|discriminate Hs].
    exists d'. split; [reflexivity|].
    remember (List.filter (fun e => kept (patterns (last_segment path)) subdir (fst e)))
      as keep eqn:Hkeep.
    assert (Hs' : keep d' = keep d) by (injection Hs as Hs; exact Hs).
    assert (Hf : In (name, nd) (keep d)).
    { rewrite Hkeep. apply filter_In. split; [exact Hin|exact Hkept]. }
    rewrite <- Hs', Hkeep in Hf. apply filter_In in Hf as [Hf _]. exact Hf.
Qed.

Lemma other_videos_survive_witness :
  exists d', dirs (snd (do_DELETE "/api/delete/abcdefgh123" library_world)) !! "transcripts"
             = Some d' /\ In ("2025-02-02-dQw4w9WgXcQ.txt", plain "two") d'.
Proof.
  apply (other_videos_survive "/api/delete/abcdefgh123" "dQw4w9WgXcQ" "transcripts"
           "2025-02-02-dQw4w9WgXcQ.txt" (plain "two")
           [("2025-01-01-abcdefgh123.txt", plain "one");
            ("2025-02-02-dQw4w9WgXcQ.txt", plain "two");
            ("2025-01-01-abcdefgh123.srt", plain "1")]);
    try reflexivity.
  simpl. right. left. reflexivity.
Defined.

(** ** What a DELETE leaves of the matched files *)

Lemma dirs_bind {A B} (m : M A) (k : A -> M B) :
  (forall w, dirs (snd (m w)) = dirs w) ->
  (forall a w, dirs (snd (k a w)) = dirs w) ->
  forall w, dirs (snd (bind m k w)) = dirs w.
Proof.
  intros Hm Hk w. unfold bind. specialize (Hm w).
  destruct (m w) as [[a|e] w1]; simpl in Hm; [|exact Hm].
  rewrite Hk. exact Hm.
Qed.

Lemma dirs_then {A B} (m : M A) (k : A -> M B) :
  (forall a w, dirs (snd (k a w)) = dirs w) ->
  forall w, dirs (snd (bind m k w)) = dirs (snd (m w)).
Proof.
  intros Hk w. unfold bind. destruct (m w) as [[a|e] w1]; [|reflexivity].
  rewrite Hk. reflexivity.
Qed.

(** What follows the removals in [delete_transcript] *)
Lemma forget_dirs (id : string) (deleted_files : list string) (w : world) :
  dirs (snd ((state <- load_state ;;
              present <- lift (Py.contains id state) ;;
              (if present : bool then
                 state' <- lift (Py.delitem state id) ;;
                 save_state state'
               else ret tt) ;;;
              rebuild_viewer ;;;
              ret (true, "Deleted " +:+ pretty (length deleted_files) +:+ " files")) w))
  = dirs w.
Proof.
  revert w. apply dirs_bind; [apply keeps_load_state|intros state].
  apply dirs_bind; [apply keeps_lift|intros present].
  apply dirs_bind.
  - destruct present; [|reflexivity].
    apply dirs_bind; [apply keeps_lift|intros state' w; reflexivity].
  - intros _. apply dirs_bind; [|intros _ w; reflexivity].
    intros w. destruct (rebuild_viewer_files w) as (w' & -> & Hd & _). exact Hd.
Qed.

(** What follows the removals answers [True] with the count, or raises. *)
Lemma forget_answer (id : string) (deleted_files : list string) (w w' : world)
      (r : bool * string) :
  (state <- load_state ;;
   present <- lift (Py.contains id state) ;;
   (if present : bool then
      state' <- lift (Py.delitem state id) ;;
      save_state state'
    else ret tt) ;;;
   rebuild_viewer ;;;
   ret (true, "Deleted " +:+ pretty (length deleted_files) +:+ " files")) w = (Ok r, w') ->
  r = (true, "Deleted " +:+ pretty (length deleted_files) +:+ " files").
Proof.
  unfold bind at 1. rewrite load_state_stored.
  unfold bind at 1. destruct (lift (Py.contains id (stored w)) (log EvLoadState w))
    as [[present|e] w1]; [|discriminate].
  unfold bind at 1.
  destruct ((if present then
               state' <- lift (Py.delitem (stored w) id) ;; save_state state'
             else ret tt) w1) as [[[]|e] w2]; [|discriminate].
  unfold bind at 1. destruct (rebuild_viewer_files w2) as (w3 & -> & _).
  unfold ret. intros [= <- _]. reflexivity.
Qed.

Lemma delete_sweeps (path id : string) (w : world) :
  Str.startswith "/api/delete/" path = true ->
  last_segment path = id ->
  String.length id = 11 ->
  stuck (patterns id) (dirs w) = false ->
  (forall subdir,
      dirs (snd (do_DELETE path w)) !! subdir
      = List.filter (fun e => kept (patterns id) subdir (fst e)) <$> dirs w !! subdir) /\
  matching_count id (dirs (snd (do_DELETE path w))) = 0.
Proof.
  intros Hpre Hseg Hlen Hs.
  assert (H : forall subdir,
             dirs (snd (do_DELETE path w)) !! subdir
             = List.filter (fun e => kept (patterns id) subdir (fst e)) <$> dirs w !! subdir).
  { intros subdir. rewrite (do_DELETE_valid path id w Hpre Hseg Hlen).
    rewrite (dirs_then (delete_transcript id) delete_reply)
      by (intros a w0; unfold delete_reply; destruct (fst a); reflexivity).
    destruct (sweep_clear (patterns id) [] w Hs) as (w1 & Hrun & Hdirs & _).
    unfold delete_transcript. unfold bind at 1. rewrite Hrun, app_nil_l.
    destruct (targets (patterns id) (dirs w)) as [|t ts].
    - apply Hdirs.
    - rewrite forget_dirs. apply Hdirs. }
  split; [exact H|]. exact (matching_count_swept id (dirs w) _ H).
Qed.

(** X10.  When every file that the five pairs match can be removed, a
    valid DELETE for an identifier without "**" removes them all,
    whatever the state file holds and whatever happens after the
    removals (an answer or an exception): each content directory is left
    with exactly the entries that no pair of that directory matches, and
    no file matches any more.  (With "**" in the identifier [Path.glob]
    raises ValueError before Python 3.13, and nothing is removed.) *)
Theorem delete_clears_files (path id : string) (w : world) :
  Str.startswith "/api/delete/" path = true ->
  last_segment path = id ->
  String.length id = 11 ->
  Str.contains "**" id = false ->
  stuck (patterns id) (dirs w) = false ->
  (forall subdir,
      dirs (snd (do_DELETE path w)) !! subdir
      = List.filter (fun e => kept (patterns id) subdir (fst e)) <$> dirs w !! subdir) /\
  matching_count id (dirs (snd (do_DELETE path w))) = 0.
Proof.
  intros Hpre Hseg Hlen _ Hs. exact (delete_sweeps path id w Hpre Hseg Hlen Hs).
Qed.

Lemma delete_clears_files_witness :
  (forall subdir,
      dirs (snd (do_DELETE "/api/delete/abcdefgh123" library_world)) !! subdir
      = List.filter (fun e => kept (patterns "abcdefgh123") subdir (fst e))
          <$> dirs library_world !! subdir) /\
  matching_count "abcdefgh123"
    (dirs (snd (do_DELETE "/api/delete/abcdefgh123" library_world))) = 0.
Proof.
  apply (delete_clears_files "/api/delete/abcdefgh123" "abcdefgh123" library_world);
    reflexivity.
Defined.

(** X11.  DELETE answers 200 only after it has removed files: the path
    is under /api/delete/ with an 11-character last segment, at least one
    file matched and every matched file could be removed, the message
    gives their number, and no file matches afterwards. *)
Theorem delete_success_means_removed (path : string) (w : world) (data : json) :
  fst (do_DELETE path w) = Ok (Json 200 data) ->
  Str.startswith "/api/delete/" path = true /\
  String.length (last_segment path) = 11 /\
  stuck (patterns (last_segment path)) (dirs w) = false /\
  1 <= matching_count (last_segment path) (dirs w) /\
  Json 200 data = deleted (matching_count (last_segment path) (dirs w)) /\
  matching_count (last_segment path) (dirs (snd (do_DELETE path w))) = 0.
Proof.
  intros H.
  destruct (Str.startswith "/api/delete/" path) eqn:Hpre;
    [|unfold do_DELETE in H; rewrite Hpre in H; discriminate H].
  destruct (invalid_id (last_segment path)) eqn:Hinv;
    [unfold do_DELETE in H; rewrite Hpre, Hinv in H; discriminate H|].
  pose proof (invalid_id_false _ Hinv) as Hlen.
  destruct (stuck (patterns (last_segment path)) (dirs w)) eqn:Hs.
  { exfalso. rewrite (do_DELETE_valid path _ w Hpre eq_refl Hlen) in H.
    destruct (sweep_blocked (patterns (last_segment path)) [] w Hs)
      as (name & e & w1 & Hrun & _).
    unfold delete_transcript in H. unfold bind at 1 2 in H. rewrite Hrun in H.
    discriminate H. }
  destruct (delete_sweeps path _ w Hpre eq_refl Hlen Hs) as [_ Hgone].
  split; [reflexivity|]. split; [exact Hlen|]. split; [reflexivity|].
  rewrite (do_DELETE_valid path _ w Hpre eq_refl Hlen) in H.
  destruct (sweep_clear (patterns (last_segment path)) [] w Hs) as (w1 & Hrun & _).
  rewrite <- targets_count.
  unfold delete_transcript in H. unfold bind at 1 2 in H.
  rewrite Hrun, app_nil_l in H.
  destruct (targets (patterns (last_segment path)) (dirs w)) as [|t ts] eqn:Ht;
    [discriminate H|].
  split; [simpl; lia|]. split; [|exact Hgone].
  match type of H with
  | context [match ?m w1 with _ => _ end] => destruct (m w1) as [[r|e] w2] eqn:Hm
  end; [|discriminate H].
  apply forget_answer in Hm. subst r. cbn [fst snd delete_reply] in H.
  injection H as <-. reflexivity.
Qed.

Lemma delete_success_means_removed_witness :
  Str.startswith "/api/delete/" "/api/delete/abcdefgh123" = true /\
  String.length (last_segment "/api/delete/abcdefgh123") = 11 /\
  stuck (patterns (last_segment "/api/delete/abcdefgh123")) (dirs library_world) = false /\
  1 <= matching_count (last_segment "/api/delete/abcdefgh123") (dirs library_world) /\
  Json 200 (JObj (<["success" := JBool true]>
                  (<["message" := JStr "Deleted 3 files"]> ∅)))
  = deleted (matching_count (last_segment "/api/delete/abcdefgh123") (dirs library_world)) /\
  matching_count (last_segment "/api/delete/abcdefgh123")
    (dirs (snd (do_DELETE "/api/delete/abcdefgh123" library_world))) = 0.
Proof.
  apply (delete_success_means_removed "/api/delete/abcdefgh123" library_world).
  reflexivity.
Defined.

(** ** The records of the viewer *)

Lemma take_class_shape (p : ascii -> bool) (n : nat) :
  forall (s g r : string),
    Build.take_class p n s = Some (g, r) ->
    String.length g = n /\ all_chars p g = true /\ s = g +:+ r.
Proof.
  induction n as [|n IH]; intros s g r H.
  - injection H as <- <-. repeat split.
  - destruct s as [|c s]; [discriminate H|]. cbn [Build.take_class] in H.
    destruct (p c) eqn:Hc; [|discriminate H].
    destruct (Build.take_class p n s) as [[g' r']|] eqn:E; [|discriminate H].
    injection H as <- <-. destruct (IH s g' r' E) as (Hl & Ha & ->).
    cbn [String.length all_chars]. rewrite Hl, Hc, Ha. repeat split.
Qed.

Lemma take_class_app (p : ascii -> bool) (g r : string) :
  all_chars p g = true ->
  Build.take_class p (String.length g) (g +:+ r) = Some (g, r).
Proof.
  induction g as [|c g IH]; intros H; [reflexivity|].
  cbn [all_chars] in H. apply andb_true_iff in H as [Hc Hg].
  change (String c g +:+ r) with (String c (g +:+ r)).
  cbn [String.length Build.take_class]. rewrite Hc, (IH Hg). reflexivity.
Qed.

(** What a search finds is found at some position. *)
Lemma search_found {A} (P : A -> Prop) (m : string -> option A) :
  (forall t r, m t = Some r -> P r) ->
  forall s r, Build.search m s = Some r -> P r.
Proof.
  intros Hm. induction s as [|c s IH]; intros r H.
  - simpl in H. destruct (m "") eqn:E; [|discriminate H].
    injection H as <-. exact (Hm _ _ E).
  - cbn [Build.search] in H. destruct (m (String c s)) eqn:E.
    + injection H as <-. exact (Hm _ _ E).
    + exact (IH r H).
Qed.

Lemma search_skip {A} (m : string -> option A) (c : ascii) (s : string) :
  m (String c s) = None -> Build.search m (String c s) = Build.search m s.
Proof. intros H. cbn [Build.search]. rewrite H. reflexivity. Qed.

Lemma v_param_shape (t g : string) :
  Build.v_param_at t = Some g ->
  String.length g = 11 /\ all_chars Build.is_idchar g = true.
Proof.
  unfold Build.v_param_at. intros H.
  repeat match type of H with
         | match ?x with _ => _ end = _ => destruct x eqn:?; try discriminate H
         | (if ?x then _ else _) = _ => destruct x eqn:?; try discriminate H
         end.
  injection H as <-.
  match goal with
  | E : Build.take_class _ _ _ = Some _ |- _ =>
      destruct (take_class_shape _ _ _ _ _ E) as (Hl & Ha & _)
  end.
  split; assumption.
Qed.

Lemma youtu_be_shape (t g : string) :
  Build.youtu_be_at t = Some g ->
  String.length g = 11 /\ all_chars Build.is_idchar g = true.
Proof.
  unfold Build.youtu_be_at. intros H.
  destruct (Str.strip_prefix "youtu.be/" t) as [r|]; [|discriminate H].
  destruct (Build.take_class Build.is_idchar 11 r) as [[g' r']|] eqn:E; [|discriminate H].
  injection H as <-. destruct (take_class_shape _ _ _ _ _ E) as (Hl & Ha & _).
  split; assumption.
Qed.

Lemma md_suffix_shape (t g : string) :
  Build.md_suffix_at t = Some g ->
  String.length g = 11 /\ all_chars Build.is_idchar g = true.
Proof.
  unfold Build.md_suffix_at. intros H.
  destruct t as [|c r]; [discriminate H|].
  destruct (Ascii.eqb_spec c "-") as [->|Hne].
  - destruct (Build.take_class Build.is_idchar 11 r) as [[g' r']|] eqn:E;
      [|discriminate H].
    destruct (Str.strip_prefix ".md" r') as [r2|]; [|discriminate H].
    destruct (Build.at_end r2); [|discriminate H].
    injection H as <-. destruct (take_class_shape _ _ _ _ _ E) as (Hl & Ha & _).
    split; assumption.
  - exfalso. destruct c as [[] [] [] [] [] [] [] []]; try discriminate H.
    apply Hne. reflexivity.
Qed.

(** Whatever [extract_video_id] returns has 11 identifier characters. *)
Lemma extract_video_id_shape (name : string) (url : option string) (v : string) :
  Build.extract_video_id name url = Some v ->
  String.length v = 11 /\ all_chars Build.is_idchar v = true.
Proof.
  unfold Build.extract_video_id. intros H.
  assert (Hname : forall g, Build.search Build.md_suffix_at name = Some g ->
                            String.length g = 11 /\ all_chars Build.is_idchar g = true).
  { intros g. apply (search_found _ _ md_suffix_shape). }
  destruct (Build.url_given url) as [u|]; [|exact (Hname v H)].
  destruct (Build.search Build.v_param_at u) as [g|] eqn:E1.
  { injection H as <-. exact (search_found _ _ v_param_shape _ _ E1). }
  destruct (Build.search Build.youtu_be_at u) as [g|] eqn:E2.
  { injection H as <-. exact (search_found _ _ youtu_be_shape _ _ E2). }
  exact (Hname v H).
Qed.

Lemma date_at_length (s g : string) :
  Build.date_at s = Some g -> String.length g = 10.
Proof.
  unfold Build.date_at. intros H.
  destruct (Build.take_class Build.is_digit 4 s) as [[y r]|] eqn:Ey; [|discriminate H].
  destruct r as [|c r1]; [discriminate H|].
  destruct (Ascii.eqb_spec c "-") as [->|Hne];
    [|exfalso; destruct c as [[] [] [] [] [] [] [] []]; try discriminate H;
      apply Hne; reflexivity].
  destruct (Build.take_class Build.is_digit 2 r1) as [[m r]|] eqn:Em; [|discriminate H].
  destruct r as [|c r2]; [discriminate H|].
  destruct (Ascii.eqb_spec c "-") as [->|Hne];
    [|exfalso; destruct c as [[] [] [] [] [] [] [] []]; try discriminate H;
      apply Hne; reflexivity].
  destruct (Build.take_class Build.is_digit 2 r2) as [[d r]|] eqn:Ed; [|discriminate H].
  injection H as <-.
  destruct (take_class_shape _ _ _ _ _ Ey) as (Hy & _).
  destruct (take_class_shape _ _ _ _ _ Em) as (Hm & _).
  destruct (take_class_shape _ _ _ _ _ Ed) as (Hd & _).
  rewrite !length_app, Hy, Hm, Hd. reflexivity.
Qed.

(** X12.  Every record that [parse_summary] returns has an identifier of
    11 characters among letters, digits, "-" and "_", which the server
    accepts in the paths of PATCH and DELETE; its thumbnail is
    https://i.ytimg.com/vi/<id>/maxresdefault.jpg, its content is the
    whole text of the file, its date has 10 characters and its URL is
    not empty. *)
Theorem summary_record_shape (name : string) (nd : node) (s : Build.summary) :
  Build.parse_summary name nd = Some s ->
  String.length (Build.id s) = 11 /\
  all_chars Build.is_idchar (Build.id s) = true /\
  invalid_id (Build.id s) = false /\
  Build.thumbnail s
  = "https://i.ytimg.com/vi/" +:+ Build.id s +:+ "/maxresdefault.jpg" /\
  node_text nd = Some (Build.content s) /\
  String.length (Build.date s) = 10 /\
  Str.nonempty (Build.url s) = true.
Proof.
  unfold Build.parse_summary. intros H.
  destruct (node_text nd) as [content|]; [|discriminate H].
  match type of H with
  | match Build.extract_video_id name ?u with _ => _ end = _ =>
      destruct (Build.extract_video_id name u) as [v|] eqn:Ev; [|discriminate H];
      set (found := u) in *
  end.
  destruct (extract_video_id_shape _ _ _ Ev) as [Hl Ha].
  destruct (negb (Str.nonempty v)); [discriminate H|].
  injection H as <-. cbn [Build.id Build.thumbnail Build.content Build.date Build.url].
  split; [exact Hl|]. split; [exact Ha|]. split; [exact (valid_id_length v Hl)|].
  split; [reflexivity|]. split; [reflexivity|]. split.
  - destruct (Build.date_at (Build.stem name)) as [g|] eqn:Ed; [|reflexivity].
    exact (date_at_length _ _ Ed).
  - unfold Build.url_given. destruct found as [u|]; [|reflexivity].
    destruct (Str.nonempty u) eqn:Hu; [exact Hu|reflexivity].
Qed.

Lemma summary_record_shape_witness :
  String.length (Build.id first_summary) = 11 /\
  all_chars Build.is_idchar (Build.id first_summary) = true /\
  invalid_id (Build.id first_summary) = false /\
  Build.thumbnail first_summary
  = "https://i.ytimg.com/vi/" +:+ Build.id first_summary +:+ "/maxresdefault.jpg" /\
  node_text (plain "# One") = Some (Build.content first_summary) /\
  String.length (Build.date first_summary) = 10 /\
  Str.nonempty (Build.url first_summary) = true.
Proof.
  apply (summary_record_shape "2025-01-01-abcdefgh123.md" (plain "# One")).
  reflexivity.
Defined.

(** ** The identifier of the usual addresses *)

Lemma v_param_prefix (t g : string) :
  Build.v_param_at t = Some g ->
  String.prefix "?v=" t = true \/ String.prefix "&v=" t = true.
Proof.
  destruct t as [|c [|c1 [|c2 r]]]; try discriminate.
  { intros H. exfalso. simpl in H.
    destruct c1 as [[] [] [] [] [] [] [] []]; discriminate H. }
  unfold Build.v_param_at.
  destruct (Ascii.eqb_spec c1 "v") as [->|H1];
    [|intros H; exfalso; destruct c1 as [[] [] [] [] [] [] [] []]; try discriminate H;
      apply H1; reflexivity].
  destruct (Ascii.eqb_spec c2 "=") as [->|H2];
    [|intros H; exfalso; destruct c2 as [[] [] [] [] [] [] [] []]; try discriminate H;
      apply H2; reflexivity].
  destruct (Ascii.eqb_spec c "?") as [->|Hq].
  - intros _. left. destruct r; reflexivity.
  - destruct (Ascii.eqb_spec c "&") as [->|Ha]; [|discriminate].
    intros _. right. destruct r; reflexivity.
Qed.

Lemma v_param_idchar (c : ascii) (s : string) :
  Build.is_idchar c = true -> Build.v_param_at (String c s) = None.
Proof.
  intros Hc. destruct (Build.v_param_at (String c s)) as [g|] eqn:E; [|reflexivity].
  exfalso. apply v_param_prefix in E.
  destruct c as [[] [] [] [] [] [] [] []]; try discriminate Hc;
    destruct E as [E|E]; simpl in E; discriminate E.
Qed.

Lemma search_v_param_none (s : string) :
  Str.contains "?v=" s = false -> Str.contains "&v=" s = false ->
  Build.search Build.v_param_at s = None.
Proof.
  induction s as [|c s IH]; intros H1 H2; [reflexivity|].
  cbn [Str.contains] in H1, H2.
  apply orb_false_iff in H1 as [P1 H1]. apply orb_false_iff in H2 as [P2 H2].
  rewrite search_skip; [exact (IH H1 H2)|].
  destruct (Build.v_param_at (String c s)) as [g|] eqn:E; [|reflexivity].
  apply v_param_prefix in E. destruct E as [E|E]; congruence.
Qed.

Lemma search_v_param_id (g s : string) :
  all_chars Build.is_idchar g = true ->
  Build.search Build.v_param_at (g +:+ s) = Build.search Build.v_param_at s.
Proof.
  induction g as [|c g IH]; intros H; [reflexivity|].
  cbn [all_chars] in H. apply andb_true_iff in H as [Hc Hg].
  change (String c g +:+ s) with (String c (g +:+ s)).
  rewrite search_skip by exact (v_param_idchar c _ Hc). exact (IH Hg).
Qed.

Lemma search_hit {A} (m : string -> option A) (s : string) (r : A) :
  m s = Some r -> Build.search m s = Some r.
Proof. intros H. destruct s; simpl; rewrite H; reflexivity. Qed.

Lemma append_assoc (a b c : string) : (a +:+ b) +:+ c = a +:+ (b +:+ c).
Proof.
  induction a as [|x a IH]; [reflexivity|].
  change (String x ((a +:+ b) +:+ c) = String x (a +:+ (b +:+ c))).
  rewrite IH. reflexivity.
Qed.

Lemma search_watch (s g r : string) :
  Build.take_class Build.is_idchar 11 s = Some (g, r) ->
  Build.search Build.v_param_at ("https://www.youtube.com/watch?v=" +:+ s) = Some g.
Proof.
  intros H. cbv [String.append].
  repeat (rewrite search_skip by reflexivity).
  apply search_hit. unfold Build.v_param_at. cbn [Ascii.eqb Bool.eqb orb].
  rewrite H. reflexivity.
Qed.

Lemma search_short (s g r : string) :
  Build.take_class Build.is_idchar 11 s = Some (g, r) ->
  Build.search Build.youtu_be_at ("https://youtu.be/" +:+ s) = Some g.
Proof.
  intros H. cbv [String.append].
  repeat (rewrite search_skip by reflexivity).
  apply search_hit. unfold Build.youtu_be_at.
  cbn [Str.strip_prefix Ascii.eqb Bool.eqb]. rewrite H. reflexivity.
Qed.

Lemma v_param_other (c : ascii) (s : string) :
  Ascii.eqb c "?" || Ascii.eqb c "&" = false -> Build.v_param_at (String c s) = None.
Proof.
  intros Hc. destruct (Build.v_param_at (String c s)) as [g|] eqn:E; [|reflexivity].
  exfalso. apply v_param_prefix in E. apply orb_false_iff in Hc as [H1 H2].
  destruct E as [E|E]; cbn [String.prefix] in E.
  - destruct (ascii_dec "?" c) as [<-|]; [discriminate H1|discriminate E].
  - destruct (ascii_dec "&" c) as [<-|]; [discriminate H2|discriminate E].
Qed.

Lemma search_short_v_param (s : string) :
  Build.search Build.v_param_at ("https://youtu.be/" +:+ s)
  = Build.search Build.v_param_at s.
Proof.
  cbv [String.append].
  repeat (rewrite search_skip by (apply v_param_other; reflexivity)). reflexivity.
Qed.

(** X13.  For an identifier of 11 characters among letters, digits, "-"
    and "_", [extract_video_id] returns the identifier from an address
    https://www.youtube.com/watch?v=<id>..., and from an address
    https://youtu.be/<id>... in which neither "?v=" nor "&v=" follows,
    whatever the name of the file. *)
Theorem usual_addresses (name id rest : string) :
  String.length id = 11 ->
  all_chars Build.is_idchar id = true ->
  Build.extract_video_id name (Some (watch_url id +:+ rest)) = Some id /\
  (Str.contains "?v=" rest = false -> Str.contains "&v=" rest = false ->
   Build.extract_video_id name (Some (short_url id +:+ rest)) = Some id).
Proof.
  intros Hl Ha.
  assert (Htake : Build.take_class Build.is_idchar 11 (id +:+ rest) = Some (id, rest)).
  { rewrite <- Hl. apply take_class_app, Ha. }
  unfold watch_url, short_url. rewrite !append_assoc. split.
  - unfold Build.extract_video_id.
    change (Build.url_given (Some ("https://www.youtube.com/watch?v=" +:+ id +:+ rest)))
      with (Some ("https://www.youtube.com/watch?v=" +:+ id +:+ rest)).
    cbv beta iota. rewrite (search_watch _ _ _ Htake). reflexivity.
  - intros H1 H2. unfold Build.extract_video_id.
    change (Build.url_given (Some ("https://youtu.be/" +:+ id +:+ rest)))
      with (Some ("https://youtu.be/" +:+ id +:+ rest)).
    cbv beta iota. rewrite search_short_v_param, (search_v_param_id _ _ Ha),
      (search_v_param_none _ H1 H2), (search_short _ _ _ Htake).
    reflexivity.
Qed.

Lemma usual_addresses_witness :
  Build.extract_video_id "notes.md" (Some (watch_url "abcdefgh123" +:+ "&t=42s"))
  = Some "abcdefgh123" /\
  Build.extract_video_id "notes.md" (Some (short_url "abcdefgh123" +:+ "&t=42s"))
  = Some "abcdefgh123".
Proof.
  destruct (usual_addresses "notes.md" "abcdefgh123" "&t=42s") as [H1 H2];
    [reflexivity|reflexivity|].
  split; [exact H1|apply H2; reflexivity].
Defined.

(** ** The page after a DELETE *)

(** Building twice gives what building once gives. *)
Lemma build_viewer_again (w : world) (d : directory) (text : string) :
  dirs w !! "summaries" = Some d ->
  template w = Some (Ok text) ->
  Build.build_viewer (snd (Build.build_viewer w))
  = (Ok true, snd (Build.build_viewer w)).
Proof.
  intros Hd Ht. unfold Build.build_viewer at 2 3. rewrite Hd, Ht.
  cbn [snd]. unfold Build.build_viewer. cbn [dirs template set_index_html].
  rewrite Hd, Ht. reflexivity.
Qed.

Lemma build_viewer_page (w : world) (d : directory) (text : string) :
  dirs w !! "summaries" = Some d ->
  template w = Some (Ok text) ->
  index_html (snd (Build.build_viewer w))
  = Some (Build.replace Build.placeholder
            (Build.dumps
               (omap (fun e => Build.parse_summary (fst e) (snd e))
                     (Build.sorted_reverse
                        (List.filter (fun e => Glob.fnmatch "*.md" (fst e)) d))))
            text).
Proof. intros Hd Ht. unfold Build.build_viewer. rewrite Hd, Ht. reflexivity. Qed.

(** A successful deletion ends with the rebuild, on the files that are
    left. *)
Lemma delete_ends_with_rebuild (id : string) (w : world) (d : gmap string json) :
  stored w = JObj d ->
  stuck (patterns id) (dirs w) = false ->
  targets (patterns id) (dirs w) <> [] ->
  exists w0 message,
    delete_transcript id w = (Ok (true, message), snd (rebuild_viewer w0)) /\
    template w0 = template w /\
    build_script w0 = build_script w /\
    (forall sd, dirs w0 !! sd
                = List.filter (fun e => kept (patterns id) sd (fst e)) <$> dirs w !! sd).
Proof.
  intros Hd Hs Hn. unfold delete_transcript. unfold bind at 1.
  destruct (sweep_clear (patterns id) [] w Hs)
    as (w' & Hrun & Hdirs & Hsf & Htp & _ & Hbs & _).
  rewrite Hrun, app_nil_l.
  destruct (targets (patterns id) (dirs w)) as [|t ts] eqn:Ht; [contradiction|].
  assert (Hst : stored w' = JObj d) by (unfold stored; rewrite Hsf; exact Hd).
  unfold bind at 1. rewrite load_state_stored, Hst.
  unfold bind at 1, lift at 1. rewrite contains_key.
  destruct (d !! id) as [r|] eqn:E.
  - unfold bind at 1, bind at 1, lift at 1, Py.delitem. rewrite E.
    unfold save_state. unfold bind at 1.
    match goal with
    | |- context [rebuild_viewer ?x] =>
        destruct (rebuild_viewer_files x) as (w1 & Hrb & _); exists x
    end.
    rewrite Hrb. eexists. split; [reflexivity|].
    split; [exact Htp|]. split; [exact Hbs|]. exact Hdirs.
  - unfold bind at 1, ret at 1. unfold bind at 1.
    match goal with
    | |- context [rebuild_viewer ?x] =>
        destruct (rebuild_viewer_files x) as (w1 & Hrb & _); exists x
    end.
    rewrite Hrb. eexists. split; [reflexivity|].
    split; [exact Htp|]. split; [exact Hbs|]. exact Hdirs.
Qed.

(** X14.  After a DELETE that is answered with 200, for an identifier
    without "**", when viewer/build.py exists, the template can be read
    and the summaries directory exists, index.html is up to date: the
    template being parts without the placeholder with the placeholder
    between them, index.html is the same parts with the JSON array of
    the records of the summaries that are left between them, and
    building the viewer again changes nothing. *)
Theorem delete_refreshes_page (path id : string) (w : world) (d : gmap string json)
        (parts : list string) (summaries : directory) :
  Str.startswith "/api/delete/" path = true ->
  last_segment path = id ->
  String.length id = 11 ->
  Str.contains "**" id = false ->
  stored w = JObj d ->
  stuck (patterns id) (dirs w) = false ->
  1 <= matching_count id (dirs w) ->
  build_script w = true ->
  placeholder_free parts = true ->
  template w = Some (Ok (joined Build.placeholder parts)) ->
  dirs w !! "summaries" = Some summaries ->
  Build.build_viewer (snd (do_DELETE path w)) = (Ok true, snd (do_DELETE path w)) /\
  index_html (snd (do_DELETE path w))
  = Some (joined
            (Build.dumps
               (records (List.filter (fun e => kept (patterns id) "summaries" (fst e))
                                     summaries)))
            parts).
Proof.
  intros Hpre Hseg Hlen _ Hd Hs Hn Hbs Hfree Ht Hsum.
  rewrite <- targets_count in Hn.
  destruct (delete_ends_with_rebuild id w d Hd Hs) as (w0 & msg & Hrun & Htp & Hb & Hdirs).
  { intros E. rewrite E in Hn. simpl in Hn. lia. }
  rewrite (do_DELETE_valid path id w Hpre Hseg Hlen).
  unfold bind. rewrite Hrun. cbn [delete_reply fst snd send_json_response ret].
  unfold rebuild_viewer. cbn [build_script log]. rewrite Hb, Hbs. cbn [snd].
  assert (Hd0 : dirs (log EvRebuild w0) !! "summaries"
                = Some (List.filter (fun e => kept (patterns id) "summaries" (fst e))
                          summaries)).
  { cbn [dirs log]. rewrite Hdirs, Hsum. reflexivity. }
  assert (Ht0 : template (log EvRebuild w0)
                = Some (Ok (joined Build.placeholder parts))).
  { cbn [template log]. rewrite Htp. exact Ht. }
  split.
  - exact (build_viewer_again _ _ _ Hd0 Ht0).
  - rewrite (build_viewer_page _ _ _ Hd0 Ht0). f_equal.
    exact (replace_joined _ parts Hfree).
Qed.

Lemma delete_refreshes_page_witness :
  Build.build_viewer (snd (do_DELETE "/api/delete/abcdefgh123" library_world))
  = (Ok true, snd (do_DELETE "/api/delete/abcdefgh123" library_world)) /\
  index_html (snd (do_DELETE "/api/delete/abcdefgh123" library_world))
  = Some (joined
            (Build.dumps
               (records (List.filter
                           (fun e => kept (patterns "abcdefgh123") "summaries" (fst e))
                           [("2025-01-01-abcdefgh123.md", plain "# One");
                            ("2025-02-02-dQw4w9WgXcQ.md", plain "# Two")])))
            ["<script>const SUMMARIES = "; ";</script>"]).
Proof.
  apply (delete_refreshes_page "/api/delete/abcdefgh123" "abcdefgh123" library_world
           {[ "abcdefgh123" := record_of true false false;
              "dQw4w9WgXcQ" := default_record ]});
    try reflexivity.
  vm_compute. lia.
Defined.

(** ** The page and the template *)

(** X15.  With a summaries directory and a template in which the
    placeholder /*SUMMARIES_DATA*/[] occurs once, [build_viewer] returns
    True and writes as index.html the text before the placeholder, the
    JSON array of the records of the markdown files, and the text after
    it; every other file is left as it was. *)
Theorem page_is_template_with_records (w : world) (d : directory) (pre post : string) :
  dirs w !! "summaries" = Some d ->
  template w = Some (Ok (pre +:+ Build.placeholder +:+ post)) ->
  Str.contains Build.placeholder pre = false ->
  Str.contains Build.placeholder post = false ->
  Build.build_viewer w
  = (Ok true, set_index_html (pre +:+ Build.dumps (records d) +:+ post) w).
Proof.
  intros Hd Ht Hpre Hpost. unfold Build.build_viewer. rewrite Hd, Ht.
  rewrite (replace_first _ post pre Hpre), (replace_absent _ _ post Hpost).
  reflexivity.
Qed.

Lemma page_is_template_with_records_witness :
  Build.build_viewer library_world
  = (Ok true,
     set_index_html
       ("<script>const SUMMARIES = "
        +:+ Build.dumps (records [("2025-01-01-abcdefgh123.md", plain "# One");
                                  ("2025-02-02-dQw4w9WgXcQ.md", plain "# Two")])
        +:+ ";</script>") library_world).
Proof.
  apply (page_is_template_with_records library_world
           [("2025-01-01-abcdefgh123.md", plain "# One");
            ("2025-02-02-dQw4w9WgXcQ.md", plain "# Two")]
           "<script>const SUMMARIES = " ";</script>");
    reflexivity.
Defined.

(** X16.  With a summaries directory and a template in which the
    placeholder does not occur, [build_viewer] still returns True, and
    index.html is the template itself: no record reaches the page. *)
Theorem page_without_placeholder (w : world) (d : directory) (text : string) :
  dirs w !! "summaries" = Some d ->
  template w = Some (Ok text) ->
  Str.contains Build.placeholder text = false ->
  Build.build_viewer w = (Ok true, set_index_html text w).
Proof.
  intros Hd Ht Hno. unfold Build.build_viewer. rewrite Hd, Ht.
  rewrite (replace_absent _ _ text Hno). reflexivity.
Qed.

Lemma page_without_placeholder_witness :
  Build.build_viewer bare_template_world
  = (Ok true, set_index_html "<html></html>" bare_template_world).
Proof.
  apply (page_without_placeholder bare_template_world
           [("2025-01-01-abcdefgh123.md", plain "# One")]);
    reflexivity.
Defined.

(** ** The order of the page *)

Lemma ascii_compare_trans (x y z : ascii) :
  Ascii.compare x y = Gt -> Ascii.compare y z = Gt -> Ascii.compare x z = Gt.
Proof.
  unfold Ascii.compare. rewrite !N.compare_gt_iff. intros H1 H2.
  exact (N.lt_trans _ _ _ H2 H1).
Qed.

Lemma compare_not_lt_trans (a : string) :
  forall b c, String.compare a b <> Lt -> String.compare b c <> Lt ->
              String.compare a c <> Lt.
Proof.
  induction a as [|x a IH]; intros b c H1 H2.
  - destruct b as [|y b]; [exact H2|]. exfalso. apply H1. reflexivity.
  - destruct c as [|z c]; [discriminate|].
    destruct b as [|y b]; [exfalso; apply H2; reflexivity|].
    cbn [String.compare] in *.
    destruct (Ascii.compare x y) eqn:Exy; [| |].
    + apply Ascii.compare_eq_iff in Exy as ->.
      destruct (Ascii.compare y z); [exact (IH _ _ H1 H2)|exact H2|discriminate].
    + exfalso. apply H1. reflexivity.
    + destruct (Ascii.compare y z) eqn:Eyz.
      * apply Ascii.compare_eq_iff in Eyz as <-. rewrite Exy. discriminate.
      * exfalso. apply H2. reflexivity.
      * rewrite (ascii_compare_trans _ _ _ Exy Eyz). discriminate.
Qed.

Lemma ltb_false (a b : string) : String.ltb a b = false <-> String.compare a b <> Lt.
Proof. unfold String.ltb. destruct (String.compare a b); split; congruence. Qed.

Lemma not_before_trans (x y z : string * node) :
  not_before x y -> not_before y z -> not_before x z.
Proof.
  unfold not_before. rewrite !ltb_false. apply compare_not_lt_trans.
Qed.

Lemma ltb_not_before (x y : string * node) :
  String.ltb (fst x) (fst y) = true -> not_before y x.
Proof.
  unfold not_before, String.ltb. intros H.
  rewrite (String.compare_antisym (fst y) (fst x)).
  destruct (String.compare (fst x) (fst y)); [discriminate H|reflexivity|discriminate H].
Qed.

Lemma Forall_insert_desc (P : string * node -> Prop) (x : string * node)
      (l : list (string * node)) :
  P x -> List.Forall P l -> List.Forall P (Build.insert_desc x l).
Proof.
  intros Hx Hl. induction Hl as [|y l Hy Hl IH]; cbn [Build.insert_desc].
  - constructor; [exact Hx|constructor].
  - destruct (String.ltb (fst x) (fst y)).
    + constructor; [exact Hy|exact IH].
    + constructor; [exact Hx|]. constructor; [exact Hy|exact Hl].
Qed.

Lemma insert_desc_sorted (x : string * node) (l : list (string * node)) :
  StronglySorted not_before l -> StronglySorted not_before (Build.insert_desc x l).
Proof.
  intros Hs. induction Hs as [|y l Hs IH Hy]; cbn [Build.insert_desc].
  - constructor; [constructor|constructor].
  - destruct (String.ltb (fst x) (fst y)) eqn:E.
    + constructor; [exact IH|].
      apply Forall_insert_desc; [exact (ltb_not_before _ _ E)|exact Hy].
    + constructor; [constructor; assumption|].
      constructor; [exact E|].
      rewrite List.Forall_forall in Hy |- *. intros z Hz.
      exact (not_before_trans x y z E (Hy z Hz)).
Qed.

(** [sorted(..., reverse=True)] gives the names in descending order. *)
Lemma sorted_reverse_sorted (l : list (string * node)) :
  StronglySorted not_before (Build.sorted_reverse l).
Proof.
  unfold Build.sorted_reverse. induction l as [|x l IH]; [constructor|].
  cbn [fold_right]. apply insert_desc_sorted, IH.
Qed.

Lemma In_insert_desc (x y : string * node) (l : list (string * node)) :
  In y (Build.insert_desc x l) <-> y = x \/ In y l.
Proof.
  induction l as [|z l IH]; cbn [Build.insert_desc].
  - simpl. intuition congruence.
  - destruct (String.ltb (fst x) (fst z)); simpl in *; intuition congruence.
Qed.

Lemma In_sorted_reverse (y : string * node) (l : list (string * node)) :
  In y (Build.sorted_reverse l) <-> In y l.
Proof.
  unfold Build.sorted_reverse. induction l as [|x l IH]; [reflexivity|].
  cbn [fold_right]. rewrite In_insert_desc, IH. simpl. intuition congruence.
Qed.

Lemma In_omap {A B} (f : A -> option B) (l : list A) (b' : B) :
  In b' (omap f l) -> exists b, In b l /\ f b = Some b'.
Proof.
  induction l as [|x l IH]; [intros []|].
  cbn [omap list_omap]. destruct (f x) as [x'|] eqn:Ex.
  - intros [<-|H].
    + exists x. split; [left; reflexivity|exact Ex].
    + destruct (IH H) as (b & Hb & Eb). exists b. split; [right; exact Hb|exact Eb].
  - intros H. destruct (IH H) as (b & Hb & Eb). exists b. split; [right; exact Hb|exact Eb].
Qed.

Lemma sorted_omap {A B} (R : A -> A -> Prop) (R' : B -> B -> Prop)
      (f : A -> option B) (l : list A) :
  (forall a b a' b', In a l -> In b l -> R a b ->
                     f a = Some a' -> f b = Some b' -> R' a' b') ->
  StronglySorted R l -> StronglySorted R' (omap f l).
Proof.
  intros Hf Hs. induction Hs as [|x l Hs IH Hx]; [constructor|].
  cbn [omap list_omap]. 
  assert (Hrest : StronglySorted R' (omap f l)).
  { apply IH. intros a b a' b' Ha Hb. apply Hf; right; assumption. }
  destruct (f x) as [x'|] eqn:Ex; [|exact Hrest].
  constructor; [exact Hrest|].
  rewrite List.Forall_forall in Hx |- *. intros b' Hb'.
  apply In_omap in Hb' as (b & Hb & Eb).
  exact (Hf x b x' b' (or_introl eq_refl) (or_intror Hb) (Hx b Hb) Ex Eb).
Qed.

Lemma take_app_exact (g r : string) : Build.take (String.length g) (g +:+ r) = g.
Proof.
  induction g as [|c g IH]; [destruct r; reflexivity|].
  change (String c g +:+ r) with (String c (g +:+ r)).
  cbn [String.length Build.take]. rewrite IH. reflexivity.
Qed.

Lemma length_take (i : nat) :
  forall s, String.length (Build.take i s) <= i /\
            String.length (Build.take i s) <= String.length s.
Proof.
  induction i as [|i IH]; intros s; [simpl; lia|].
  destruct s as [|c s]; [simpl; lia|].
  cbn [Build.take String.length]. destruct (IH s). lia.
Qed.

Lemma take_take (n : nat) :
  forall i s, n <= i -> Build.take n (Build.take i s) = Build.take n s.
Proof.
  induction n as [|n IH]; intros i s H; [reflexivity|].
  destruct i as [|i]; [lia|]. destruct s as [|c s]; [reflexivity|].
  cbn [Build.take]. rewrite IH by lia. reflexivity.
Qed.

Lemma take_all (s : string) : Build.take (String.length s) s = s.
Proof. induction s as [|c s IH]; [reflexivity|]. simpl. rewrite IH. reflexivity. Qed.

Lemma stem_take (name : string) : exists i, Build.stem name = Build.take i name.
Proof.
  unfold Build.stem. destruct (Build.rfind "." name) as [i|].
  - destruct ((0 <? i) && (i <? String.length name - 1)).
    + exists i. reflexivity.
    + exists (String.length name). symmetry. apply take_all.
  - exists (String.length name). symmetry. apply take_all.
Qed.

Lemma date_at_take (s g : string) :
  Build.date_at s = Some g -> g = Build.take 10 s.
Proof.
  unfold Build.date_at. intros H.
  destruct (Build.take_class Build.is_digit 4 s) as [[y r]|] eqn:Ey; [|discriminate H].
  destruct r as [|c r1]; [discriminate H|].
  destruct (Ascii.eqb_spec c "-") as [->|Hne];
    [|exfalso; destruct c as [[] [] [] [] [] [] [] []]; try discriminate H;
      apply Hne; reflexivity].
  destruct (Build.take_class Build.is_digit 2 r1) as [[m r]|] eqn:Em; [|discriminate H].
  destruct r as [|c r2]; [discriminate H|].
  destruct (Ascii.eqb_spec c "-") as [->|Hne];
    [|exfalso; destruct c as [[] [] [] [] [] [] [] []]; try discriminate H;
      apply Hne; reflexivity].
  destruct (Build.take_class Build.is_digit 2 r2) as [[d r]|] eqn:Ed; [|discriminate H].
  injection H as <-.
  destruct (take_class_shape _ _ _ _ _ Ey) as (Hy & _ & ->).
  destruct (take_class_shape _ _ _ _ _ Em) as (Hm & _ & ->).
  destruct (take_class_shape _ _ _ _ _ Ed) as (Hd & _ & ->).
  assert (E : y +:+ String "-" (m +:+ String "-" (d +:+ r))
              = (y +:+ "-" +:+ m +:+ "-" +:+ d) +:+ r).
  { rewrite !append_assoc. reflexivity. }
  rewrite E. 
  assert (Hl : String.length (y +:+ "-" +:+ m +:+ "-" +:+ d) = 10).
  { rewrite !length_app, Hy, Hm, Hd. reflexivity. }
  rewrite <- Hl. symmetry. apply take_app_exact.
Qed.

(** The date found in the name of a file is made of its first ten
    characters. *)
Lemma date_of_name (name g : string) :
  Build.date_at (Build.stem name) = Some g -> g = Build.take 10 name.
Proof.
  intros H. pose proof (date_at_length _ _ H) as Hl.
  apply date_at_take in H. destruct (stem_take name) as [i Hi].
  rewrite Hi in H. rewrite H. apply take_take.
  rewrite H in Hl. destruct (length_take 10 (Build.take i name)) as [_ H1].
  destruct (length_take i name) as [H2 _]. lia.
Qed.

Lemma compare_take (n : nat) :
  forall a b,
    String.compare (Build.take n a) (Build.take n b) = Eq \/
    String.compare (Build.take n a) (Build.take n b) = String.compare a b.
Proof.
  induction n as [|n IH]; intros a b; [left; reflexivity|].
  destruct a as [|x a], b as [|y b]; try (right; reflexivity).
  cbn [Build.take String.compare].
  destruct (Ascii.compare x y); [apply IH|right; reflexivity|right; reflexivity].
Qed.

Lemma ltb_take (n : nat) (a b : string) :
  String.ltb a b = false -> String.ltb (Build.take n a) (Build.take n b) = false.
Proof.
  rewrite !ltb_false. intros H.
  destruct (compare_take n a b) as [E|E]; rewrite E; [discriminate|exact H].
Qed.

Lemma parse_summary_date (name : string) (nd : node) (s : Build.summary) (g : string) :
  Build.parse_summary name nd = Some s ->
  Build.date_at (Build.stem name) = Some g ->
  Build.date s = g.
Proof.
  unfold Build.parse_summary. intros H Hg.
  destruct (node_text nd) as [content|]; [|discriminate H].
  match type of H with
  | match ?x with _ => _ end = _ => destruct x as [v|]; [|discriminate H]
  end.
  destruct (negb (Str.nonempty v)); [discriminate H|].
  injection H as <-. cbn [Build.date]. rewrite Hg. reflexivity.
Qed.

(** X17.  When the name of every markdown file of the summaries
    directory starts with a date, the records of the page are in
    descending order of date: no record is older than one that comes
    after it. *)
Theorem records_newest_first (d : directory) :
  dated d = true -> StronglySorted not_older (records d).
Proof.
  intros Hd. unfold records.
  apply (sorted_omap not_before); [|apply sorted_reverse_sorted].
  intros a b a' b' Ha Hb Hab Pa Pb.
  assert (Hdate : forall e s, In e (Build.sorted_reverse
                                      (List.filter (fun e => Glob.fnmatch "*.md" (fst e)) d)) ->
                              Build.parse_summary (fst e) (snd e) = Some s ->
                              Build.date s = Build.take 10 (fst e)).
  { intros e s He Ps. apply In_sorted_reverse, filter_In in He as [He Hmd].
    unfold dated in Hd. rewrite forallb_forall in Hd. specialize (Hd e He).
    rewrite Hmd in Hd. cbn [negb orb] in Hd. apply bool_decide_eq_true in Hd as [g Hg].
    rewrite (parse_summary_date _ _ _ _ Ps Hg). exact (date_of_name _ _ Hg). }
  unfold not_older. rewrite (Hdate a a' Ha Pa), (Hdate b b' Hb Pb).
  apply ltb_take. exact Hab.
Qed.

Lemma records_newest_first_witness :
  StronglySorted not_older
    (records [("2025-01-01-abcdefgh123.md", plain "# One");
              ("notes.txt", plain "");
              ("2025-02-02-dQw4w9WgXcQ.md", plain "# Two")]).
Proof. apply records_newest_first. reflexivity. Defined.

(** ** The page and the order of the directory *)

Lemma insert_desc_perm (x : string * node) (l : list (string * node)) :
  Permutation (Build.insert_desc x l) (x :: l).
Proof.
  induction l as [|y l IH]; cbn [Build.insert_desc]; [apply Permutation_refl|].
  destruct (String.ltb (fst x) (fst y)); [|apply Permutation_refl].
  apply (Permutation_trans (perm_skip y IH)). apply perm_swap.
Qed.

Lemma sorted_reverse_perm (l : list (string * node)) :
  Permutation (Build.sorted_reverse l) l.
Proof.
  unfold Build.sorted_reverse. induction l as [|x l IH]; [apply perm_nil|].
  cbn [fold_right]. apply (Permutation_trans (insert_desc_perm _ _)).
  apply perm_skip, IH.
Qed.

Lemma filter_perm {A} (f : A -> bool) (l l' : list A) :
  Permutation l l' -> Permutation (List.filter f l) (List.filter f l').
Proof.
  intros H. induction H as [|x l l' H IH|x y l|l l' l'' H1 IH1 H2 IH2].
  - apply perm_nil.
  - cbn [List.filter]. destruct (f x); [apply perm_skip|]; exact IH.
  - cbn [List.filter]. destruct (f x), (f y);
      try apply Permutation_refl. apply perm_swap.
  - exact (Permutation_trans IH1 IH2).
Qed.

Lemma filter_names (f : string * node -> bool) (l : list (string * node)) :
  List.NoDup (map fst l) -> List.NoDup (map fst (List.filter f l)).
Proof.
  induction l as [|x l IH]; intros H; [constructor|].
  cbn [map] in H. apply List.NoDup_cons_iff in H as [Hx Hl].
  cbn [List.filter]. destruct (f x); [|exact (IH Hl)].
  cbn [map]. apply List.NoDup_cons; [|exact (IH Hl)].
  intros Hin. apply Hx. apply in_map_iff in Hin as (e & He & Hf).
  apply filter_In in Hf as [Hf _]. apply in_map_iff. exists e. split; assumption.
Qed.

Lemma same_name (x y : string * node) :
  not_before x y -> not_before y x -> fst x = fst y.
Proof.
  unfold not_before, String.ltb. intros H1 H2.
  rewrite (String.compare_antisym (fst y) (fst x)) in H2.
  destruct (String.compare (fst x) (fst y)) eqn:E;
    [exact (String.compare_eq_iff _ _ E)|discriminate H1|discriminate H2].
Qed.

(** Two lists of the same files in descending order of name are equal. *)
Lemma sorted_unique (l1 : list (string * node)) :
  forall l2,
    StronglySorted not_before l1 -> StronglySorted not_before l2 ->
    Permutation l1 l2 -> List.NoDup (map fst l1) -> l1 = l2.
Proof.
  induction l1 as [|x l1 IH]; intros l2 S1 S2 P N.
  - apply Permutation_nil in P. symmetry. exact P.
  - destruct l2 as [|y l2]; [apply Permutation_sym, Permutation_nil in P; discriminate P|].
    apply StronglySorted_inv in S1 as [S1 F1].
    apply StronglySorted_inv in S2 as [S2 F2].
    rewrite List.Forall_forall in F1, F2.
    cbn [map] in N. apply List.NoDup_cons_iff in N as [Nx N].
    assert (E : x = y).
    { assert (Hx : In x (y :: l2)) by (apply (Permutation_in _ P); left; reflexivity).
      assert (Hy : In y (x :: l1))
        by (apply (Permutation_in _ (Permutation_sym P)); left; reflexivity).
      destruct Hx as [Hx|Hx]; [symmetry; exact Hx|].
      destruct Hy as [Hy|Hy]; [exact Hy|].
      exfalso. apply Nx. rewrite (same_name x y (F1 y Hy) (F2 x Hx)).
      apply in_map. exact Hy. }
    subst y. f_equal. apply IH; try assumption.
    exact (Permutation_cons_inv P).
Qed.

(** X18.  The records of the page do not depend on the order in which
    the summaries directory is scanned: two listings of the same files,
    each name occurring once, give the same records in the same
    order. *)
Theorem page_ignores_scan_order (d d' : directory) :
  List.NoDup (map fst d) -> Permutation d d' -> records d = records d'.
Proof.
  intros N P. unfold records. f_equal.
  apply sorted_unique; try apply sorted_reverse_sorted.
  - apply (Permutation_trans (sorted_reverse_perm _)).
    apply (Permutation_trans (filter_perm _ _ _ P)).
    apply Permutation_sym, sorted_reverse_perm.
  - apply (Permutation_NoDup (Permutation_map fst (Permutation_sym (sorted_reverse_perm _)))).
    apply filter_names, N.
Qed.

Lemma page_ignores_scan_order_witness :
  records [("2025-01-01-abcdefgh123.md", plain "# One");
           ("2025-02-02-dQw4w9WgXcQ.md", plain "# Two")]
  = records [("2025-02-02-dQw4w9WgXcQ.md", plain "# Two");
             ("2025-01-01-abcdefgh123.md", plain "# One")].
Proof.
  apply page_ignores_scan_order.
  - repeat constructor; simpl; intuition discriminate.
  - apply perm_swap.
Defined.

(** ** The identifier taken from the path *)

Lemma split_segments (sep : ascii) (s : string) :
  forall seg, In seg (Str.split sep s) -> Str.mem sep seg = false.
Proof.
  induction s as [|c s IH]; intros seg H.
  - destruct H as [<-|[]]. reflexivity.
  - cbn [Str.split] in H. destruct (Ascii.eqb c sep) eqn:E.
    + destruct H as [<-|H]; [reflexivity|exact (IH seg H)].
    + destruct (Str.split sep s) as [|h t] eqn:Es.
      * destruct H as [<-|[]]. cbn [Str.mem]. rewrite Ascii.eqb_sym, E. reflexivity.
      * destruct H as [<-|H].
        -- cbn [Str.mem]. rewrite Ascii.eqb_sym, E. apply IH. left. reflexivity.
        -- apply IH. right. exact H.
Qed.

Lemma last_In (l : list string) : l <> [] -> In (Str.last l) l.
Proof.
  unfold Str.last. induction l as [|x l IH]; [contradiction|]. intros _.
  destruct l as [|y l]; [left; reflexivity|].
  right. apply IH. discriminate.
Qed.

Lemma mem_app (c : ascii) (a b : string) :
  Str.mem c (a +:+ b) = Str.mem c a || Str.mem c b.
Proof.
  induction a as [|x a IH]; [reflexivity|].
  change (String x a +:+ b) with (String x (a +:+ b)). cbn [Str.mem].
  rewrite IH, orb_assoc. reflexivity.
Qed.

(** X19.  The identifier that PATCH and DELETE take from the path holds
    no "/", and neither does any of the five patterns that DELETE makes
    of it: a pattern names entries of its own content directory only. *)
Theorem identifier_has_no_slash (path : string) :
  Str.mem "/" (last_segment path) = false /\
  forall p, In p (patterns (last_segment path)) -> Str.mem "/" (snd p) = false.
Proof.
  assert (H : Str.mem "/" (last_segment path) = false).
  { unfold last_segment. apply (split_segments "/" path).
    apply last_In, split_nonempty. }
  split; [exact H|]. intros p Hp. cbn [patterns In] in Hp.
  repeat (destruct Hp as [<-|Hp];
          [cbn [snd]; rewrite !mem_app, H; reflexivity|]).
  destruct Hp.
Qed.
